(** * XMODEM.py: the XMODEM / XMODEM-8k handler of the Carvera controller

    A shallow embedding of [carveracontroller/XMODEM.py]: the checksum and
    CRC engine, the packet built by [send] and taken apart by [recv], and
    the two retry loops, over a scripted transport.

    Conventions.
    - A Python [bytes] value is a [list Z]; every element the code builds
      is in 0..255, and hypotheses say so where a proof needs it.
    - Python ints are [Z]; [//] is [Z.div], [%] is [Z.modulo], the bit
      operators are [Z.land], [Z.lor], [Z.lxor], [Z.shiftl], [Z.shiftr].
    - [getc] and [putc] are the two callables handed to the constructor.
      They are external, so the model scripts them: each [getc] call takes
      the next scripted answer ([None] is a timeout, and an exhausted script
      times out for ever), each [putc] call takes the next scripted
      acceptance flag.  The sizes asked of [getc] and the data handed to
      [putc] are logged.  Timeout arguments, logging, [print], [time.sleep]
      and the optional [callback] (default [None]) have no effect on the
      protocol and are left out.
    - A Python exception leaves the call through [PyRaise]. *)

From Stdlib Require Import ZArith List Bool Lia.
Import ListNotations.
Open Scope Z_scope.

Definition bytes := list Z.

Definition is_byte (b : Z) : Prop := 0 <= b < 256.

(** ** Protocol bytes *)

Definition SOH : bytes := [0x01].
Definition STX : bytes := [0x02].
Definition EOT : bytes := [0x04].
Definition ACK : bytes := [0x06].
Definition DLE : bytes := [0x10].
Definition NAK : bytes := [0x15].
Definition CAN : bytes := [0x16].
Definition CRC : bytes := [0x43].

Fixpoint bytes_eqb (a b : bytes) : bool :=
  match a, b with
  | [], [] => true
  | x :: a', y :: b' => (x =? y) && bytes_eqb a' b'
  | _, _ => false
  end.

(** [char == K] where [char] is what [getc] returned ([None] on timeout). *)
Definition char_is (char : option bytes) (k : bytes) : bool :=
  match char with
  | Some c => bytes_eqb c k
  | None => false
  end.

(** Python truthiness of a [getc] result: [None] and [b''] are falsy. *)
Definition truthy (char : option bytes) : bool :=
  match char with
  | Some (_ :: _) => true
  | _ => false
  end.

(** ** Checksum and CRC engine *)

Definition crctable : list Z :=
  [ 0x0000; 0x1021; 0x2042; 0x3063; 0x4084; 0x50a5; 0x60c6; 0x70e7;
    0x8108; 0x9129; 0xa14a; 0xb16b; 0xc18c; 0xd1ad; 0xe1ce; 0xf1ef;
    0x1231; 0x0210; 0x3273; 0x2252; 0x52b5; 0x4294; 0x72f7; 0x62d6;
    0x9339; 0x8318; 0xb37b; 0xa35a; 0xd3bd; 0xc39c; 0xf3ff; 0xe3de;
    0x2462; 0x3443; 0x0420; 0x1401; 0x64e6; 0x74c7; 0x44a4; 0x5485;
    0xa56a; 0xb54b; 0x8528; 0x9509; 0xe5ee; 0xf5cf; 0xc5ac; 0xd58d;
    0x3653; 0x2672; 0x1611; 0x0630; 0x76d7; 0x66f6; 0x5695; 0x46b4;
    0xb75b; 0xa77a; 0x9719; 0x8738; 0xf7df; 0xe7fe; 0xd79d; 0xc7bc;
    0x48c4; 0x58e5; 0x6886; 0x78a7; 0x0840; 0x1861; 0x2802; 0x3823;
    0xc9cc; 0xd9ed; 0xe98e; 0xf9af; 0x8948; 0x9969; 0xa90a; 0xb92b;
    0x5af5; 0x4ad4; 0x7ab7; 0x6a96; 0x1a71; 0x0a50; 0x3a33; 0x2a12;
    0xdbfd; 0xcbdc; 0xfbbf; 0xeb9e; 0x9b79; 0x8b58; 0xbb3b; 0xab1a;
    0x6ca6; 0x7c87; 0x4ce4; 0x5cc5; 0x2c22; 0x3c03; 0x0c60; 0x1c41;
    0xedae; 0xfd8f; 0xcdec; 0xddcd; 0xad2a; 0xbd0b; 0x8d68; 0x9d49;
    0x7e97; 0x6eb6; 0x5ed5; 0x4ef4; 0x3e13; 0x2e32; 0x1e51; 0x0e70;
    0xff9f; 0xefbe; 0xdfdd; 0xcffc; 0xbf1b; 0xaf3a; 0x9f59; 0x8f78;
    0x9188; 0x81a9; 0xb1ca; 0xa1eb; 0xd10c; 0xc12d; 0xf14e; 0xe16f;
    0x1080; 0x00a1; 0x30c2; 0x20e3; 0x5004; 0x4025; 0x7046; 0x6067;
    0x83b9; 0x9398; 0xa3fb; 0xb3da; 0xc33d; 0xd31c; 0xe37f; 0xf35e;
    0x02b1; 0x1290; 0x22f3; 0x32d2; 0x4235; 0x5214; 0x6277; 0x7256;
    0xb5ea; 0xa5cb; 0x95a8; 0x8589; 0xf56e; 0xe54f; 0xd52c; 0xc50d;
    0x34e2; 0x24c3; 0x14a0; 0x0481; 0x7466; 0x6447; 0x5424; 0x4405;
    0xa7db; 0xb7fa; 0x8799; 0x97b8; 0xe75f; 0xf77e; 0xc71d; 0xd73c;
    0x26d3; 0x36f2; 0x0691; 0x16b0; 0x6657; 0x7676; 0x4615; 0x5634;
    0xd94c; 0xc96d; 0xf90e; 0xe92f; 0x99c8; 0x89e9; 0xb98a; 0xa9ab;
    0x5844; 0x4865; 0x7806; 0x6827; 0x18c0; 0x08e1; 0x3882; 0x28a3;
    0xcb7d; 0xdb5c; 0xeb3f; 0xfb1e; 0x8bf9; 0x9bd8; 0xabbb; 0xbb9a;
    0x4a75; 0x5a54; 0x6a37; 0x7a16; 0x0af1; 0x1ad0; 0x2ab3; 0x3a92;
    0xfd2e; 0xed0f; 0xdd6c; 0xcd4d; 0xbdaa; 0xad8b; 0x9de8; 0x8dc9;
    0x7c26; 0x6c07; 0x5c64; 0x4c45; 0x3ca2; 0x2c83; 0x1ce0; 0x0cc1;
    0xef1f; 0xff3e; 0xcf5d; 0xdf7c; 0xaf9b; 0xbfba; 0x8fd9; 0x9ff8;
    0x6e17; 0x7e36; 0x4e55; 0x5e74; 0x2e93; 0x3eb2; 0x0ed1; 0x1ef0 ].

(** [sum(data)] *)
Definition sum (data : bytes) : Z := fold_left Z.add data 0.

(** [calc_checksum(data, checksum=0)], the Python 3 branch. *)
Definition calc_checksum (data : bytes) (checksum : Z) : Z :=
  (sum data + checksum) mod 256.

(** One turn of the [for char in bytearray(data)] loop of [calc_crc]. *)
Definition crc_update (crc char : Z) : Z :=
  let crctbl_idx := Z.land (Z.lxor (Z.shiftr crc 8) char) 0xff in
  Z.land (Z.lxor (Z.shiftl crc 8) (nth (Z.to_nat crctbl_idx) crctable 0)) 0xffff.

(** [calc_crc(data, crc=0)] *)
Definition calc_crc (data : bytes) (crc : Z) : Z :=
  Z.land (fold_left crc_update data crc) 0xffff.

(** *** The bitwise CCITT/XMODEM CRC the table has to agree with

    Follows the specification's wording, not the source: polynomial 0x1021,
    most significant bit first, each input byte XORed into the high byte of
    the 16-bit register and then shifted out in eight steps. *)

Definition ref_crc_bit (crc : Z) : Z :=
  if Z.testbit crc 15
  then Z.land (Z.lxor (Z.shiftl crc 1) 0x1021) 0xffff
  else Z.land (Z.shiftl crc 1) 0xffff.

Definition ref_crc_byte (crc char : Z) : Z :=
  Nat.iter 8 ref_crc_bit (Z.lxor crc (Z.shiftl char 8)).

Definition ref_crc16 (data : bytes) (seed : Z) : Z :=
  fold_left ref_crc_byte data seed.

(** ** Packet construction ([send], [_make_send_header],
       [_make_send_checksum]) *)

Inductive Mode := xmodem | xmodem8k | mode_other.

(** [dict(xmodem=128, xmodem8k=8192)[self.mode]]; [None] is the [KeyError]. *)
Definition packet_size_of (m : Mode) : option Z :=
  match m with
  | xmodem => Some 128
  | xmodem8k => Some 8192
  | mode_other => None
  end.

(** [1 if packet_size > 255 else 0] *)
Definition is_stx_of (packet_size : Z) : Z :=
  if 255 <? packet_size then 1 else 0.

Definition len (data : bytes) : Z := Z.of_nat (length data).

(** [data.ljust(packet_size, pad)] *)
Definition ljust (data : bytes) (packet_size : Z) (pad : Z) : bytes :=
  data ++ repeat pad (Z.to_nat (packet_size - len data)).

(** [bytes([...])] and [bytearray([...])] raise [ValueError] for an element
    outside 0..255. *)
Definition to_bytes (l : list Z) : option bytes :=
  if forallb (fun b => (0 <=? b) && (b <? 256)) l then Some l else None.

(** [_make_send_header]; [None] is the failed [assert], or the [ValueError]
    of [bytearray(_bytes)] for a [sequence] outside 0..255. *)
Definition _make_send_header (packet_size sequence : Z) : option bytes :=
  if packet_size =? 128 then to_bytes [0x01; sequence; 0xff - sequence]
  else if packet_size =? 8192 then to_bytes [0x02; sequence; 0xff - sequence]
  else None.

(** [_make_send_checksum] *)
Definition _make_send_checksum (crc_mode : Z) (data : bytes) : bytes :=
  if crc_mode =? 0
  then [calc_checksum data 0]
  else let crc := calc_crc data 0 in [Z.shiftr crc 8; Z.land crc 0xff].

(** The length prefix and padded payload of lines 323-326:
    [bytes([len(data) & 0xff])] or [bytes([len(data) >> 8, len(data) & 0xff])]
    joined with [data.ljust(packet_size, self.pad)]. *)
Definition send_body (is_stx packet_size pad : Z) (data : bytes) : option bytes :=
  let prefix :=
    if is_stx =? 0
    then to_bytes [Z.land (len data) 0xff]
    else to_bytes [Z.shiftr (len data) 8; Z.land (len data) 0xff] in
  match prefix with
  | Some p => Some (p ++ ljust data packet_size pad)
  | None => None
  end.

(** [header + data + checksum], the packet handed to [putc]. *)
Definition send_packet (packet_size sequence pad crc_mode : Z) (data : bytes)
  : option bytes :=
  match _make_send_header packet_size sequence with
  | None => None
  | Some header =>
      match send_body (is_stx_of packet_size) packet_size pad data with
      | None => None
      | Some body => Some (header ++ body ++ _make_send_checksum crc_mode body)
      end
  end.

(** ** Packet verification ([_verify_recv_checksum] and the slicing in
       [recv]) *)

(** [data[-n:]] and [data[:-n]] for n > 0 *)
Definition last_n (n : nat) (data : bytes) : bytes :=
  skipn (length data - n) data.
Definition drop_last_n (n : nat) (data : bytes) : bytes :=
  firstn (length data - n) data.

(** [_verify_recv_checksum]; [None] is the [IndexError] of a body too short
    to hold a trailer. *)
Definition _verify_recv_checksum (crc_mode : Z) (data : bytes)
  : option (bool * bytes) :=
  if crc_mode =? 0 then
    match last_n 1 data with
    | their_sum :: _ =>
        let data' := drop_last_n 1 data in
        let our_sum := calc_checksum data' 0 in
        Some (their_sum =? our_sum, data')
    | [] => None
    end
  else
    match last_n 2 data with
    | c0 :: c1 :: _ =>
        let their_sum := Z.shiftl c0 8 + c1 in
        let data' := drop_last_n 2 data in
        let our_sum := calc_crc data' 0 in
        Some (their_sum =? our_sum, data')
    | _ => None
    end.

(** [data[a:b]] for 0 <= a *)
Definition slice (data : bytes) (a b : Z) : bytes :=
  firstn (Z.to_nat (b - a)) (skipn (Z.to_nat a) data).

(** [data_len = data[0] << 8 | data[1] if is_stx else data[0]]; [None] is
    the [IndexError]. *)
Definition data_len_of (is_stx : Z) (data : bytes) : option Z :=
  if is_stx =? 0 then
    match data with
    | d0 :: _ => Some d0
    | _ => None
    end
  else
    match data with
    | d0 :: d1 :: _ => Some (Z.lor (Z.shiftl d0 8) d1)
    | _ => None
    end.

(** [data[1 + is_stx : data_len + 1 + is_stx]], what [recv] writes to the
    stream for a verified block. *)
Definition block_content (is_stx : Z) (data : bytes) : option bytes :=
  match data_len_of is_stx data with
  | Some data_len => Some (slice data (1 + is_stx) (data_len + 1 + is_stx))
  | None => None
  end.

(** ** The session object and the outside world *)

Record Session := mkSession {
  mode : Mode;
  mode_set : bool;
  pad : Z;
  canceled : bool
}.

(** [XMODEM(getc, putc, mode='xmodem8k', pad=b'\x1a')] *)
Definition __init__ (m : Mode) (p : Z) : Session :=
  mkSession m false p false.

Definition clear_mode_set (s : Session) : Session :=
  mkSession (mode s) false (pad s) (canceled s).

Definition set_canceled (s : Session) (c : bool) : Session :=
  mkSession (mode s) (mode_set s) (pad s) c.

(** Line 471-473 and 477-479: [if not self.mode_set: self.mode = m;
    self.mode_set = True]. *)
Definition lock_mode (s : Session) (m : Mode) : Session :=
  if mode_set s then s else mkSession m true (pad s) (canceled s).

(** The transport script, its logs, and the two streams.
    - [w_in]: the answers the coming [getc] calls give;
    - [w_acc]: whether the coming [putc] calls return a truthy count;
    - [w_req]: the sizes asked of [getc] so far;
    - [w_out]: the data handed to [putc] so far;
    - [w_src]: what is left of the stream [send] reads from;
    - [w_sink]: what [recv] has written to its stream. *)
Record World := mkWorld {
  w_in : list (option bytes);
  w_acc : list bool;
  w_req : list Z;
  w_out : list bytes;
  w_src : bytes;
  w_sink : bytes
}.

Definition getc (size : Z) (w : World) : option bytes * World :=
  match w_in w with
  | [] => (None, mkWorld [] (w_acc w) (w_req w ++ [size]) (w_out w) (w_src w) (w_sink w))
  | r :: rest =>
      (r, mkWorld rest (w_acc w) (w_req w ++ [size]) (w_out w) (w_src w) (w_sink w))
  end.

Definition putc (data : bytes) (w : World) : bool * World :=
  match w_acc w with
  | [] => (true, mkWorld (w_in w) [] (w_req w) (w_out w ++ [data]) (w_src w) (w_sink w))
  | a :: rest =>
      (a, mkWorld (w_in w) rest (w_req w) (w_out w ++ [data]) (w_src w) (w_sink w))
  end.

(** [self.putc(data)] with the result dropped *)
Definition putc_ (data : bytes) (w : World) : World := snd (putc data w).

(** [stream.read(packet_size)] *)
Definition stream_read (packet_size : Z) (w : World) : bytes * World :=
  (firstn (Z.to_nat packet_size) (w_src w),
   mkWorld (w_in w) (w_acc w) (w_req w) (w_out w)
           (skipn (Z.to_nat packet_size) (w_src w)) (w_sink w)).

(** [stream.write(data)] *)
Definition stream_write (data : bytes) (w : World) : World :=
  mkWorld (w_in w) (w_acc w) (w_req w) (w_out w) (w_src w) (w_sink w ++ data).

(** [abort(count=2)]: [for _ in range(count): self.putc(CAN, timeout)] *)
Definition abort (count : nat) (w : World) : World :=
  Nat.iter count (putc_ CAN) w.

(** [while self.getc(1, timeout): pass].  The script is finite and an
    exhausted script answers [None], so [S (length (w_in w))] turns are
    enough. *)
Fixpoint drain_loop (fuel : nat) (w : World) : World :=
  match fuel with
  | O => w
  | S fuel' =>
      let (char, w') := getc 1 w in
      if truthy char then drain_loop fuel' w' else w'
  end.

Definition drain (w : World) : World := drain_loop (S (length (w_in w))) w.

(** [while True: if self.getc(1, timeout) == None: break] *)
Fixpoint purge_loop (fuel : nat) (w : World) : World :=
  match fuel with
  | O => w
  | S fuel' =>
      let (char, w') := getc 1 w in
      match char with
      | None => w'
      | Some _ => purge_loop fuel' w'
      end
  end.

Definition purge (w : World) : World := purge_loop (S (length (w_in w))) w.

(** The three [self.putc(CAN)] and the drain of lines 301-305, 516-520 and
    616-620. *)
Definition cancel_sequence (w : World) : World :=
  drain (putc_ CAN (putc_ CAN (putc_ CAN w))).

(** ** Results *)

Inductive PyVal :=
| PyTrue
| PyFalse
| PyNone
| PyInt (n : Z).

Inductive Outcome :=
| Returned (v : PyVal)
| PyRaise
| OutOfFuel.

(** What one turn of a [while True] loop does: go round again, leave the
    loop by [break], or leave the function. *)
Inductive Step (A : Type) :=
| Next (a : A) (s : Session) (w : World)
| Break (a : A) (s : Session) (w : World)
| Done (o : Outcome) (s : Session) (w : World).
Arguments Next {A}.
Arguments Break {A}.
Arguments Done {A}.

Definition Result : Type := Outcome * Session * World.

(** ** [send] *)

(** Lines 256-290.  [Break (crc_mode, cancel)] is the [break]. *)
Fixpoint send_start (fuel : nat) (retry error_count : Z) (cancel : bool)
                    (s : Session) (w : World) : Step (Z * bool) :=
  match fuel with
  | O => Done OutOfFuel s w
  | S fuel' =>
      let (char, w1) := getc 1 w in
      let continue (cancel' : bool) :=
        let error_count' := error_count + 1 in
        if retry <? error_count'
        then Done (Returned PyFalse) s (abort 2 w1)
        else send_start fuel' retry error_count' cancel' s w1 in
      if truthy char then
        if char_is char NAK then Break (0, cancel) s w1
        else if char_is char CRC then Break (1, cancel) s w1
        else if char_is char CAN then
          if cancel then Done (Returned PyNone) s w1 else continue true
        else if char_is char EOT then Done (Returned PyFalse) s w1
        else continue cancel
      else continue cancel
  end.

Record SendSt := mkSendSt {
  s_error_count : Z;
  s_success_count : Z;
  s_total_packets : Z;
  s_sequence : Z;
  s_md5_sent : bool;
  s_cancel : bool
}.

(** Lines 330-359, the [while True] that emits one packet. [Break] is the
    [break] after an ACK. *)
Fixpoint send_emit (fuel : nat) (retry : Z) (packet : bytes)
                   (st : SendSt) (s : Session) (w : World) : Step SendSt :=
  match fuel with
  | O => Done OutOfFuel s w
  | S fuel' =>
      let w1 := putc_ packet w in
      let (char, w2) := getc 1 w1 in
      if char_is char ACK then
        Break (mkSendSt 0 (s_success_count st + 1) (s_total_packets st)
                        (s_sequence st) (s_md5_sent st) (s_cancel st)) s w2
      else if char_is char CAN && s_cancel st then
        Done (Returned PyFalse) s w2
      else
        let cancel' := if char_is char CAN then true else s_cancel st in
        let error_count' := s_error_count st + 1 in
        if retry <? error_count'
        then Done (Returned PyFalse) s (abort 2 w2)
        else send_emit fuel' retry packet
               (mkSendSt error_count' (s_success_count st) (s_total_packets st)
                         (s_sequence st) (s_md5_sent st) cancel') s w2
  end.

(** Lines 310-316: the hash block first, then the stream, block by block. *)
Definition send_next_data (packet_size : Z) (md5 : bytes) (st : SendSt) (w : World)
  : bytes * SendSt * World :=
  if negb (s_md5_sent st) && (s_sequence st =? 0)
  then (md5,
        mkSendSt (s_error_count st) (s_success_count st) (s_total_packets st)
                 (s_sequence st) true (s_cancel st),
        w)
  else let (d, w') := stream_read packet_size w in
       (d,
        mkSendSt (s_error_count st) (s_success_count st)
                 (s_total_packets st + 1) (s_sequence st) (s_md5_sent st)
                 (s_cancel st),
        w').

(** Line 362: [sequence = (sequence + 1) % 0x100]. *)
Definition send_next_sequence (st : SendSt) : SendSt :=
  mkSendSt (s_error_count st) (s_success_count st) (s_total_packets st)
           ((s_sequence st + 1) mod 0x100) (s_md5_sent st) (s_cancel st).

(** One turn of the [while True] of line 299. [Break] is the end of the
    source stream. *)
Definition send_block (fuel : nat) (retry packet_size crc_mode : Z) (md5 : bytes)
                      (st : SendSt) (s : Session) (w : World) : Step SendSt :=
  if canceled s then
    Done (Returned PyNone) (set_canceled s false) (cancel_sequence w)
  else
    let '(data, st1, w1) := send_next_data packet_size md5 st w in
    match data with
    | [] => Break st1 s w1
    | _ :: _ =>
        match send_packet packet_size (s_sequence st1) (pad s) crc_mode data with
        | None => Done PyRaise s w1
        | Some packet =>
            match send_emit fuel retry packet st1 s w1 with
            | Break st2 s2 w2 => Next (send_next_sequence st2) s2 w2
            | other => other
            end
        end
    end.

(** Lines 364-379, the EOT handshake. *)
Fixpoint send_eot (fuel : nat) (retry error_count : Z)
                  (s : Session) (w : World) : Result :=
  match fuel with
  | O => (OutOfFuel, s, w)
  | S fuel' =>
      let w1 := putc_ EOT w in
      let (char, w2) := getc 1 w1 in
      if char_is char ACK then (Returned PyTrue, s, w2)
      else
        let error_count' := error_count + 1 in
        if retry <? error_count'
        then (Returned PyFalse, s, abort 2 w2)
        else send_eot fuel' retry error_count' s w2
  end.

Fixpoint send_blocks (fuel : nat) (retry packet_size crc_mode : Z) (md5 : bytes)
                     (st : SendSt) (s : Session) (w : World) : Result :=
  match fuel with
  | O => (OutOfFuel, s, w)
  | S fuel' =>
      match send_block fuel' retry packet_size crc_mode md5 st s w with
      | Next st' s' w' => send_blocks fuel' retry packet_size crc_mode md5 st' s' w'
      | Break st' s' w' => send_eot fuel' retry (s_error_count st') s' w'
      | Done o s' w' => (o, s', w')
      end
  end.

(** [send(stream, md5, retry=16)]; [md5] is [md5.encode()]. *)
Definition send (fuel : nat) (s : Session) (md5 : bytes) (retry : Z) (w : World)
  : Result :=
  match packet_size_of (mode s) with
  | None => (PyRaise, s, w)
  | Some packet_size =>
      match send_start fuel retry 0 false s w with
      | Break (crc_mode, cancel) s1 w1 =>
          send_blocks fuel retry packet_size crc_mode md5
                      (mkSendSt 0 0 0 0 false cancel) s1 w1
      | Next _ s1 w1 => (OutOfFuel, s1, w1)
      | Done o s1 w1 => (o, s1, w1)
      end
  end.

(** ** [recv] *)

(** Lines 444-491.  [Break (char, crc_mode)] is the [break] on SOH or STX. *)
Fixpoint recv_start (fuel : nat) (retry crc_mode error_count : Z) (cancel : bool)
                    (s : Session) (w : World) : Step (option bytes * Z) :=
  match fuel with
  | O => Done OutOfFuel s w
  | S fuel' =>
      if retry <=? error_count then Done (Returned PyNone) s (abort 2 w)
      else
        let '(crc_mode1, error_count1, w1) :=
          if negb (crc_mode =? 0) && (error_count <? retry / 2)
          then let (ok, w') := putc CRC w in
               (crc_mode, if ok then error_count else error_count + 1, w')
          else let (ok, w') := putc NAK w in
               (0, if ok then error_count else error_count + 1, w') in
        let (char, w2) := getc 1 w1 in
        match char with
        | None => recv_start fuel' retry crc_mode1 (error_count1 + 1) cancel s w2
        | Some c =>
            if bytes_eqb c SOH then Break (char, crc_mode1) (lock_mode s xmodem) w2
            else if bytes_eqb c STX then Break (char, crc_mode1) (lock_mode s xmodem8k) w2
            else if bytes_eqb c CAN then
              if cancel then Done (Returned PyNone) s w2
              else recv_start fuel' retry crc_mode1 error_count1 true s w2
            else recv_start fuel' retry crc_mode1 (error_count1 + 1) cancel s w2
        end
  end.

Record RecvSt := mkRecvSt {
  r_char : option bytes;
  r_error_count : Z;
  r_cancel : bool;
  r_sequence : Z;
  r_retrans : Z;
  r_md5_received : bool;
  r_income_size : Z;
  r_success_count : Z
}.

Definition set_char (st : RecvSt) (char : option bytes) : RecvSt :=
  mkRecvSt char (r_error_count st) (r_cancel st) (r_sequence st) (r_retrans st)
           (r_md5_received st) (r_income_size st) (r_success_count st).

(** Lines 524-571, the inner [while True] that looks at [char] until it is a
    start byte.  [Break] is the [break] on SOH or STX. *)
Fixpoint recv_wait (fuel : nat) (retry : Z)
                   (st : RecvSt) (s : Session) (w : World) : Step RecvSt :=
  match fuel with
  | O => Done OutOfFuel s w
  | S fuel' =>
      let char := r_char st in
      if char_is char SOH || char_is char STX then Break st s w
      else if char_is char EOT then
        Done (Returned (PyInt (r_income_size st))) s (putc_ ACK w)
      else if char_is char CAN then
        if r_cancel st then Done (Returned PyNone) s w
        else recv_wait fuel' retry
               (mkRecvSt char (r_error_count st) true (r_sequence st)
                         (r_retrans st) (r_md5_received st) (r_income_size st)
                         (r_success_count st)) s w
      else
        let error_count' := r_error_count st + 1 in
        if retry <? error_count' then Done (Returned PyNone) s (abort 2 w)
        else
          let w1 :=
            match char with
            | None => w
            | Some _ => putc_ NAK (purge w)
            end in
          let (char', w2) := getc 1 w1 in
          recv_wait fuel' retry
            (mkRecvSt char' error_count' (r_cancel st) (r_sequence st)
                      (r_retrans st) (r_md5_received st) (r_income_size st)
                      (r_success_count st)) s w2
  end.

(** [ord(c)]; [None] is the [TypeError] for anything but one byte. *)
Definition ord (c : bytes) : option Z :=
  match c with
  | [b] => Some b
  | _ => None
  end.

(** Lines 635-648: purge, count the request down, NAK. *)
Definition recv_retrans (st : RecvSt) (s : Session) (w : World) : Step RecvSt :=
  let w1 := purge w in
  let retrans' := r_retrans st - 1 in
  if retrans' <=? 0 then Done (Returned PyNone) s (abort 2 w1)
  else
    let (char', w2) := getc 1 (putc_ NAK w1) in
    Next (mkRecvSt char' (r_error_count st) (r_cancel st) (r_sequence st)
                   retrans' (r_md5_received st) (r_income_size st)
                   (r_success_count st)) s w2.

(** Lines 629-633: ACK, next sequence number, next start byte. *)
Definition recv_ack (st : RecvSt) (s : Session) (w : World) : Step RecvSt :=
  let (char', w1) := getc 1 (putc_ ACK w) in
  Next (mkRecvSt char' (r_error_count st) (r_cancel st)
                 ((r_sequence st + 1) mod 0x100) (r_retrans st)
                 (r_md5_received st) (r_income_size st) (r_success_count st)) s w1.

(** Lines 611-633, the [if valid:] branch; [data] is the block without its
    trailer. *)
Definition recv_accept (retry is_stx : Z) (md5 data : bytes)
                       (st : RecvSt) (s : Session) (w : World) : Step RecvSt :=
  let retrans' := retry + 1 in
  if (r_sequence st =? 0) && negb (r_md5_received st) then
    if bytes_eqb md5 (slice data (1 + is_stx) (33 + is_stx))
    then Done (Returned (PyInt 0)) s (cancel_sequence w)
    else recv_ack (mkRecvSt (r_char st) (r_error_count st) (r_cancel st)
                            (r_sequence st) retrans' true (r_income_size st)
                            (r_success_count st)) s w
  else
    let income_size' := r_income_size st + (len data - 1 - is_stx) in
    match block_content is_stx data with
    | None => Done PyRaise s w
    | Some content =>
        recv_ack (mkRecvSt (r_char st) (r_error_count st) (r_cancel st)
                           (r_sequence st) retrans' (r_md5_received st)
                           income_size' (r_success_count st + 1))
                 s (stream_write content w)
    end.

(** Lines 597 and 635-648: the block is not the expected one. *)
Definition recv_mismatch (packet_size crc_mode : Z)
                         (st : RecvSt) (s : Session) (w : World) : Step RecvSt :=
  recv_retrans st s (snd (getc (2 + packet_size + 1 + crc_mode) w)).

(** Lines 574-575: [error_count = 0; cancel = 0]. *)
Definition clear_errors (st : RecvSt) : RecvSt :=
  mkRecvSt (r_char st) 0 false (r_sequence st) (r_retrans st)
           (r_md5_received st) (r_income_size st) (r_success_count st).

(** Lines 577-588: the two sequence bytes, [seq1] and [seq2], each [None]
    when its read timed out; the outer [None] is the [TypeError] of [ord]. *)
Definition read_sequence (w : World) : option (option Z * option Z) * World :=
  let (c1, w1) := getc 1 w in
  match c1 with
  | None => (Some (None, None), w1)
  | Some b1 =>
      match ord b1 with
      | None => (None, w1)
      | Some seq1 =>
          let (c2, w2) := getc 1 w1 in
          match c2 with
          | None => (Some (Some seq1, None), w2)
          | Some b2 =>
              match ord b2 with
              | None => (None, w2)
              | Some o2 => (Some (Some seq1, Some (0xff - o2)), w2)
              end
          end
      end
  end.

(** [a == b] on values that are an int or [None]. *)
Definition py_eqb (a b : option Z) : bool :=
  match a, b with
  | Some x, Some y => x =? y
  | None, None => true
  | _, _ => false
  end.

(** Line 590: [seq1 == seq2 == sequence]. *)
Definition sequence_ok (seq1 seq2 : option Z) (sequence : Z) : bool :=
  py_eqb seq1 seq2 && py_eqb seq2 (Some sequence).

(** Lines 599-633: the sequence is the expected one; read and check the
    rest of the block. *)
Definition recv_data (retry packet_size is_stx crc_mode : Z) (md5 : bytes)
                     (st : RecvSt) (s : Session) (w : World) : Step RecvSt :=
  let (data, w1) := getc (1 + is_stx + packet_size + 1 + crc_mode) w in
  match data with
  | None => recv_retrans st s w1
  | Some d =>
      match _verify_recv_checksum crc_mode d with
      | None => Done PyRaise s w1
      | Some (valid, d') =>
          if valid
          then recv_accept retry is_stx md5 d' st s w1
          else recv_retrans st s w1
      end
  end.

(** Lines 573-648: what follows a start byte. *)
Definition recv_packet (retry packet_size is_stx crc_mode : Z) (md5 : bytes)
                       (st : RecvSt) (s : Session) (w : World) : Step RecvSt :=
  let st0 := clear_errors st in
  match read_sequence w with
  | (None, w1) => Done PyRaise s w1
  | (Some (seq1, seq2), w1) =>
      if sequence_ok seq1 seq2 (r_sequence st0)
      then recv_data retry packet_size is_stx crc_mode md5 st0 s w1
      else recv_mismatch packet_size crc_mode st0 s w1
  end.

(** One turn of the [while True] of line 514. *)
Definition recv_block (fuel : nat) (retry packet_size is_stx crc_mode : Z)
                      (md5 : bytes)
                      (st : RecvSt) (s : Session) (w : World) : Step RecvSt :=
  if canceled s then
    Done (Returned (PyInt (-1))) (set_canceled s false) (cancel_sequence w)
  else
    match recv_wait fuel retry st s w with
    | Break st1 s1 w1 => recv_packet retry packet_size is_stx crc_mode md5 st1 s1 w1
    | other => other
    end.

Fixpoint recv_blocks (fuel : nat) (retry packet_size is_stx crc_mode : Z)
                     (md5 : bytes)
                     (st : RecvSt) (s : Session) (w : World) : Result :=
  match fuel with
  | O => (OutOfFuel, s, w)
  | S fuel' =>
      match recv_block fuel' retry packet_size is_stx crc_mode md5 st s w with
      | Next st' s' w' =>
          recv_blocks fuel' retry packet_size is_stx crc_mode md5 st' s' w'
      | Break _ s' w' => (OutOfFuel, s', w')
      | Done o s' w' => (o, s', w')
      end
  end.

(** The locals of [recv] as line 514 first finds them. *)
Definition recv_init (retry : Z) (char : option bytes) : RecvSt :=
  mkRecvSt char 0 false 0 (retry + 1) false 0 0.

(** [recv(stream, md5, crc_mode=1, retry=16)]; [md5] is [md5.encode()]. *)
Definition recv (fuel : nat) (s : Session) (md5 : bytes) (crc_mode retry : Z)
                (w : World) : Result :=
  match recv_start fuel retry crc_mode 0 false s w with
  | Break (char, crc_mode1) s1 w1 =>
      match packet_size_of (mode s1) with
      | None => (PyRaise, s1, w1)
      | Some packet_size =>
          recv_blocks fuel retry packet_size (is_stx_of packet_size) crc_mode1 md5
                      (recv_init retry char) s1 w1
      end
  | Next _ s1 w1 => (OutOfFuel, s1, w1)
  | Done o s1 w1 => (o, s1, w1)
  end.

(** ** Definitions the statements below use *)

(** What [recv] checks on one whole packet, in its order: the start byte
    (line 525), the sequence pair (line 590), the trailer (line 607); and
    the slice it hands to [stream.write] (lines 624-625).  [None] when a
    check fails. *)
Definition recv_decode (is_stx crc_mode sequence : Z) (packet : bytes)
  : option bytes :=
  match packet with
  | start :: b1 :: b2 :: body =>
      if (bytes_eqb [start] SOH || bytes_eqb [start] STX)
         && (b1 =? 0xff - b2) && (0xff - b2 =? sequence)
      then match _verify_recv_checksum crc_mode body with
           | Some (true, data) => block_content is_stx data
           | _ => None
           end
      else None
  | _ => None
  end.

(** The size of the trailer: one checksum byte or two CRC bytes. *)
Definition trailer_size (crc_mode : Z) : Z := if crc_mode =? 0 then 1 else 2.

Definition byte_range : list Z := map Z.of_nat (seq 0 256).

(** The table entry, and what eight bit steps make of a register whose high
    byte is the table index. *)
Definition table_step_ok (idx lo : Z) : bool :=
  (Nat.iter 8 ref_crc_bit (Z.lor (Z.shiftl idx 8) lo)
   =? Z.lxor (Z.shiftl lo 8) (nth (Z.to_nat idx) crctable 0))
  && (0 <=? nth (Z.to_nat idx) crctable 0)
  && (nth (Z.to_nat idx) crctable 0 <? 65536).


(** The three parts of what a call hands back. *)
Definition outcome_of (r : Result) : Outcome := fst (fst r).
Definition session_of (r : Result) : Session := snd (fst r).
Definition world_of (r : Result) : World := snd r.

Definition step_session {A : Type} (P : Session -> Prop) (stp : Step A) : Prop :=
  match stp with
  | Next _ s _ | Break _ s _ | Done _ s _ => P s
  end.

(** The two fields the first start byte of a receive pins. *)
Definition same_mode (s s' : Session) : Prop :=
  mode s' = mode s /\ mode_set s' = mode_set s.

(** The next [n] answers of a script: what is left of it, then timeouts. *)
Fixpoint next_answers (n : nat) (script : list (option bytes))
  : list (option bytes) :=
  match n with
  | O => []
  | S n' => hd None script :: next_answers n' (tl script)
  end.

Definition answers (n : nat) (w : World) : list (option bytes) :=
  next_answers n (w_in w).

(** What the start loop of [recv] can do to the session. *)
Definition locked_from (s s' : Session) : Prop :=
  s' = s \/ s' = lock_mode s xmodem \/ s' = lock_mode s xmodem8k.

(** The block-size mode a start byte stands for: SOH begins a block of 128
    bytes, STX one of 8192. *)
Definition start_mode (r : option bytes) : option Mode :=
  if char_is r SOH then Some xmodem
  else if char_is r STX then Some xmodem8k
  else None.

(** The mode of the first start byte of a transport script, if it has one. *)
Fixpoint first_start (script : list (option bytes)) : option Mode :=
  match script with
  | [] => None
  | r :: rest =>
      match start_mode r with
      | Some m => Some m
      | None => first_start rest
      end
  end.

(** An answer the start sequence of [recv] counts as an error: a timeout,
    or anything but SOH, STX and CAN. *)
Definition recv_start_junk (r : option bytes) : bool :=
  negb (char_is r SOH || char_is r STX || char_is r CAN).

(** No answer of [rs] is a CAN met with the [cancel] flag of [send] already
    up ([cancel] is where the flag stands before [rs]). *)
Fixpoint no_second_can (cancel : bool) (rs : list (option bytes)) : bool :=
  match rs with
  | [] => true
  | r :: rs' =>
      if char_is r CAN
      then negb cancel && no_second_can true rs'
      else no_second_can cancel rs'
  end.

(** The states in which one [recv] call stands at line 514, the top of its
    block loop, from the state [recv_init retry char0] it first comes
    there with. *)
Inductive recv_loop_head (retry packet_size is_stx crc_mode : Z) (md5 : bytes)
                         (char0 : option bytes) (s0 : Session) (w0 : World)
  : RecvSt -> Session -> World -> Prop :=
| head_first :
    recv_loop_head retry packet_size is_stx crc_mode md5 char0 s0 w0
                   (recv_init retry char0) s0 w0
| head_next (fuel : nat) (st st' : RecvSt) (s s' : Session) (w w' : World) :
    recv_loop_head retry packet_size is_stx crc_mode md5 char0 s0 w0 st s w ->
    recv_block fuel retry packet_size is_stx crc_mode md5 st s w = Next st' s' w' ->
    recv_loop_head retry packet_size is_stx crc_mode md5 char0 s0 w0 st' s' w'.

(** The states in which one [send] call stands at line 299, the top of its
    block loop. *)
Inductive send_loop_head (retry packet_size crc_mode : Z) (md5 : bytes)
                         (cancel0 : bool) (s0 : Session) (w0 : World)
  : SendSt -> Session -> World -> Prop :=
| shead_first :
    send_loop_head retry packet_size crc_mode md5 cancel0 s0 w0
                   (mkSendSt 0 0 0 0 false cancel0) s0 w0
| shead_next (fuel : nat) (st st' : SendSt) (s s' : Session) (w w' : World) :
    send_loop_head retry packet_size crc_mode md5 cancel0 s0 w0 st s w ->
    send_block fuel retry packet_size crc_mode md5 st s w = Next st' s' w' ->
    send_loop_head retry packet_size crc_mode md5 cancel0 s0 w0 st' s' w'.

(** What the wait for a start byte leaves alone. *)
Definition wait_frame (st : RecvSt) (w : World) (st1 : RecvSt) (w1 : World) : Prop :=
  r_sequence st1 = r_sequence st
  /\ r_retrans st1 = r_retrans st
  /\ r_md5_received st1 = r_md5_received st
  /\ r_income_size st1 = r_income_size st
  /\ r_success_count st1 = r_success_count st
  /\ w_sink w1 = w_sink w
  /\ w_src w1 = w_src w.

(** Until the hash block has been taken, [recv] expects sequence 0, has
    counted nothing and has written nothing. *)
Definition before_hash (w0 : World) (st : RecvSt) (w : World) : Prop :=
  r_md5_received st = false ->
  r_sequence st = 0 /\ r_income_size st = 0 /\ w_sink w = w_sink w0.

(** *** A transfer of 300 bytes in 128-byte blocks without errors *)

Definition source300 : bytes := map (fun i => Z.of_nat i mod 251) (seq 0 300).

(** The identifier the sender puts in block 0, and the one the receiver
    holds for its stale copy: 32 hexadecimal digits each. *)
Definition md5_new : bytes :=
  [0x39; 0x65; 0x31; 0x30; 0x37; 0x64; 0x39; 0x64; 0x33; 0x37; 0x32; 0x62; 0x62;
   0x36; 0x38; 0x32; 0x36; 0x62; 0x64; 0x38; 0x31; 0x64; 0x33; 0x35; 0x34; 0x32;
   0x61; 0x34; 0x31; 0x39; 0x64; 0x36].
Definition md5_old : bytes := repeat 0x30 32.

(** A world with the given transport script, every [putc] accepted, empty
    logs, the given source stream and an empty sink. *)
Definition world (script : list (option bytes)) (source : bytes) : World :=
  mkWorld script [] [] [] source [].

(** How the reads of [recv] cut the packets of the sender: start byte, the
    two sequence bytes, the rest in one read; a lone control byte in one. *)
Definition as_reads (packet : bytes) : list (option bytes) :=
  match packet with
  | start :: seq1 :: seq2 :: rest => [Some [start]; Some [seq1]; Some [seq2]; Some rest]
  | _ => [Some packet]
  end.

(** The sender of the 300 bytes, answered by a receiver that asks for CRC
    mode and acknowledges everything. *)
Definition send300 : Result :=
  send 100 (__init__ xmodem 0x1a) md5_new 16
       (world [Some CRC; Some ACK; Some ACK; Some ACK; Some ACK; Some ACK] source300).

(** The receiver, fed what that sender wrote. *)
Definition recv300 : Result :=
  recv 100 (__init__ xmodem8k 0x1a) md5_old 1 16
       (world (flat_map as_reads (w_out (world_of send300))) []).

(** Block 0 of that transfer as the receiver reads it after the start
    byte: the sequence pair, then the body with its CRC. *)
Definition block0_body : bytes := skipn 3 (nth 0 (w_out (world_of send300)) []).

Definition block0_world : World :=
  world [Some [0]; Some [0xff]; Some block0_body; Some [0x31]; None; Some [0x32]] [].

(** Block 1 of that transfer, met by a receiver that has taken the hash
    block and written nothing yet. *)
Definition block1_body : bytes := skipn 3 (nth 1 (w_out (world_of send300)) []).

Definition block1_world : World :=
  world [Some [1]; Some [0xfe]; Some block1_body; Some EOT] [].

Definition after_hash (retry : Z) (char : option bytes) : RecvSt :=
  mkRecvSt char 0 false 1 (retry + 1) true 0 0.

(** A block of sequence 1 in checksum mode that arrives as a short read of
    five bytes: declared length 200, three payload bytes, and the checksum
    of those four. *)
Definition short_block_world : World :=
  world [Some [1]; Some [0xfe]; Some [0xc8; 7; 8; 9; 0xe0]; Some EOT] [].

(** The receiver in checksum mode that is sent a one-byte hash block and
    then that short block. *)
Definition recv_short_read : Result :=
  recv 100 (__init__ xmodem 0x1a) md5_old 0 16
       (world [Some SOH; Some [0]; Some [0xff]; Some [0; 0];
               Some SOH; Some [1]; Some [0xfe]; Some [0xc8; 7; 8; 9; 0xe0];
               Some EOT] []).

(** A receiver in 8k mode whose first block comes with the sequence pair
    5, 250 (that is 5, 5) instead of 0. *)
Definition recv_wrong_sequence : Result :=
  recv 100 (__init__ xmodem8k 0x1a) md5_old 1 16
       (world [Some STX; Some [5]; Some [250]; Some [1; 2; 3]] []).

(** Two CAN bytes in answer to block 0 of a [send]; two CAN bytes where a
    [recv] that has taken block 0 waits for the next start byte; and the
    same with a single CAN followed by an ACK. *)
Definition send_two_can : Result :=
  send 100 (__init__ xmodem 0x1a) md5_new 16
       (world [Some NAK; Some CAN; Some CAN] source300).

Definition recv_two_can : Result :=
  recv 100 (__init__ xmodem8k 0x1a) md5_old 1 16
       (world ([Some SOH; Some [0]; Some [0xff]; Some block0_body]
                 ++ [Some CAN; Some CAN]) []).

Definition recv_one_can : Result :=
  recv 100 (__init__ xmodem8k 0x1a) md5_old 1 16
       (world ([Some SOH; Some [0]; Some [0xff]; Some block0_body]
                 ++ [Some CAN; Some ACK]) []).

(** The calls the documentation of [send] and [recv] names as canceled:
    two CAN bytes at the start sequence of [send], and the [canceled] flag
    found up at the top of the block loop of either. *)
Definition send_two_can_at_start : Result :=
  send 100 (__init__ xmodem 0x1a) md5_new 16
       (world [Some CAN; Some CAN] source300).

Definition send_flag_up : Result :=
  send 100 (mkSession xmodem false 0x1a true) md5_new 16
       (world [Some NAK] source300).

Definition recv_flag_up : Result :=
  recv 100 (mkSession xmodem false 0x1a true) md5_old 1 16
       (world [Some SOH] []).

(** ** Definitions for the further properties *)

(** The low byte of every table entry, checked pairwise distinct. *)
Definition table_low_bytes_differ (i j : Z) : bool :=
  (i =? j)
  || negb (Z.land (nth (Z.to_nat i) crctable 0) 0xff
           =? Z.land (nth (Z.to_nat j) crctable 0) 0xff).

(** An answer the start sequence of [send] does not know: a timeout, an
    empty read, or anything but NAK, C, CAN and EOT. *)
Definition start_junk (r : option bytes) : bool :=
  negb (truthy r)
  || negb (char_is r NAK || char_is r CRC || char_is r CAN || char_is r EOT).

(** The state of [recv] after the hash block of the 300-byte transfer, at
    the top of the loop. *)
Definition after_block0 : RecvSt :=
  mkRecvSt (Some [0x31]) 0 false 1 17 true 0 0.

Definition after_block0_world : World :=
  mkWorld [None; Some [0x32]] [] [1; 1; 131; 1] [ACK] [] [].

(** The state of [send] after the hash block of the 300-byte transfer was
    acknowledged, at the top of the loop. *)
Definition sent_block0 : SendSt := mkSendSt 0 1 0 1 true false.

(** *** A whole transfer *)

(** The packets [send] makes of a source stream once the hash block is
    out: [stream.read(packet_size)] until it comes back empty, each chunk
    in a packet of its own, numbered on from [sequence] modulo 256.  [n]
    bounds the number of chunks; the length of the source is enough. *)
Fixpoint stream_packets (n : nat) (packet_size pad crc_mode sequence : Z)
                        (src : bytes) : list bytes :=
  match n with
  | O => []
  | S n' =>
      match firstn (Z.to_nat packet_size) src with
      | [] => []
      | chunk =>
          match send_packet packet_size sequence pad crc_mode chunk with
          | Some packet =>
              packet :: stream_packets n' packet_size pad crc_mode
                          ((sequence + 1) mod 0x100)
                          (skipn (Z.to_nat packet_size) src)
          | None => []
          end
      end
  end.

(** The number of blocks a source of that length takes. *)
Definition blocks_of (packet_size : Z) (src : bytes) : Z :=
  (len src + packet_size - 1) / packet_size.


Definition request_byte (crc_mode : Z) : bytes :=
  if crc_mode =? 0 then NAK else CRC.


(** The data packets of the 300-byte transfer. *)
Definition packets300 : list bytes := stream_packets 300 128 0x1a 1 1 source300.

(** *** Leaving the loops *)

(** A turn of an inner loop that has come to an end: it left by [break] or
    left the function with a Python outcome. *)
Definition left_loop {A : Type} (stp : Step A) : Prop :=
  match stp with
  | Break _ _ _ => True
  | Done o _ _ => o <> OutOfFuel
  | Next _ _ _ => False
  end.

(** How many turns the block loop of [send] can still take: one for the
    hash block when it is not out yet, one for every byte of the stream. *)
Definition send_measure (st : SendSt) (w : World) : nat :=
  length (w_src w) + (if s_md5_sent st then 0 else 1).

(** The same for [recv]: every turn but the last takes a read away from
    what is left of the script. *)
Definition recv_measure (st : RecvSt) (w : World) : nat :=
  2 * length (w_in w) + (match r_char st with None => 0 | Some _ => 1 end).

(** What the steps that take the loop round again do to the script and the
    next start byte. *)
Definition reads_on (st : RecvSt) (w : World) (stp : Step RecvSt) : Prop :=
  match stp with
  | Next st' _ w' =>
      (length (w_in w') <= length (w_in w))%nat
      /\ (w_in w = [] -> r_char st' = None)
      /\ r_error_count st' = r_error_count st
  | Break _ _ _ => False
  | Done o _ _ => o <> OutOfFuel
  end.

(** * Properties *)

(** ** Checksum and CRC engine *)

Section BitLemmas.

Lemma testbit_above (p a i : Z) :
  0 <= a < 2 ^ p -> 0 <= p <= i -> Z.testbit a i = false.
Proof.
  intros Ha Hp.
  rewrite <- (Z.mod_small a (2 ^ p)) by assumption.
  apply Z.mod_pow2_bits_high; assumption.
Qed.

Lemma testbit_0xff (n : Z) : 0 <= n -> Z.testbit 0xff n = (n <? 8).
Proof. intros; change 0xff with (Z.ones 8); apply Z.testbit_ones_nonneg; lia. Qed.

Lemma testbit_0xffff (n : Z) : 0 <= n -> Z.testbit 0xffff n = (n <? 16).
Proof. intros; change 0xffff with (Z.ones 16); apply Z.testbit_ones_nonneg; lia. Qed.

Lemma land_0xffff_range (a : Z) : 0 <= Z.land a 0xffff < 65536.
Proof.
  change 0xffff with (Z.ones 16); rewrite Z.land_ones by lia.
  change (2 ^ 16) with 65536; apply Z.mod_pos_bound; lia.
Qed.

Lemma land_0xffff_small (a : Z) : 0 <= a < 65536 -> Z.land a 0xffff = a.
Proof.
  intros; change 0xffff with (Z.ones 16); rewrite Z.land_ones by lia.
  apply Z.mod_small; assumption.
Qed.

Lemma land_0xff_range (a : Z) : 0 <= Z.land a 0xff < 256.
Proof.
  change 0xff with (Z.ones 8); rewrite Z.land_ones by lia.
  change (2 ^ 8) with 256; apply Z.mod_pos_bound; lia.
Qed.

(** XORing a byte into the high byte of a 16-bit register only touches
    the high byte. *)
Lemma xor_into_high_byte (crc char : Z) :
  0 <= crc < 65536 -> 0 <= char < 256 ->
  Z.lxor crc (Z.shiftl char 8)
  = Z.lor (Z.shiftl (Z.land (Z.lxor (Z.shiftr crc 8) char) 0xff) 8)
          (Z.land crc 0xff).
Proof.
  intros Hc Hb; apply Z.bits_inj'; intros n Hn.
  rewrite Z.lxor_spec, Z.lor_spec, Z.land_spec, !Z.shiftl_spec by lia.
  rewrite testbit_0xff by lia.
  destruct (Z.ltb_spec n 8) as [Hlt | Hge].
  - rewrite !(Z.testbit_neg_r _ (n - 8)) by lia.
    rewrite andb_true_r, xorb_false_r; reflexivity.
  - rewrite andb_false_r, orb_false_r.
    rewrite Z.land_spec, Z.lxor_spec, Z.shiftr_spec, testbit_0xff by lia.
    replace (n - 8 + 8) with n by lia.
    destruct (Z.ltb_spec (n - 8) 8) as [Hlt | Hge'].
    + rewrite andb_true_r; reflexivity.
    + rewrite andb_false_r.
      rewrite (testbit_above 16 crc n), (testbit_above 8 char (n - 8)); [reflexivity | | | |];
        change (2 ^ 8) with 256; change (2 ^ 16) with 65536; lia.
Qed.

(** Shifting the register left by a byte and masking keeps its low byte,
    moved up. *)
Lemma shift_mask (crc t : Z) :
  0 <= t < 65536 ->
  Z.land (Z.lxor (Z.shiftl crc 8) t) 0xffff
  = Z.lxor (Z.shiftl (Z.land crc 0xff) 8) t.
Proof.
  intros Ht; apply Z.bits_inj'; intros n Hn.
  rewrite Z.land_spec, !Z.lxor_spec, !Z.shiftl_spec, Z.land_spec by lia.
  rewrite testbit_0xffff by lia.
  destruct (Z.ltb_spec n 16) as [Hlt | Hge].
  - rewrite andb_true_r.
    destruct (Z.ltb_spec n 8) as [Hlt8 | Hge8].
    + rewrite !(Z.testbit_neg_r _ (n - 8)) by lia; reflexivity.
    + rewrite testbit_0xff by lia.
      replace (n - 8 <? 8) with true by (symmetry; apply Z.ltb_lt; lia).
      rewrite andb_true_r; reflexivity.
  - rewrite andb_false_r, testbit_0xff by lia.
    replace (n - 8 <? 8) with false by (symmetry; apply Z.ltb_ge; lia).
    rewrite andb_false_r, (testbit_above 16 t n); [reflexivity | | ];
      change (2 ^ 16) with 65536; lia.
Qed.

End BitLemmas.

Lemma byte_range_In (b : Z) : 0 <= b < 256 -> In b byte_range.
Proof.
  intros Hb; unfold byte_range.
  rewrite <- (Z2Nat.id b) by lia.
  apply in_map, in_seq; lia.
Qed.

Lemma table_steps_checked :
  forallb (fun idx => forallb (table_step_ok idx) byte_range) byte_range = true.
Proof. vm_compute; reflexivity. Qed.

Lemma table_step (idx lo : Z) :
  0 <= idx < 256 -> 0 <= lo < 256 ->
  Nat.iter 8 ref_crc_bit (Z.lor (Z.shiftl idx 8) lo)
  = Z.lxor (Z.shiftl lo 8) (nth (Z.to_nat idx) crctable 0)
  /\ 0 <= nth (Z.to_nat idx) crctable 0 < 65536.
Proof.
  intros Hi Hl.
  pose proof table_steps_checked as H.
  rewrite forallb_forall in H.
  specialize (H idx (byte_range_In idx Hi)).
  rewrite forallb_forall in H.
  specialize (H lo (byte_range_In lo Hl)).
  unfold table_step_ok in H.
  apply andb_prop in H; destruct H as [H H3].
  apply andb_prop in H; destruct H as [H1 H2].
  apply Z.eqb_eq in H1; apply Z.leb_le in H2; apply Z.ltb_lt in H3.
  split; [exact H1 | lia].
Qed.

(** One table lookup does what eight bit steps do. *)
Lemma crc_update_ref (crc char : Z) :
  0 <= crc < 65536 -> 0 <= char < 256 ->
  crc_update crc char = ref_crc_byte crc char.
Proof.
  intros Hc Hb; unfold crc_update, ref_crc_byte.
  rewrite xor_into_high_byte by assumption.
  destruct (table_step (Z.land (Z.lxor (Z.shiftr crc 8) char) 0xff)
                       (Z.land crc 0xff)
                       (land_0xff_range _) (land_0xff_range _)) as [Hstep Hrange].
  rewrite Hstep, shift_mask by assumption.
  reflexivity.
Qed.

Lemma crc_update_range (crc char : Z) : 0 <= crc_update crc char < 65536.
Proof. apply land_0xffff_range. Qed.

Lemma fold_crc_update_ref (data : bytes) :
  Forall is_byte data ->
  forall crc, 0 <= crc < 65536 ->
  fold_left crc_update data crc = fold_left ref_crc_byte data crc
  /\ 0 <= fold_left crc_update data crc < 65536.
Proof.
  induction 1 as [| b data Hb _ IH]; intros crc Hc; simpl.
  - split; [reflexivity | assumption].
  - rewrite <- crc_update_ref by assumption.
    apply IH, crc_update_range.
Qed.

Lemma calc_crc_range (data : bytes) (crc : Z) : 0 <= calc_crc data crc < 65536.
Proof. apply land_0xffff_range. Qed.

Lemma calc_checksum_range (data : bytes) (c : Z) : 0 <= calc_checksum data c < 256.
Proof. unfold calc_checksum; apply Z.mod_pos_bound; lia. Qed.

(** C6. The table-driven [calc_crc] is the bitwise CCITT/XMODEM CRC
    (polynomial 0x1021, most significant bit first, each byte XORed into the
    high byte of the register): for every buffer of bytes and every 16-bit
    seed the two agree and the result is in 0..65535; and each of the 256
    table entries is the bitwise CRC of its index. *)
Theorem calc_crc_bit_exact :
  (forall (data : bytes) (seed : Z),
      Forall is_byte data -> 0 <= seed < 65536 ->
      calc_crc data seed = ref_crc16 data seed
      /\ 0 <= calc_crc data seed < 65536)
  /\ length crctable = 256%nat
  /\ (forall i : Z, 0 <= i < 256 ->
        nth (Z.to_nat i) crctable 0 = ref_crc_byte 0 i).
Proof.
  split; [| split].
  - intros data seed Hd Hs.
    destruct (fold_crc_update_ref data Hd seed Hs) as [Heq Hr].
    unfold calc_crc, ref_crc16.
    rewrite land_0xffff_small by assumption.
    split; assumption.
  - reflexivity.
  - intros i Hi.
    rewrite <- crc_update_ref by lia.
    unfold crc_update.
    change (Z.shiftr 0 8) with 0; change (Z.shiftl 0 8) with 0.
    rewrite !Z.lxor_0_l.
    assert (Hidx : Z.land i 0xff = i).
    { change 0xff with (Z.ones 8); rewrite Z.land_ones by lia.
      apply Z.mod_small; change (2 ^ 8) with 256; lia. }
    rewrite Hidx.
    destruct (table_step i 0 Hi ltac:(lia)) as [_ Hr].
    symmetry; apply land_0xffff_small; assumption.
Qed.

Lemma calc_crc_bit_exact_witness :
  calc_crc [104; 101; 108; 108; 111] 0 = ref_crc16 [104; 101; 108; 108; 111] 0
  /\ 0 <= calc_crc [104; 101; 108; 108; 111] 0 < 65536.
Proof.
  apply (proj1 calc_crc_bit_exact).
  - repeat constructor; unfold is_byte; lia.
  - lia.
Defined.

(** ** Packet codec *)

Lemma bytes_eqb_refl (a : bytes) : bytes_eqb a a = true.
Proof. induction a as [| x a IH]; simpl; [reflexivity | rewrite Z.eqb_refl, IH; reflexivity]. Qed.

Lemma bytes_eqb_eq (a b : bytes) : bytes_eqb a b = true <-> a = b.
Proof.
  split; [| intros ->; apply bytes_eqb_refl].
  revert b; induction a as [| x a IH]; intros [| y b]; simpl; try discriminate; [reflexivity |].
  intros H; apply andb_prop in H; destruct H as [Hx Hab].
  apply Z.eqb_eq in Hx; apply IH in Hab; subst; reflexivity.
Qed.

Lemma last_n_app (body trailer : bytes) :
  last_n (length trailer) (body ++ trailer) = trailer.
Proof.
  unfold last_n; rewrite length_app.
  replace (length body + length trailer - length trailer)%nat with (length body) by lia.
  rewrite skipn_app, skipn_all, Nat.sub_diag; reflexivity.
Qed.

Lemma drop_last_n_app (body trailer : bytes) :
  drop_last_n (length trailer) (body ++ trailer) = body.
Proof.
  unfold drop_last_n; rewrite length_app.
  replace (length body + length trailer - length trailer)%nat with (length body) by lia.
  rewrite firstn_app, firstn_all, Nat.sub_diag, app_nil_r; reflexivity.
Qed.

(** The two CRC bytes of the trailer put together again. *)
Lemma crc_bytes_join (crc : Z) :
  0 <= crc < 65536 -> Z.shiftl (Z.shiftr crc 8) 8 + Z.land crc 0xff = crc.
Proof.
  intros H.
  rewrite Z.shiftr_div_pow2, Z.shiftl_mul_pow2 by lia.
  change 0xff with (Z.ones 8); rewrite Z.land_ones by lia.
  change (2 ^ 8) with 256.
  pose proof (Z.div_mod crc 256); lia.
Qed.

(** The receiver accepts the trailer the sender computes. *)
Lemma verify_own_checksum (crc_mode : Z) (body : bytes) :
  _verify_recv_checksum crc_mode (body ++ _make_send_checksum crc_mode body)
  = Some (true, body).
Proof.
  unfold _verify_recv_checksum, _make_send_checksum.
  destruct (crc_mode =? 0).
  - change 1%nat with (length [calc_checksum body 0]).
    rewrite last_n_app, drop_last_n_app, Z.eqb_refl; reflexivity.
  - set (crc := calc_crc body 0).
    change 2%nat with (length [Z.shiftr crc 8; Z.land crc 0xff]).
    rewrite last_n_app, drop_last_n_app.
    fold crc.
    rewrite crc_bytes_join by apply calc_crc_range.
    rewrite Z.eqb_refl; reflexivity.
Qed.

Lemma len_bytes_join (l : Z) :
  0 <= l -> Z.lor (Z.shiftl (Z.shiftr l 8) 8) (Z.land l 0xff) = l.
Proof.
  intros Hl; apply Z.bits_inj'; intros n Hn.
  rewrite Z.lor_spec, Z.land_spec, Z.shiftl_spec, testbit_0xff by lia.
  destruct (Z.ltb_spec n 8) as [Hlt | Hge].
  - rewrite Z.testbit_neg_r by lia; rewrite andb_true_r; reflexivity.
  - rewrite Z.shiftr_spec by lia.
    replace (n - 8 + 8) with n by lia.
    rewrite andb_false_r, orb_false_r; reflexivity.
Qed.

Lemma land_0xff_small (a : Z) : 0 <= a < 256 -> Z.land a 0xff = a.
Proof.
  intros; change 0xff with (Z.ones 8); rewrite Z.land_ones by lia.
  apply Z.mod_small; assumption.
Qed.

Lemma slice_prefix (pre content rest : bytes) (a : Z) :
  a = len pre ->
  slice (pre ++ content ++ rest) a (len content + a) = content.
Proof.
  intros ->; unfold slice, len.
  rewrite Nat2Z.id.
  replace (Z.of_nat (length content) + Z.of_nat (length pre) - Z.of_nat (length pre))
    with (Z.of_nat (length content)) by lia.
  rewrite Nat2Z.id, skipn_app, skipn_all, Nat.sub_diag; simpl.
  rewrite firstn_app, firstn_all, Nat.sub_diag; simpl.
  apply app_nil_r.
Qed.

(** The body [send] builds for a block that fits, and what [recv] slices
    out of it. *)
Lemma send_body_content (packet_size pad : Z) (content : bytes) :
  packet_size = 128 \/ packet_size = 8192 ->
  len content <= packet_size ->
  exists body,
    send_body (is_stx_of packet_size) packet_size pad content = Some body
    /\ block_content (is_stx_of packet_size) body = Some content
    /\ len body = 1 + is_stx_of packet_size + packet_size.
Proof.
  intros Hps Hlen.
  assert (Hl0 : 0 <= len content) by (unfold len; lia).
  assert (Hbody : forall pre, len (pre ++ ljust content packet_size pad)
                              = len pre + packet_size).
  { intros pre; unfold ljust, len.
    rewrite !length_app, repeat_length; unfold len in *; lia. }
  destruct Hps as [-> | ->];
    [change (is_stx_of 128) with 0 | change (is_stx_of 8192) with 1];
    unfold send_body, block_content, data_len_of, to_bytes;
    simpl Z.eqb; cbv iota.
  - rewrite (land_0xff_small (len content)) by lia.
    simpl forallb.
    replace (0 <=? len content) with true by (symmetry; apply Z.leb_le; lia).
    replace (len content <? 256) with true by (symmetry; apply Z.ltb_lt; lia).
    cbn [andb app].
    eexists; split; [reflexivity |].
    split.
    + f_equal. unfold ljust.
      change (1 + 0) with 1.
      replace (len content + 1 + 0) with (len content + 1) by lia.
      apply (slice_prefix [len content]); reflexivity.
    + apply (Hbody [len content]).
  - pose proof (land_0xff_range (len content)) as Hlo.
    assert (Hhi : 0 <= Z.shiftr (len content) 8 < 256).
    { rewrite Z.shiftr_div_pow2 by lia. change (2 ^ 8) with 256.
      split; [apply Z.div_pos; lia | apply Z.div_lt_upper_bound; lia]. }
    simpl forallb.
    replace (0 <=? Z.shiftr (len content) 8) with true by (symmetry; apply Z.leb_le; lia).
    replace (Z.shiftr (len content) 8 <? 256) with true by (symmetry; apply Z.ltb_lt; lia).
    replace (0 <=? Z.land (len content) 255) with true by (symmetry; apply Z.leb_le; lia).
    replace (Z.land (len content) 255 <? 256) with true by (symmetry; apply Z.ltb_lt; lia).
    cbn [andb app].
    eexists; split; [reflexivity |].
    split.
    + f_equal. rewrite len_bytes_join by assumption. unfold ljust.
      change (1 + 1) with 2.
      replace (len content + 1 + 1) with (len content + 2) by lia.
      apply (slice_prefix [Z.shiftr (len content) 8; Z.land (len content) 255]);
        reflexivity.
    + apply (Hbody [Z.shiftr (len content) 8; Z.land (len content) 255]).
Qed.

Lemma length_last_n (n : nat) (data : bytes) :
  length (last_n n data) = Nat.min n (length data).
Proof. unfold last_n; rewrite length_skipn; lia. Qed.

Lemma last_n_drop_last_n (n : nat) (data : bytes) :
  drop_last_n n data ++ last_n n data = data.
Proof. unfold drop_last_n, last_n; apply firstn_skipn. Qed.

Lemma length_drop_last_n (n : nat) (data : bytes) :
  length (drop_last_n n data) = (length data - n)%nat.
Proof. unfold drop_last_n; rewrite length_firstn; lia. Qed.

(** What [_verify_recv_checksum] hands back is the block without its
    trailer. *)
Lemma verify_len (crc_mode : Z) (body data : bytes) (valid : bool) :
  _verify_recv_checksum crc_mode body = Some (valid, data) ->
  len data = len body - trailer_size crc_mode.
Proof.
  unfold _verify_recv_checksum, trailer_size, len.
  destruct (crc_mode =? 0).
  - pose proof (length_last_n 1 body) as Hl.
    pose proof (length_drop_last_n 1 body) as Hd.
    destruct (last_n 1 body) as [| t l]; [discriminate |].
    intros H; injection H as _ <-; cbn [length] in Hl; lia.
  - pose proof (length_last_n 2 body) as Hl.
    pose proof (length_drop_last_n 2 body) as Hd.
    destruct (last_n 2 body) as [| c0 [| c1 l]]; try discriminate.
    intros H; injection H as _ <-; cbn [length] in Hl; lia.
Qed.

Lemma packet_size_of_cases (m : Mode) (packet_size : Z) :
  packet_size_of m = Some packet_size -> packet_size = 128 \/ packet_size = 8192.
Proof. destruct m; simpl; intros H; inversion H; auto. Qed.

(** For a sequence number that fits a byte the header is the start byte
    and the sequence pair. *)
Lemma make_send_header_byte (packet_size sequence : Z) :
  0 <= sequence <= 255 ->
  _make_send_header packet_size sequence
  = if packet_size =? 128 then Some [0x01; sequence; 0xff - sequence]
    else if packet_size =? 8192 then Some [0x02; sequence; 0xff - sequence]
    else None.
Proof.
  intros Hseq; unfold _make_send_header, to_bytes; cbn [forallb].
  replace (0 <=? sequence) with true by (symmetry; apply Z.leb_le; lia).
  replace (sequence <? 256) with true by (symmetry; apply Z.ltb_lt; lia).
  replace (0 <=? 255 - sequence) with true by (symmetry; apply Z.leb_le; lia).
  replace (255 - sequence <? 256) with true by (symmetry; apply Z.ltb_lt; lia).
  reflexivity.
Qed.

(** C1. Round trip of the codec: for both block sizes, every content of at
    most [packet_size] bytes, every sequence number in 0..255 and both
    integrity modes ([crc_mode] 0 is the checksum, anything else CRC-16),
    [send] builds a packet, and the checks of [recv] pass on it for the same
    mode and expected sequence and give back exactly the content. *)
Theorem codec_round_trip (m : Mode) (packet_size sequence pad crc_mode : Z)
                         (content : bytes) :
  packet_size_of m = Some packet_size ->
  0 <= sequence <= 255 ->
  0 <= len content <= packet_size ->
  exists packet,
    send_packet packet_size sequence pad crc_mode content = Some packet
    /\ recv_decode (is_stx_of packet_size) crc_mode sequence packet = Some content.
Proof.
  intros Hm Hseq Hlen.
  pose proof (packet_size_of_cases m packet_size Hm) as Hps.
  destruct (send_body_content packet_size pad content Hps (proj2 Hlen))
    as (body & Hbody & Hcontent & _).
  unfold send_packet; rewrite Hbody.
  assert (Hdec : forall start, start = 1 \/ start = 2 ->
            recv_decode (is_stx_of packet_size) crc_mode sequence
              ([start; sequence; 0xff - sequence]
                 ++ body ++ _make_send_checksum crc_mode body) = Some content).
  { intros start Hstart.
    unfold recv_decode, SOH, STX; cbn [app bytes_eqb].
    replace (0xff - (0xff - sequence)) with sequence by lia.
    rewrite !Z.eqb_refl.
    replace ((start =? 1) && true || (start =? 2) && true) with true
      by (destruct Hstart as [-> | ->]; reflexivity).
    cbn [andb]. rewrite verify_own_checksum. exact Hcontent. }
  rewrite make_send_header_byte by exact Hseq.
  destruct Hps as [-> | ->]; simpl Z.eqb; cbv iota;
    eexists; (split; [reflexivity | apply Hdec; auto]).
Qed.

Lemma codec_round_trip_witness :
  exists packet,
    send_packet 128 7 0x1a 1 [104; 101; 108; 108; 111] = Some packet
    /\ recv_decode (is_stx_of 128) 1 7 packet = Some [104; 101; 108; 108; 111].
Proof.
  apply (codec_round_trip xmodem 128 7 0x1a 1 [104; 101; 108; 108; 111]).
  - reflexivity.
  - lia.
  - unfold len; simpl; lia.
Defined.

(** The trailer bytes compared as the receiver compares them. *)
Lemma trailer_eqb_crc (c0 c1 crc : Z) :
  is_byte c0 -> is_byte c1 -> 0 <= crc < 65536 ->
  (Z.shiftl c0 8 + c1 =? crc)
  = bytes_eqb [c0; c1] [Z.shiftr crc 8; Z.land crc 0xff].
Proof.
  unfold is_byte; intros H0 H1 Hc; cbn [bytes_eqb].
  rewrite Z.shiftr_div_pow2, Z.shiftl_mul_pow2 by lia.
  change 0xff with (Z.ones 8); rewrite Z.land_ones by lia.
  change (2 ^ 8) with 256.
  pose proof (Z.div_mod crc 256 ltac:(lia)) as Hdm.
  pose proof (Z.mod_pos_bound crc 256 ltac:(lia)) as Hm.
  destruct (Z.eqb_spec (c0 * 256 + c1) crc) as [He | Hne].
  - assert (Hq : c0 = crc / 256) by (apply (Z.div_unique crc 256 c0 c1); lia).
    assert (Hr : c1 = crc mod 256) by lia.
    rewrite <- Hq, <- Hr, !Z.eqb_refl; reflexivity.
  - destruct (Z.eqb_spec c0 (crc / 256)) as [Hq |]; [| reflexivity].
    destruct (Z.eqb_spec c1 (crc mod 256)) as [Hr |]; [| reflexivity].
    exfalso; apply Hne; lia.
Qed.

(** [_verify_recv_checksum] takes the last [trailer_size] bytes as the
    trailer and checks it against the sum of everything before it. *)
Lemma verify_region (crc_mode : Z) (region trailer : bytes) :
  Forall is_byte trailer ->
  len trailer = trailer_size crc_mode ->
  _verify_recv_checksum crc_mode (region ++ trailer)
  = Some (bytes_eqb trailer (_make_send_checksum crc_mode region), region).
Proof.
  unfold _verify_recv_checksum, _make_send_checksum, trailer_size, len.
  intros Hb Hlen.
  destruct (crc_mode =? 0).
  - destruct trailer as [| t [| ? ?]]; simpl in Hlen; try lia.
    change 1%nat with (length [t]).
    rewrite last_n_app, drop_last_n_app; cbn [bytes_eqb].
    rewrite andb_true_r; reflexivity.
  - destruct trailer as [| c0 [| c1 [| ? ?]]]; simpl in Hlen; try lia.
    change 2%nat with (length [c0; c1]).
    rewrite last_n_app, drop_last_n_app.
    inversion Hb as [| ? ? H0 Hb']; subst.
    inversion Hb' as [| ? ? H1 _]; subst.
    rewrite (trailer_eqb_crc c0 c1) by (auto using calc_crc_range).
    reflexivity.
Qed.

Lemma send_packet_parts (packet_size sequence pad crc_mode : Z)
                        (content packet : bytes) :
  send_packet packet_size sequence pad crc_mode content = Some packet ->
  exists header prefix,
    _make_send_header packet_size sequence = Some header
    /\ len prefix = 1 + is_stx_of packet_size
    /\ send_body (is_stx_of packet_size) packet_size pad content
       = Some (prefix ++ ljust content packet_size pad)
    /\ packet = header ++ (prefix ++ ljust content packet_size pad)
                  ++ _make_send_checksum crc_mode
                       (prefix ++ ljust content packet_size pad).
Proof.
  unfold send_packet, send_body, is_stx_of.
  destruct (_make_send_header packet_size sequence) as [header |]; [| discriminate].
  destruct (255 <? packet_size); simpl Z.eqb; cbv iota.
  - destruct (to_bytes [Z.shiftr (len content) 8; Z.land (len content) 255])
      as [prefix |] eqn:Hp; [| discriminate].
    intros H; inversion H; subst packet.
    unfold to_bytes in Hp.
    destruct (forallb _ _); inversion Hp; subst prefix.
    exists header, [Z.shiftr (len content) 8; Z.land (len content) 255].
    repeat split; reflexivity.
  - destruct (to_bytes [Z.land (len content) 255]) as [prefix |] eqn:Hp;
      [| discriminate].
    intros H; inversion H; subst packet.
    unfold to_bytes in Hp.
    destruct (forallb _ _); inversion Hp; subst prefix.
    exists header, [Z.land (len content) 255].
    repeat split; reflexivity.
Qed.

(** C8 (as the code has it). The trailer of every packet [send] builds is
    computed over the length prefix together with the padded payload, that
    is over everything between the three header bytes and the trailer; and
    [recv] checks the trailer of what it reads against the sum of that same
    region: all bytes before the last [trailer_size] ones. *)
Theorem trailer_covers_prefix_and_payload
        (packet_size sequence pad crc_mode : Z) (content packet : bytes) :
  send_packet packet_size sequence pad crc_mode content = Some packet ->
  exists header prefix,
    _make_send_header packet_size sequence = Some header
    /\ len prefix = 1 + is_stx_of packet_size
    /\ packet = header ++ (prefix ++ ljust content packet_size pad)
                  ++ _make_send_checksum crc_mode
                       (prefix ++ ljust content packet_size pad)
    /\ _verify_recv_checksum crc_mode
         ((prefix ++ ljust content packet_size pad)
            ++ _make_send_checksum crc_mode (prefix ++ ljust content packet_size pad))
       = Some (true, prefix ++ ljust content packet_size pad)
    /\ forall region trailer : bytes,
         Forall is_byte trailer ->
         len trailer = trailer_size crc_mode ->
         _verify_recv_checksum crc_mode (region ++ trailer)
         = Some (bytes_eqb trailer (_make_send_checksum crc_mode region), region).
Proof.
  intros H.
  destruct (send_packet_parts _ _ _ _ _ _ H) as (header & prefix & Hh & Hl & _ & Hp).
  exists header, prefix.
  repeat split; auto using verify_own_checksum, verify_region.
Qed.

Lemma trailer_covers_prefix_and_payload_witness :
  exists header prefix,
    _make_send_header 128 1 = Some header
    /\ len prefix = 1 + is_stx_of 128
    /\ [1; 1; 254; 1; 7] ++ repeat 26 127 ++ [238]
       = header ++ (prefix ++ ljust [7] 128 26)
           ++ _make_send_checksum 0 (prefix ++ ljust [7] 128 26)
    /\ _verify_recv_checksum 0
         ((prefix ++ ljust [7] 128 26)
            ++ _make_send_checksum 0 (prefix ++ ljust [7] 128 26))
       = Some (true, prefix ++ ljust [7] 128 26)
    /\ forall region trailer : bytes,
         Forall is_byte trailer ->
         len trailer = trailer_size 0 ->
         _verify_recv_checksum 0 (region ++ trailer)
         = Some (bytes_eqb trailer (_make_send_checksum 0 region), region).
Proof.
  apply (trailer_covers_prefix_and_payload 128 1 26 0 [7]
           ([1; 1; 254; 1; 7] ++ repeat 26 127 ++ [238])).
  vm_compute; reflexivity.
Defined.

(** C8 as the specification words it does not hold: were the trailer computed over the
    padded payload without the length prefix, the packet for the one-byte
    content [7] in checksum mode would end in the sum of the payload alone. *)
Lemma trailer_over_payload_only_counterexample :
  ~ (forall (packet_size sequence pad crc_mode : Z) (content packet : bytes),
       send_packet packet_size sequence pad crc_mode content = Some packet ->
       last_n (Z.to_nat (trailer_size crc_mode)) packet
       = _make_send_checksum crc_mode (ljust content packet_size pad)).
Proof.
  intros H.
  specialize (H 128 1 26 0 [7] _ eq_refl).
  vm_compute in H; discriminate H.
Qed.

(** ** The transport and the streams *)

Ltac break_match :=
  match goal with
  | |- context [match ?x with _ => _ end] =>
      lazymatch type of x with
      | Step _ => fail
      | _ => destruct x eqn:?
      end
  end.

Lemma getc_eq (size : Z) (w : World) :
  getc size w
  = (hd None (w_in w),
     mkWorld (tl (w_in w)) (w_acc w) (w_req w ++ [size]) (w_out w) (w_src w) (w_sink w)).
Proof. unfold getc; destruct (w_in w); reflexivity. Qed.

Lemma putc__eq (data : bytes) (w : World) :
  putc_ data w
  = mkWorld (w_in w) (tl (w_acc w)) (w_req w) (w_out w ++ [data]) (w_src w) (w_sink w).
Proof. unfold putc_, putc; destruct (w_acc w); reflexivity. Qed.

Lemma putc_snd (data : bytes) (w : World) : snd (putc data w) = putc_ data w.
Proof. reflexivity. Qed.

Lemma abort_eq (w : World) :
  abort 2 w
  = mkWorld (w_in w) (tl (tl (w_acc w))) (w_req w) (w_out w ++ [CAN; CAN])
            (w_src w) (w_sink w).
Proof.
  unfold abort; simpl Nat.iter; rewrite !putc__eq; simpl.
  rewrite <- app_assoc; reflexivity.
Qed.

(** The drain loops read single bytes and touch nothing else. *)
Lemma drain_loop_spec (fuel : nat) (w : World) :
  (length (w_in w) < fuel)%nat ->
  exists k : nat,
    drain_loop fuel w
    = mkWorld (skipn (S k) (w_in w)) (w_acc w) (w_req w ++ repeat 1 (S k))
              (w_out w) (w_src w) (w_sink w)
    /\ Forall (fun r => truthy r = true) (firstn k (w_in w))
    /\ truthy (nth k (w_in w) None) = false.
Proof.
  revert w; induction fuel as [| fuel IH]; intros w Hlt; [lia |].
  cbn [drain_loop]; rewrite getc_eq.
  destruct (w_in w) as [| r rest] eqn:Hin; cbn [hd tl].
  - exists 0%nat; cbn [truthy]; repeat split; constructor.
  - destruct (truthy r) eqn:Hr.
    + destruct (IH (mkWorld rest (w_acc w) (w_req w ++ [1]) (w_out w) (w_src w) (w_sink w)))
        as (k & Heq & Hall & Hend); [simpl in *; lia |].
      exists (S k); rewrite Heq; cbn -[skipn repeat firstn nth].
      split; [| split].
      * rewrite <- app_assoc; reflexivity.
      * cbn [firstn]; constructor; assumption.
      * exact Hend.
    + exists 0%nat; repeat split; [constructor | exact Hr].
Qed.

Lemma drain_spec (w : World) :
  exists k : nat,
    drain w
    = mkWorld (skipn (S k) (w_in w)) (w_acc w) (w_req w ++ repeat 1 (S k))
              (w_out w) (w_src w) (w_sink w)
    /\ Forall (fun r => truthy r = true) (firstn k (w_in w))
    /\ truthy (nth k (w_in w) None) = false.
Proof. apply drain_loop_spec; lia. Qed.

Lemma purge_loop_spec (fuel : nat) (w : World) :
  (length (w_in w) < fuel)%nat ->
  exists k : nat,
    purge_loop fuel w
    = mkWorld (skipn (S k) (w_in w)) (w_acc w) (w_req w ++ repeat 1 (S k))
              (w_out w) (w_src w) (w_sink w)
    /\ Forall (fun r => r <> None) (firstn k (w_in w))
    /\ nth k (w_in w) None = None.
Proof.
  revert w; induction fuel as [| fuel IH]; intros w Hlt; [lia |].
  cbn [purge_loop]; rewrite getc_eq.
  destruct (w_in w) as [| r rest] eqn:Hin; cbn [hd tl].
  - exists 0%nat; repeat split; constructor.
  - destruct r as [c |].
    + destruct (IH (mkWorld rest (w_acc w) (w_req w ++ [1]) (w_out w) (w_src w) (w_sink w)))
        as (k & Heq & Hall & Hend); [simpl in *; lia |].
      exists (S k); rewrite Heq; cbn -[skipn repeat firstn nth].
      split; [| split].
      * rewrite <- app_assoc; reflexivity.
      * cbn [firstn]; constructor; [discriminate | assumption].
      * exact Hend.
    + exists 0%nat; repeat split; constructor.
Qed.

Lemma purge_spec (w : World) :
  exists k : nat,
    purge w
    = mkWorld (skipn (S k) (w_in w)) (w_acc w) (w_req w ++ repeat 1 (S k))
              (w_out w) (w_src w) (w_sink w)
    /\ Forall (fun r => r <> None) (firstn k (w_in w))
    /\ nth k (w_in w) None = None.
Proof. apply purge_loop_spec; lia. Qed.

Lemma purge_sink (w : World) : w_sink (purge w) = w_sink w.
Proof. destruct (purge_spec w) as (k & -> & _); reflexivity. Qed.

Lemma cancel_sequence_spec (w : World) :
  exists k : nat,
    cancel_sequence w
    = mkWorld (skipn (S k) (w_in w)) (tl (tl (tl (w_acc w))))
              (w_req w ++ repeat 1 (S k)) (w_out w ++ [CAN; CAN; CAN])
              (w_src w) (w_sink w)
    /\ Forall (fun r => truthy r = true) (firstn k (w_in w))
    /\ truthy (nth k (w_in w) None) = false.
Proof.
  unfold cancel_sequence; rewrite !putc__eq.
  cbn [w_in w_acc w_req w_out w_src w_sink].
  match goal with |- context [drain ?w3] => destruct (drain_spec w3) as (k & Heq & H) end.
  cbn [w_in w_acc w_req w_out w_src w_sink] in Heq, H.
  exists k; rewrite Heq, <- !app_assoc; split; [reflexivity | exact H].
Qed.

(** ** What a call leaves on the session object *)

Lemma same_mode_refl (s : Session) : same_mode s s.
Proof. split; reflexivity. Qed.

Lemma same_mode_trans (s1 s2 s3 : Session) :
  same_mode s1 s2 -> same_mode s2 s3 -> same_mode s1 s3.
Proof. unfold same_mode; intros [? ?] [? ?]; split; congruence. Qed.

Lemma same_mode_set_canceled (s : Session) (c : bool) : same_mode s (set_canceled s c).
Proof. split; reflexivity. Qed.

Create HintDb session.
#[local] Hint Resolve same_mode_refl same_mode_set_canceled : session.

Ltac step_cases IH :=
  repeat first [ apply IH | progress cbn [step_session] | break_match ];
  auto with session.

Lemma send_start_session (fuel : nat) (retry error_count : Z) (cancel : bool)
                         (s : Session) (w : World) :
  step_session (eq s) (send_start fuel retry error_count cancel s w).
Proof.
  revert error_count cancel w; induction fuel as [| fuel IH]; intros;
    cbn [send_start]; cbv zeta; [reflexivity |].
  step_cases IH.
Qed.

Lemma send_emit_session (fuel : nat) (retry : Z) (packet : bytes)
                        (st : SendSt) (s : Session) (w : World) :
  step_session (eq s) (send_emit fuel retry packet st s w).
Proof.
  revert st w; induction fuel as [| fuel IH]; intros;
    cbn [send_emit]; cbv zeta; [reflexivity |].
  step_cases IH.
Qed.

Lemma send_block_session (fuel : nat) (retry packet_size crc_mode : Z) (md5 : bytes)
                         (st : SendSt) (s : Session) (w : World) :
  step_session (same_mode s)
               (send_block fuel retry packet_size crc_mode md5 st s w).
Proof.
  unfold send_block.
  destruct (canceled s); [cbn; auto with session |].
  destruct (send_next_data packet_size md5 st w) as [[data st1] w1].
  repeat match goal with
         | |- context [send_emit ?f ?r ?p ?st ?s ?w] =>
             let H := fresh "Hemit" in
             pose proof (send_emit_session f r p st s w) as H;
             destruct (send_emit f r p st s w); cbn [step_session] in H; subst
         | _ => break_match
         end; cbn [step_session]; auto with session.
Qed.

Lemma send_eot_session (fuel : nat) (retry error_count : Z) (s : Session) (w : World) :
  session_of (send_eot fuel retry error_count s w) = s.
Proof.
  revert error_count w; induction fuel as [| fuel IH]; intros;
    cbn [send_eot]; [reflexivity |].
  repeat first [ apply IH | break_match ]; reflexivity.
Qed.

Lemma send_blocks_session (fuel : nat) (retry packet_size crc_mode : Z) (md5 : bytes)
                          (st : SendSt) (s : Session) (w : World) :
  same_mode s (session_of (send_blocks fuel retry packet_size crc_mode md5 st s w)).
Proof.
  revert st s w; induction fuel as [| fuel IH]; intros;
    cbn [send_blocks]; [apply same_mode_refl |].
  pose proof (send_block_session fuel retry packet_size crc_mode md5 st s w) as Hb.
  destruct (send_block fuel retry packet_size crc_mode md5 st s w); cbn [step_session] in Hb.
  - eapply same_mode_trans; [exact Hb | apply IH].
  - rewrite send_eot_session; exact Hb.
  - exact Hb.
Qed.

Lemma send_session (fuel : nat) (s : Session) (md5 : bytes) (retry : Z) (w : World) :
  same_mode s (session_of (send fuel s md5 retry w)).
Proof.
  unfold send.
  destruct (packet_size_of (mode s)); [| apply same_mode_refl].
  pose proof (send_start_session fuel retry 0 false s w) as Hs.
  destruct (send_start fuel retry 0 false s w) as [a s1 w1 | [c k] s1 w1 | o s1 w1];
    cbn [step_session] in Hs; subst s1.
  - apply same_mode_refl.
  - apply send_blocks_session.
  - apply same_mode_refl.
Qed.

Lemma recv_start_session (fuel : nat) (retry crc_mode error_count : Z) (cancel : bool)
                         (s : Session) (w : World) :
  match recv_start fuel retry crc_mode error_count cancel s w with
  | Break _ s' _ => s' = lock_mode s xmodem \/ s' = lock_mode s xmodem8k
  | Next _ s' _ | Done _ s' _ => s' = s
  end.
Proof.
  revert crc_mode error_count cancel w; induction fuel as [| fuel IH]; intros;
    cbn [recv_start]; [reflexivity |].
  repeat first [ apply IH | break_match ]; auto.
Qed.

Lemma recv_wait_session (fuel : nat) (retry : Z) (st : RecvSt) (s : Session) (w : World) :
  step_session (eq s) (recv_wait fuel retry st s w).
Proof.
  revert st w; induction fuel as [| fuel IH]; intros;
    cbn [recv_wait]; cbv zeta; [reflexivity |].
  step_cases IH.
Qed.

Lemma recv_packet_session (retry packet_size is_stx crc_mode : Z) (md5 : bytes)
                          (st : RecvSt) (s : Session) (w : World) :
  step_session (eq s) (recv_packet retry packet_size is_stx crc_mode md5 st s w).
Proof.
  unfold recv_packet, recv_data, recv_mismatch, recv_accept, recv_retrans, recv_ack; cbv zeta.
  repeat first [ progress cbn [step_session] | break_match ]; reflexivity.
Qed.

Lemma recv_block_session (fuel : nat) (retry packet_size is_stx crc_mode : Z)
                         (md5 : bytes) (st : RecvSt) (s : Session) (w : World) :
  step_session (same_mode s)
               (recv_block fuel retry packet_size is_stx crc_mode md5 st s w).
Proof.
  unfold recv_block.
  destruct (canceled s); [cbn; auto with session |].
  pose proof (recv_wait_session fuel retry st s w) as Hw.
  destruct (recv_wait fuel retry st s w) as [a s1 w1 | a s1 w1 | o s1 w1];
    cbn [step_session] in Hw; subst s1; cbn [step_session]; auto with session.
  pose proof (recv_packet_session retry packet_size is_stx crc_mode md5 a s w1) as Hp.
  destruct (recv_packet retry packet_size is_stx crc_mode md5 a s w1);
    cbn [step_session] in *; subst; auto with session.
Qed.

Lemma recv_blocks_session (fuel : nat) (retry packet_size is_stx crc_mode : Z)
                          (md5 : bytes) (st : RecvSt) (s : Session) (w : World) :
  same_mode s
    (session_of (recv_blocks fuel retry packet_size is_stx crc_mode md5 st s w)).
Proof.
  revert st s w; induction fuel as [| fuel IH]; intros;
    cbn [recv_blocks]; [apply same_mode_refl |].
  pose proof (recv_block_session fuel retry packet_size is_stx crc_mode md5 st s w) as Hb.
  destruct (recv_block fuel retry packet_size is_stx crc_mode md5 st s w);
    cbn [step_session] in Hb; try exact Hb.
  eapply same_mode_trans; [exact Hb | apply IH].
Qed.

(** The session [recv] leaves behind has the mode fields of the session the
    start loop left. *)
Lemma recv_session (fuel : nat) (s : Session) (md5 : bytes) (crc_mode retry : Z)
                   (w : World) :
  exists s1, locked_from s s1
             /\ same_mode s1 (session_of (recv fuel s md5 crc_mode retry w)).
Proof.
  unfold recv.
  pose proof (recv_start_session fuel retry crc_mode 0 false s w) as Hs.
  destruct (recv_start fuel retry crc_mode 0 false s w) as [a s1 w1 | [c k] s1 w1 | o s1 w1].
  - exists s; subst; split; [left; reflexivity | apply same_mode_refl].
  - exists s1; split; [right; exact Hs |].
    destruct (packet_size_of (mode s1)); [apply recv_blocks_session | apply same_mode_refl].
  - exists s; subst; split; [left; reflexivity | apply same_mode_refl].
Qed.

(** One turn of the start sequence of [recv]: it takes the next answer off
    the script and counts at most one error for the request it wrote. *)
Lemma recv_start_turn (fuel : nat) (retry crc_mode error_count : Z) (cancel : bool)
                      (s : Session) (w : World) :
  (retry <=? error_count) = false ->
  exists (crc1 ec1 : Z) (w1 : World),
    error_count <= ec1 <= error_count + 1
    /\ w_in w1 = tl (w_in w)
    /\ recv_start (S fuel) retry crc_mode error_count cancel s w
       = match hd None (w_in w) with
         | None => recv_start fuel retry crc1 (ec1 + 1) cancel s w1
         | Some c =>
             if bytes_eqb c SOH
             then Break (hd None (w_in w), crc1) (lock_mode s xmodem) w1
             else if bytes_eqb c STX
             then Break (hd None (w_in w), crc1) (lock_mode s xmodem8k) w1
             else if bytes_eqb c CAN then
               if cancel then Done (Returned PyNone) s w1
               else recv_start fuel retry crc1 ec1 true s w1
             else recv_start fuel retry crc1 (ec1 + 1) cancel s w1
         end.
Proof.
  intros Hretry; cbn [recv_start]; rewrite Hretry.
  assert (Hput : forall x, putc x w = (hd true (w_acc w), putc_ x w))
    by (intros x; unfold putc_, putc; destruct (w_acc w); reflexivity).
  destruct (negb (crc_mode =? 0) && (error_count <? retry / 2));
    rewrite Hput, getc_eq, putc__eq; cbn [w_in w_acc w_req w_out w_src w_sink];
    do 3 eexists; (split; [| split; [| reflexivity]]);
    cbn [w_in]; try reflexivity; destruct (hd true (w_acc w)); lia.
Qed.

Lemma first_start_tl (script : list (option bytes)) :
  start_mode (hd None script) = None -> first_start script = first_start (tl script).
Proof.
  destruct script as [| r rest]; cbn [hd tl first_start]; [reflexivity |].
  intros ->; reflexivity.
Qed.

(** When the start sequence ends on a start byte, that byte is the first
    start byte of the script and its mode is the one pinned. *)
Lemma recv_start_first (fuel : nat) :
  forall (retry crc_mode error_count : Z) (cancel : bool) (s : Session) (w : World),
    match recv_start fuel retry crc_mode error_count cancel s w with
    | Break (char, _) s' _ =>
        exists m, start_mode char = Some m
                  /\ first_start (w_in w) = Some m
                  /\ s' = lock_mode s m
    | Next _ s' _ | Done _ s' _ => s' = s
    end.
Proof.
  induction fuel as [| fuel IH]; intros retry crc_mode error_count cancel s w;
    [reflexivity |].
  destruct (retry <=? error_count) eqn:Hretry;
    [cbn [recv_start]; rewrite Hretry; reflexivity |].
  destruct (recv_start_turn fuel retry crc_mode error_count cancel s w Hretry)
    as (crc1 & ec1 & w1 & _ & Hin & ->).
  assert (Hrec : forall ec c,
             start_mode (hd None (w_in w)) = None ->
             match recv_start fuel retry crc1 ec c s w1 with
             | Break (char, _) s' _ =>
                 exists m, start_mode char = Some m
                           /\ first_start (w_in w) = Some m
                           /\ s' = lock_mode s m
             | Next _ s' _ | Done _ s' _ => s' = s
             end).
  { intros ec c Hnone; specialize (IH retry crc1 ec c s w1).
    rewrite Hin, <- (first_start_tl _ Hnone) in IH; exact IH. }
  destruct (w_in w) as [| r rest] eqn:Hw; cbn [hd] in *; [apply Hrec; reflexivity |].
  destruct r as [c |]; [| apply Hrec; reflexivity].
  destruct (bytes_eqb c SOH) eqn:Hsoh.
  { exists xmodem; cbn [first_start]; unfold start_mode; cbn [char_is];
      rewrite Hsoh; auto. }
  destruct (bytes_eqb c STX) eqn:Hstx.
  { exists xmodem8k; cbn [first_start]; unfold start_mode; cbn [char_is];
      rewrite Hsoh, Hstx; auto. }
  assert (Hnone : start_mode (Some c) = None)
    by (unfold start_mode; cbn [char_is]; rewrite Hsoh, Hstx; reflexivity).
  destruct (bytes_eqb c CAN); [destruct cancel; [reflexivity |] |];
    apply Hrec; exact Hnone.
Qed.

(** A start byte that comes after fewer errors than the budget allows is
    reached, and pins its mode. *)
Lemma recv_start_reaches (junk : list (option bytes)) :
  forall (fuel : nat) (retry crc_mode error_count : Z) (cancel : bool)
         (s : Session) (w : World) (r : option bytes) (rest : list (option bytes))
         (m : Mode),
    w_in w = junk ++ r :: rest ->
    forallb recv_start_junk junk = true ->
    start_mode r = Some m ->
    error_count + 2 * Z.of_nat (length junk) < retry ->
    (length junk < fuel)%nat ->
    exists (crc1 : Z) (w1 : World),
      recv_start fuel retry crc_mode error_count cancel s w
      = Break (r, crc1) (lock_mode s m) w1.
Proof.
  induction junk as [| j junk IH];
    intros fuel retry crc_mode error_count cancel s w r rest m Hin Hjunk Hr Hec Hfuel;
    (destruct fuel as [| fuel]; [cbn [length] in Hfuel; lia |]);
    cbn [length] in Hec, Hfuel;
    (assert (Hretry : (retry <=? error_count) = false) by (apply Z.leb_gt; lia));
    destruct (recv_start_turn fuel retry crc_mode error_count cancel s w Hretry)
      as (crc1 & ec1 & w1 & Hec1 & Hin1 & ->);
    rewrite Hin in *; cbn [app hd tl] in *.
  - unfold start_mode in Hr; destruct r as [c |]; cbn [char_is] in Hr; [| discriminate].
    destruct (bytes_eqb c SOH); [injection Hr as <-; eauto |].
    destruct (bytes_eqb c STX); [injection Hr as <-; eauto | discriminate].
  - cbn [forallb] in Hjunk; apply andb_prop in Hjunk; destruct Hjunk as [Hj Hjunk].
    unfold recv_start_junk in Hj; apply negb_true_iff in Hj.
    apply orb_false_elim in Hj; destruct Hj as [Hj Hcan].
    apply orb_false_elim in Hj; destruct Hj as [Hsoh Hstx].
    destruct j as [c |]; cbn [char_is] in Hsoh, Hstx, Hcan;
      [rewrite Hsoh, Hstx, Hcan |];
      apply (IH fuel retry crc1 (ec1 + 1) cancel s w1 r rest m); auto; lia.
Qed.

(** C9 (as the code has it). [recv] pins the block-size mode on the session:
    a call that starts on a session whose [mode_set] is already true leaves
    [mode] and [mode_set] as they were, and so does every [send]; a [recv]
    on a session whose [mode_set] is false either leaves both fields alone
    or leaves [mode_set] true with [mode] the variant of the first start
    byte of the transport script ([xmodem] for SOH, [xmodem8k] for STX),
    and it does pin that variant whenever the first start byte comes
    after fewer errors than the retry budget allows; the lock stays on
    the session after the call, until [clear_mode_set] takes it off
    again. *)
Theorem mode_lock_outlives_recv :
  (forall fuel s md5 crc_mode retry w,
      mode_set s = true ->
      same_mode s (session_of (recv fuel s md5 crc_mode retry w)))
  /\ (forall fuel s md5 retry w,
        same_mode s (session_of (send fuel s md5 retry w)))
  /\ (forall fuel s md5 crc_mode retry w,
        mode_set s = false ->
        let s' := session_of (recv fuel s md5 crc_mode retry w) in
        same_mode s s'
        \/ (mode_set s' = true /\ (mode s' = xmodem \/ mode s' = xmodem8k)
            /\ first_start (w_in w) = Some (mode s')))
  /\ (forall fuel s md5 crc_mode retry w junk r rest m,
        mode_set s = false ->
        w_in w = junk ++ r :: rest ->
        forallb recv_start_junk junk = true ->
        start_mode r = Some m ->
        2 * Z.of_nat (length junk) < retry ->
        (length junk < fuel)%nat ->
        let s' := session_of (recv fuel s md5 crc_mode retry w) in
        mode_set s' = true /\ mode s' = m
        /\ (m = xmodem <-> char_is r SOH = true)
        /\ (m = xmodem8k <-> char_is r STX = true))
  /\ (forall s, mode_set (clear_mode_set s) = false
                /\ mode (clear_mode_set s) = mode s).
Proof.
  assert (Hblocks : forall fuel retry crc1 md5 char s1 w1,
             same_mode s1
               (session_of
                  match packet_size_of (mode s1) with
                  | None => (PyRaise, s1, w1)
                  | Some packet_size =>
                      recv_blocks fuel retry packet_size (is_stx_of packet_size)
                                  crc1 md5 (recv_init retry char) s1 w1
                  end)).
  { intros; destruct (packet_size_of (mode s1));
      [apply recv_blocks_session | apply same_mode_refl]. }
  split; [| split; [| split; [| split]]].
  - intros fuel s md5 crc_mode retry w Hset.
    destruct (recv_session fuel s md5 crc_mode retry w) as (s1 & Hl & Hm).
    assert (s1 = s) as ->; [| exact Hm].
    unfold locked_from, lock_mode in Hl; rewrite Hset in Hl.
    destruct Hl as [-> | [-> | ->]]; reflexivity.
  - intros; apply send_session.
  - intros fuel s md5 crc_mode retry w Hset s'; subst s'; unfold recv.
    pose proof (recv_start_first fuel retry crc_mode 0 false s w) as Hs.
    destruct (recv_start fuel retry crc_mode 0 false s w)
      as [a s1 w1 | [char crc1] s1 w1 | o s1 w1];
      [left; subst s1; apply same_mode_refl | | left; subst s1; apply same_mode_refl].
    destruct Hs as (m & Hchar & Hfirst & ->).
    destruct (Hblocks fuel retry crc1 md5 char (lock_mode s m) w1) as [Hmode Hmset].
    right; rewrite Hmode, Hmset, Hfirst.
    unfold lock_mode; rewrite Hset; cbn [mode mode_set].
    unfold start_mode in Hchar.
    destruct (char_is char SOH); [injection Hchar as <-; auto |].
    destruct (char_is char STX); [injection Hchar as <-; auto | discriminate].
  - intros fuel s md5 crc_mode retry w junk r rest m Hset Hin Hjunk Hr Hretry Hfuel s'.
    subst s'; unfold recv.
    destruct (recv_start_reaches junk fuel retry crc_mode 0 false s w r rest m
                Hin Hjunk Hr ltac:(lia) Hfuel) as (crc1 & w1 & ->).
    destruct (Hblocks fuel retry crc1 md5 r (lock_mode s m) w1) as [Hmode Hmset].
    rewrite Hmode, Hmset; unfold lock_mode; rewrite Hset; cbn [mode mode_set].
    split; [reflexivity |]; split; [reflexivity |].
    unfold start_mode in Hr.
    destruct (char_is r SOH) eqn:Hsoh.
    { injection Hr as <-; split; split; try reflexivity; try discriminate.
      intros Hstx; exfalso.
      destruct r as [c |]; cbn [char_is] in *; [| discriminate].
      apply bytes_eqb_eq in Hsoh, Hstx; rewrite Hsoh in Hstx; discriminate. }
    destruct (char_is r STX); [| discriminate].
    injection Hr as <-; split; split; try reflexivity; discriminate.
  - intros s; split; reflexivity.
Qed.

Lemma mode_lock_outlives_recv_witness :
  same_mode (mkSession xmodem true 0x1a false)
            (session_of (recv 100 (mkSession xmodem true 0x1a false) md5_old 1 16
                              (world (flat_map as_reads (w_out (world_of send300))) [])))
  /\ (mode_set (session_of (recv 100 (__init__ xmodem 0x1a) md5_old 1 16
                                 (world [None; Some [0x15]; Some STX; Some EOT] [])))
       = true
      /\ mode (session_of (recv 100 (__init__ xmodem 0x1a) md5_old 1 16
                                (world [None; Some [0x15]; Some STX; Some EOT] [])))
         = xmodem8k
      /\ (xmodem8k = xmodem <-> char_is (Some STX) SOH = true)
      /\ (xmodem8k = xmodem8k <-> char_is (Some STX) STX = true)).
Proof.
  split.
  - apply (proj1 mode_lock_outlives_recv); reflexivity.
  - apply (proj1 (proj2 (proj2 (proj2 mode_lock_outlives_recv)))
             100%nat (__init__ xmodem 0x1a) md5_old 1 16
             (world [None; Some [0x15]; Some STX; Some EOT] [])
             [None; Some [0x15]] (Some STX) [Some EOT] xmodem8k);
      try reflexivity; cbn [length]; lia.
Defined.

(** C9 as the specification words it does not hold: the receiver of the 300-byte transfer
    starts on a fresh session in mode [xmodem8k] with [mode_set] false, and
    the completed call leaves the session in mode [xmodem] with [mode_set]
    true. *)
Lemma recv_leaves_mode_lock_counterexample :
  outcome_of recv300 = Returned (PyInt 384)
  /\ mode (__init__ xmodem8k 0x1a) = xmodem8k
  /\ mode_set (__init__ xmodem8k 0x1a) = false
  /\ mode (session_of recv300) = xmodem
  /\ mode_set (session_of recv300) = true.
Proof. vm_compute; repeat split; reflexivity. Qed.

(** ** The sender *)

Lemma skipn_tl {A : Type} (n : nat) (l : list A) : skipn n (tl l) = skipn (S n) l.
Proof. destruct l; [destruct n |]; reflexivity. Qed.

(** Every answer is wrong, none is a second CAN, and the retry budget has
    [n] attempts left: the packet goes out [n] times, then the abort. *)
Lemma send_emit_exhausts (n : nat) :
  forall (fuel : nat) (retry : Z) (packet : bytes)
         (st : SendSt) (s : Session) (w : World),
    retry - s_error_count st = Z.of_nat n ->
    (n < fuel)%nat ->
    Forall (fun r => char_is r ACK = false) (answers (S n) w) ->
    no_second_can (s_cancel st) (answers (S n) w) = true ->
    send_emit fuel retry packet st s w
    = Done (Returned PyFalse) s
           (mkWorld (skipn (S n) (w_in w)) (skipn (S n + 2) (w_acc w))
                    (w_req w ++ repeat 1 (S n))
                    (w_out w ++ repeat packet (S n) ++ [CAN; CAN])
                    (w_src w) (w_sink w)).
Proof.
  induction n as [| n IH]; intros fuel retry packet st s w Hn Hfuel Hack Hcan;
    (destruct fuel as [| fuel]; [lia |]);
    cbn [send_emit]; cbv zeta;
    rewrite getc_eq, putc__eq; cbn [w_in w_acc w_req w_out w_src w_sink];
    unfold answers in Hack, Hcan; cbn [next_answers] in Hack, Hcan;
    inversion Hack as [| r rs Hr Hrs]; subst; rewrite Hr;
    cbn [no_second_can] in Hcan.
  - (* the last attempt *)
    assert (Hc : char_is (hd None (w_in w)) CAN && s_cancel st = false).
    { destruct (char_is (hd None (w_in w)) CAN); [| reflexivity].
      destruct (s_cancel st); [discriminate Hcan | reflexivity]. }
    rewrite Hc.
    replace (retry <? s_error_count st + 1) with true
      by (symmetry; apply Z.ltb_lt; lia).
    rewrite abort_eq; cbn [w_in w_acc w_req w_out w_src w_sink repeat app].
    rewrite <- app_assoc, <- (skipn_tl 0 (w_in w)).
    destruct (w_acc w) as [| ? [| ? [| ? ?]]]; reflexivity.
  - assert (Hc : char_is (hd None (w_in w)) CAN && s_cancel st = false
                 /\ no_second_can
                      (if char_is (hd None (w_in w)) CAN then true else s_cancel st)
                      (next_answers (S n) (tl (w_in w))) = true).
    { destruct (char_is (hd None (w_in w)) CAN); [| auto].
      destruct (s_cancel st); [discriminate Hcan | auto]. }
    destruct Hc as [Hc Hcan'].
    rewrite Hc.
    replace (retry <? s_error_count st + 1) with false
      by (symmetry; apply Z.ltb_ge; lia).
    rewrite IH; cbn [s_error_count s_cancel w_in w_acc w_req w_out w_src w_sink];
      try assumption; try lia.
    rewrite !skipn_tl, <- !app_assoc.
    reflexivity.
Qed.

Lemma send_emit_break (fuel : nat) (retry : Z) (packet : bytes)
                      (st st' : SendSt) (s s' : Session) (w w' : World) :
  send_emit fuel retry packet st s w = Break st' s' w' -> s_error_count st' = 0.
Proof.
  revert st w; induction fuel as [| fuel IH]; intros st w;
    cbn [send_emit]; cbv zeta; [discriminate |].
  repeat break_match; try discriminate; eauto.
  intros H; inversion H; reflexivity.
Qed.

Lemma send_emit_no_next (fuel : nat) (retry : Z) (packet : bytes)
                        (st st' : SendSt) (s s' : Session) (w w' : World) :
  send_emit fuel retry packet st s w <> Next st' s' w'.
Proof.
  revert st w; induction fuel as [| fuel IH]; intros st w;
    cbn [send_emit]; cbv zeta; [discriminate |].
  repeat break_match; try discriminate; eauto.
Qed.

(** At line 299 the error counter is always 0. *)
Lemma send_loop_head_error_count
      (retry packet_size crc_mode : Z) (md5 : bytes) (cancel0 : bool)
      (s0 : Session) (w0 : World) (st : SendSt) (s : Session) (w : World) :
  send_loop_head retry packet_size crc_mode md5 cancel0 s0 w0 st s w ->
  s_error_count st = 0.
Proof.
  induction 1 as [| fuel st st' s s' w w' _ _ Hstep]; [reflexivity |].
  unfold send_block in Hstep.
  destruct (canceled s); [discriminate |].
  destruct (send_next_data packet_size md5 st w) as [[data st1] w1].
  destruct data; [discriminate |].
  destruct (send_packet _ _ _ _ _) as [packet |]; [| discriminate].
  destruct (send_emit fuel retry packet st1 s w1) eqn:He; try discriminate.
  - exfalso; eapply send_emit_no_next; exact He.
  - inversion Hstep; subst; cbn.
    eapply send_emit_break; exact He.
Qed.

Lemma send_next_data_error_count (packet_size : Z) (md5 data : bytes)
                                 (st st1 : SendSt) (w w1 : World) :
  send_next_data packet_size md5 st w = (data, st1, w1) ->
  s_error_count st1 = s_error_count st /\ s_cancel st1 = s_cancel st
  /\ w_out w1 = w_out w /\ w_in w1 = w_in w.
Proof.
  unfold send_next_data, stream_read.
  destruct (negb (s_md5_sent st) && (s_sequence st =? 0));
    intros H; inversion H; subst; repeat split; reflexivity.
Qed.

(** C5 (as the code has it). For every block of a [send]: when the answers
    to the [retry + 1] transmissions of the block are all something other
    than ACK (a wrong byte or a timeout) and none of them is a CAN that
    finds the cancel flag already up, [send] hands the same packet to
    [putc] exactly [retry + 1] times, then writes the two CAN bytes of the
    abort and returns [False]. *)
Theorem send_retry_exhaustion
        (retry packet_size crc_mode : Z) (md5 : bytes) (cancel0 : bool)
        (s0 : Session) (w0 : World)
        (st : SendSt) (s : Session) (w : World)
        (data packet : bytes) (st1 : SendSt) (w1 : World) (fuel : nat) :
  send_loop_head retry packet_size crc_mode md5 cancel0 s0 w0 st s w ->
  canceled s = false ->
  0 <= retry ->
  (Z.to_nat retry < fuel)%nat ->
  send_next_data packet_size md5 st w = (data, st1, w1) ->
  data <> [] ->
  send_packet packet_size (s_sequence st1) (pad s) crc_mode data = Some packet ->
  Forall (fun r => char_is r ACK = false) (answers (S (Z.to_nat retry)) w) ->
  no_second_can (s_cancel st) (answers (S (Z.to_nat retry)) w) = true ->
  exists w',
    send_block fuel retry packet_size crc_mode md5 st s w
    = Done (Returned PyFalse) s w'
    /\ send_blocks (S fuel) retry packet_size crc_mode md5 st s w
       = (Returned PyFalse, s, w')
    /\ w_out w' = w_out w ++ repeat packet (S (Z.to_nat retry)) ++ [CAN; CAN]
    /\ w_in w' = skipn (S (Z.to_nat retry)) (w_in w).
Proof.
  intros Hhead Hcanc Hretry Hfuel Hdata Hne Hpacket Hack Hcan.
  pose proof (send_loop_head_error_count _ _ _ _ _ _ _ _ _ _ Hhead) as Hec.
  destruct (send_next_data_error_count _ _ _ _ _ _ _ Hdata) as (Hec1 & Hc1 & Hout & Hin).
  assert (Hblock :
            send_block fuel retry packet_size crc_mode md5 st s w
            = send_emit fuel retry packet st1 s w1).
  { unfold send_block; rewrite Hcanc, Hdata.
    destruct data as [| d data']; [congruence |].
    rewrite Hpacket.
    destruct (send_emit fuel retry packet st1 s w1) eqn:He; try reflexivity.
    exfalso.
    revert He; rewrite (send_emit_exhausts (Z.to_nat retry)); try discriminate;
      unfold answers; rewrite ?Hin, ?Hc1; try assumption; lia. }
  eexists; split; [| split; [| split]].
  - rewrite Hblock.
    apply (send_emit_exhausts (Z.to_nat retry));
      unfold answers; rewrite ?Hin, ?Hc1; try assumption; lia.
  - cbn [send_blocks]; rewrite Hblock.
    rewrite (send_emit_exhausts (Z.to_nat retry));
      unfold answers; rewrite ?Hin, ?Hc1; try assumption; try lia.
    reflexivity.
  - cbn [w_out]; rewrite Hout; reflexivity.
  - cbn [w_in]; rewrite Hin; reflexivity.
Qed.

Lemma send_retry_exhaustion_witness :
  exists w',
    send_block 3 2 128 1 md5_new (mkSendSt 0 0 0 0 false false)
               (__init__ xmodem 0x1a)
               (world [Some NAK; None; Some CAN] source300)
    = Done (Returned PyFalse) (__init__ xmodem 0x1a) w'
    /\ send_blocks 4 2 128 1 md5_new (mkSendSt 0 0 0 0 false false)
                   (__init__ xmodem 0x1a)
                   (world [Some NAK; None; Some CAN] source300)
       = (Returned PyFalse, __init__ xmodem 0x1a, w')
    /\ w_out w'
       = w_out (world [Some NAK; None; Some CAN] source300)
           ++ repeat ([1; 0; 255; 32] ++ md5_new ++ repeat 0x1a 96 ++ [0x65; 0x69]) 3
           ++ [CAN; CAN]
    /\ w_in w' = skipn 3 (w_in (world [Some NAK; None; Some CAN] source300)).
Proof.
  apply (send_retry_exhaustion 2 128 1 md5_new false (__init__ xmodem 0x1a)
           (world [Some NAK; None; Some CAN] source300)
           (mkSendSt 0 0 0 0 false false) (__init__ xmodem 0x1a)
           (world [Some NAK; None; Some CAN] source300)
           md5_new
           ([1; 0; 255; 32] ++ md5_new ++ repeat 0x1a 96 ++ [0x65; 0x69])
           (mkSendSt 0 0 0 0 true false)
           (world [Some NAK; None; Some CAN] source300) 3).
  - apply shead_first.
  - reflexivity.
  - lia.
  - simpl; lia.
  - reflexivity.
  - discriminate.
  - vm_compute; reflexivity.
  - repeat constructor.
  - reflexivity.
Defined.

(** C5 as the specification words it does not hold: with [retry] 16, two CAN answers (both
    are answers other than ACK) end the call after two transmissions of
    block 0, and no abort is written. *)
Lemma retry_exhaustion_counterexample :
  exists packet,
    send_packet 128 0 0x1a 0 md5_new = Some packet
    /\ Forall (fun r => char_is r ACK = false) [Some CAN; Some CAN]
    /\ outcome_of (send 100 (__init__ xmodem 0x1a) md5_new 16
                        (world [Some NAK; Some CAN; Some CAN] source300))
       = Returned PyFalse
    /\ w_out (world_of (send 100 (__init__ xmodem 0x1a) md5_new 16
                             (world [Some NAK; Some CAN; Some CAN] source300)))
       = [packet; packet]
    /\ [packet; packet] <> repeat packet 17 ++ [CAN; CAN].
Proof.
  eexists; split; [vm_compute; reflexivity |].
  split; [repeat constructor |].
  split; [vm_compute; reflexivity |].
  split; [vm_compute; reflexivity |].
  discriminate.
Qed.

(** ** The receiver *)

Lemma recv_wait_break (fuel : nat) (retry : Z) (s : Session) :
  forall (st : RecvSt) (w : World) (st1 : RecvSt) (s1 : Session) (w1 : World),
    recv_wait fuel retry st s w = Break st1 s1 w1 ->
    wait_frame st w st1 w1.
Proof.
  induction fuel as [| fuel IH]; intros st w st1 s1 w1;
    cbn [recv_wait]; cbv zeta; [discriminate |].
  destruct (char_is (r_char st) SOH || char_is (r_char st) STX).
  { intros H; inversion H; subst; repeat split. }
  destruct (char_is (r_char st) EOT); [discriminate |].
  destruct (char_is (r_char st) CAN).
  { destruct (r_cancel st); [discriminate |].
    intros H; apply IH in H; exact H. }
  destruct (retry <? r_error_count st + 1); [discriminate |].
  rewrite getc_eq.
  intros H; apply IH in H.
  unfold wait_frame in *; cbn [r_sequence r_retrans r_md5_received r_income_size
                                r_success_count w_sink w_src] in H.
  destruct (r_char st); [rewrite putc__eq in H; cbn [w_sink w_src] in H |];
    try (destruct (purge_spec w) as (k & Hp & _); rewrite Hp in H; cbn [w_sink w_src] in H);
    exact H.
Qed.

Lemma recv_wait_no_next (fuel : nat) (retry : Z) (s : Session) :
  forall (st : RecvSt) (w : World) (st1 : RecvSt) (s1 : Session) (w1 : World),
    recv_wait fuel retry st s w <> Next st1 s1 w1.
Proof.
  induction fuel as [| fuel IH]; intros st w st1 s1 w1;
    cbn [recv_wait]; cbv zeta; [discriminate |].
  repeat break_match; try discriminate; apply IH.
Qed.

Lemma recv_wait_same_session (fuel : nat) (retry : Z) (st st1 : RecvSt)
                             (s s1 : Session) (w w1 : World) :
  recv_wait fuel retry st s w = Break st1 s1 w1 -> s1 = s.
Proof.
  intros H; pose proof (recv_wait_session fuel retry st s w) as Hs.
  rewrite H in Hs; cbn in Hs; congruence.
Qed.

Lemma read_sequence_pair (w : World) (b1 b2 : Z) (rest : list (option bytes)) :
  w_in w = Some [b1] :: Some [b2] :: rest ->
  read_sequence w
  = (Some (Some b1, Some (0xff - b2)),
     mkWorld rest (w_acc w) (w_req w ++ [1; 1]) (w_out w) (w_src w) (w_sink w)).
Proof.
  intros Hin; unfold read_sequence.
  rewrite getc_eq, Hin; cbn [hd tl ord].
  rewrite getc_eq; cbn [hd tl ord w_in w_acc w_req w_out w_src w_sink].
  rewrite <- app_assoc; reflexivity.
Qed.

(** A block whose sequence pair is the expected one and whose trailer
    verifies reaches the [if valid:] branch. *)
Lemma recv_packet_valid (retry packet_size is_stx crc_mode : Z) (md5 : bytes)
                        (st : RecvSt) (s : Session) (w : World)
                        (body data : bytes) (rest : list (option bytes)) :
  w_in w = Some [r_sequence st] :: Some [0xff - r_sequence st] :: Some body :: rest ->
  _verify_recv_checksum crc_mode body = Some (true, data) ->
  recv_packet retry packet_size is_stx crc_mode md5 st s w
  = recv_accept retry is_stx md5 data (clear_errors st) s
      (mkWorld rest (w_acc w)
               (w_req w ++ [1; 1; 1 + is_stx + packet_size + 1 + crc_mode])
               (w_out w) (w_src w) (w_sink w)).
Proof.
  intros Hin Hv; unfold recv_packet; cbv zeta.
  rewrite (read_sequence_pair w _ _ _ Hin).
  unfold sequence_ok, py_eqb; cbn [clear_errors r_sequence].
  replace (0xff - (0xff - r_sequence st)) with (r_sequence st) by lia.
  rewrite Z.eqb_refl; cbn [andb].
  unfold recv_data; rewrite getc_eq;
    cbn [hd tl w_in w_acc w_req w_out w_src w_sink].
  rewrite Hv, <- app_assoc; reflexivity.
Qed.

Lemma recv_block_packet (fuel : nat) (retry packet_size is_stx crc_mode : Z)
                        (md5 : bytes) (st st1 : RecvSt) (s : Session) (w w1 : World) :
  canceled s = false ->
  recv_wait fuel retry st s w = Break st1 s w1 ->
  recv_block fuel retry packet_size is_stx crc_mode md5 st s w
  = recv_packet retry packet_size is_stx crc_mode md5 st1 s w1.
Proof. intros Hc Hw; unfold recv_block; rewrite Hc, Hw; reflexivity. Qed.

Lemma recv_retrans_frame (st st' : RecvSt) (s s' : Session) (w w' : World) :
  recv_retrans st s w = Next st' s' w' ->
  r_sequence st' = r_sequence st
  /\ r_md5_received st' = r_md5_received st
  /\ r_income_size st' = r_income_size st
  /\ w_sink w' = w_sink w.
Proof.
  unfold recv_retrans; cbv zeta.
  destruct (r_retrans st - 1 <=? 0); [discriminate |].
  rewrite getc_eq, putc__eq; cbn [w_sink].
  intros H; inversion H; subst;
    cbn [r_sequence r_md5_received r_income_size w_sink].
  rewrite purge_sink; repeat split.
Qed.

Lemma recv_packet_before_hash (retry packet_size is_stx crc_mode : Z) (md5 : bytes)
                              (w0 : World) (st st' : RecvSt) (s s' : Session)
                              (w w' : World) :
  before_hash w0 st w ->
  recv_packet retry packet_size is_stx crc_mode md5 st s w = Next st' s' w' ->
  before_hash w0 st' w'.
Proof.
  intros Hinv; unfold recv_packet, read_sequence; cbv zeta.
  assert (Hretrans : forall w1, w_sink w1 = w_sink w ->
             recv_retrans (clear_errors st) s w1 = Next st' s' w' ->
             before_hash w0 st' w').
  { intros w1 Hs1 H; apply recv_retrans_frame in H.
    destruct H as (Hseq & Hmd5 & Hinc & Hsink).
    cbn [clear_errors r_sequence r_md5_received r_income_size] in *.
    intros Hm; rewrite Hmd5 in Hm; destruct (Hinv Hm) as (? & ? & ?).
    repeat split; congruence. }
  assert (Hmis : forall w1, w_sink w1 = w_sink w ->
             recv_mismatch packet_size crc_mode (clear_errors st) s w1 = Next st' s' w' ->
             before_hash w0 st' w').
  { intros w1 Hs1; unfold recv_mismatch; rewrite getc_eq; cbn [snd].
    apply Hretrans; exact Hs1. }
  assert (Hdata : forall w1, w_sink w1 = w_sink w ->
             recv_data retry packet_size is_stx crc_mode md5 (clear_errors st) s w1
             = Next st' s' w' ->
             before_hash w0 st' w').
  { intros w1 Hs1; unfold recv_data; rewrite getc_eq.
    destruct (hd None (w_in w1)) as [d |]; [| apply Hretrans; exact Hs1].
    destruct (_verify_recv_checksum crc_mode d) as [[[|] d'] |];
      [| apply Hretrans; exact Hs1 | discriminate].
    unfold recv_accept, recv_ack; cbv zeta;
      cbn [clear_errors r_sequence r_md5_received r_income_size].
    destruct ((r_sequence st =? 0) && negb (r_md5_received st)) eqn:Hfirst.
    - destruct (bytes_eqb md5 _); [discriminate |].
      rewrite getc_eq; intros H; inversion H; subst.
      intros Hm; discriminate Hm.
    - destruct (block_content is_stx d'); [| discriminate].
      rewrite getc_eq; intros H; inversion H; subst.
      intros Hm; cbn in Hm.
      destruct (Hinv Hm) as (Hseq & _).
      rewrite Hseq, Hm in Hfirst; discriminate Hfirst. }
  rewrite getc_eq; cbv beta iota.
  destruct (hd None (w_in w)) as [b1 |]; [| apply Hmis; reflexivity].
  destruct (ord b1); [| discriminate].
  rewrite getc_eq; cbv beta iota; cbn [w_in w_acc w_req w_out w_src w_sink].
  destruct (hd None (tl (w_in w))) as [b2 |]; [| apply Hmis; reflexivity].
  destruct (ord b2); [| discriminate].
  destruct (sequence_ok _ _ _); [apply Hdata | apply Hmis]; reflexivity.
Qed.

Lemma recv_loop_head_before_hash
      (retry packet_size is_stx crc_mode : Z) (md5 : bytes) (char0 : option bytes)
      (s0 : Session) (w0 : World) (st : RecvSt) (s : Session) (w : World) :
  recv_loop_head retry packet_size is_stx crc_mode md5 char0 s0 w0 st s w ->
  before_hash w0 st w.
Proof.
  induction 1 as [| fuel st st' s s' w w' _ IH Hstep].
  - intros _; repeat split.
  - unfold recv_block in Hstep.
    destruct (canceled s); [discriminate |].
    destruct (recv_wait fuel retry st s w) as [a s1 w1 | a s1 w1 | o s1 w1] eqn:Hw;
      try discriminate.
    + exfalso; eapply recv_wait_no_next; exact Hw.
    + apply recv_wait_break in Hw.
      destruct Hw as (Hseq & _ & Hmd5 & Hinc & _ & Hsink & _).
      eapply recv_packet_before_hash; [| exact Hstep].
      intros Hm; rewrite Hmd5 in Hm; destruct (IH Hm) as (? & ? & ?).
      repeat split; congruence.
Qed.

(** The checks of [recv_decode] are the ones the block loop makes: on a
    packet that [recv_decode] takes, read the way [recv] reads it, one turn
    of the loop reaches the [if valid:] branch with a block whose declared
    content is what [recv_decode] gives. *)
Lemma recv_block_decodes (fuel : nat) (retry packet_size is_stx crc_mode : Z)
                         (md5 : bytes) (st : RecvSt) (s : Session) (w : World)
                         (start b1 b2 : Z) (body content : bytes)
                         (rest : list (option bytes)) :
  recv_decode is_stx crc_mode (r_sequence st) (start :: b1 :: b2 :: body)
  = Some content ->
  canceled s = false ->
  r_char st = Some [start] ->
  w_in w = Some [b1] :: Some [b2] :: Some body :: rest ->
  exists data,
    block_content is_stx data = Some content
    /\ recv_block (S fuel) retry packet_size is_stx crc_mode md5 st s w
       = recv_accept retry is_stx md5 data (clear_errors st) s
           (mkWorld rest (w_acc w)
                    (w_req w ++ [1; 1; 1 + is_stx + packet_size + 1 + crc_mode])
                    (w_out w) (w_src w) (w_sink w)).
Proof.
  unfold recv_decode; intros Hdec Hc Hchar Hin.
  destruct (bytes_eqb [start] SOH || bytes_eqb [start] STX) eqn:Hstart;
    [| discriminate Hdec].
  destruct (Z.eqb_spec b1 (0xff - b2)) as [Hb1 |]; [| discriminate Hdec].
  destruct (Z.eqb_spec (0xff - b2) (r_sequence st)) as [Hb2 |]; [| discriminate Hdec].
  cbn [andb] in Hdec.
  destruct (_verify_recv_checksum crc_mode body) as [[[|] data] |] eqn:Hv;
    try discriminate Hdec.
  exists data; split; [exact Hdec |].
  assert (Hw : recv_wait (S fuel) retry st s w = Break st s w).
  { cbn [recv_wait]; cbv zeta; rewrite Hchar; unfold char_is.
    rewrite Hstart; reflexivity. }
  rewrite (recv_block_packet _ _ _ _ _ _ _ _ _ _ _ Hc Hw).
  apply (recv_packet_valid _ _ _ _ _ _ _ _ body data rest); [| exact Hv].
  rewrite Hin; repeat f_equal; lia.
Qed.

(** The first verified block of a session meets the hash branch of
    [recv_accept]: shared by the two theorems on the hash block. *)
Lemma recv_block_hash_block
      (retry packet_size is_stx crc_mode : Z) (md5 : bytes) (char0 : option bytes)
      (s0 : Session) (w0 : World) (st : RecvSt) (s : Session) (w : World)
      (fuel : nat) (st1 : RecvSt) (w1 : World)
      (body data : bytes) (rest : list (option bytes)) :
  recv_loop_head retry packet_size is_stx crc_mode md5 char0 s0 w0 st s w ->
  canceled s = false ->
  recv_wait fuel retry st s w = Break st1 s w1 ->
  r_md5_received st = false ->
  w_in w1 = Some [0] :: Some [0xff] :: Some body :: rest ->
  _verify_recv_checksum crc_mode body = Some (true, data) ->
  let w3 := mkWorld rest (w_acc w1)
                    (w_req w1 ++ [1; 1; 1 + is_stx + packet_size + 1 + crc_mode])
                    (w_out w1) (w_src w1) (w_sink w1) in
  (r_sequence st = 0 /\ r_income_size st = 0 /\ w_sink w = w_sink w0)
  /\ r_income_size st1 = 0
  /\ w_sink w1 = w_sink w0
  /\ recv_block fuel retry packet_size is_stx crc_mode md5 st s w
     = if bytes_eqb md5 (slice data (1 + is_stx) (33 + is_stx))
       then Done (Returned (PyInt 0)) s (cancel_sequence w3)
       else recv_ack (mkRecvSt (r_char st1) 0 false 0 (retry + 1) true 0
                               (r_success_count st1)) s w3.
Proof.
  intros Hhead Hc Hw Hm Hin Hv w3.
  pose proof (recv_loop_head_before_hash _ _ _ _ _ _ _ _ _ _ _ Hhead Hm)
    as (Hseq & Hinc & Hsink).
  destruct (recv_wait_break _ _ _ _ _ _ _ _ Hw)
    as (Hseq1 & _ & Hmd51 & Hinc1 & _ & Hsink1 & _).
  assert (Hs0 : r_sequence st1 = 0) by congruence.
  split; [auto |].
  split; [congruence |].
  split; [congruence |].
  rewrite (recv_block_packet _ _ _ _ _ _ _ _ _ _ _ Hc Hw).
  rewrite (recv_packet_valid _ _ _ _ _ _ _ _ body data rest);
    [| rewrite Hs0; exact Hin | exact Hv].
  unfold recv_accept; cbv zeta;
    cbn [clear_errors r_sequence r_md5_received r_char r_error_count r_cancel
         r_income_size r_success_count].
  rewrite Hs0, Hmd51, Hm, Hinc1, Hinc; reflexivity.
Qed.

(** C4. In every receive session, when the first block that verifies (it
    carries sequence 0) has the expected content identifier in its hash
    region, [recv] writes three CAN bytes, drains the input by single-byte
    reads up to the first empty read, and returns 0, the value for content
    that is already up to date; the sink has received nothing since the
    call began and no further block is read. *)
Theorem hash_match_short_circuit
      (retry packet_size is_stx crc_mode : Z) (md5 : bytes) (char0 : option bytes)
      (s0 : Session) (w0 : World) (st : RecvSt) (s : Session) (w : World)
      (fuel : nat) (st1 : RecvSt) (w1 : World)
      (body data : bytes) (rest : list (option bytes)) :
  recv_loop_head retry packet_size is_stx crc_mode md5 char0 s0 w0 st s w ->
  canceled s = false ->
  recv_wait fuel retry st s w = Break st1 s w1 ->
  r_md5_received st = false ->
  w_in w1 = Some [0] :: Some [0xff] :: Some body :: rest ->
  _verify_recv_checksum crc_mode body = Some (true, data) ->
  slice data (1 + is_stx) (33 + is_stx) = md5 ->
  exists (k : nat) (w' : World),
    recv_block fuel retry packet_size is_stx crc_mode md5 st s w
    = Done (Returned (PyInt 0)) s w'
    /\ recv_blocks (S fuel) retry packet_size is_stx crc_mode md5 st s w
       = (Returned (PyInt 0), s, w')
    /\ w_out w' = w_out w1 ++ [CAN; CAN; CAN]
    /\ w_req w' = w_req w1 ++ [1; 1; 1 + is_stx + packet_size + 1 + crc_mode]
                    ++ repeat 1 (S k)
    /\ w_in w' = skipn (S k) rest
    /\ Forall (fun r => truthy r = true) (firstn k rest)
    /\ truthy (nth k rest None) = false
    /\ w_sink w' = w_sink w0.
Proof.
  intros Hhead Hc Hw Hm Hin Hv Hhash.
  destruct (recv_block_hash_block _ _ _ _ _ _ _ _ _ _ _ _ _ _ _ _ _
              Hhead Hc Hw Hm Hin Hv) as (_ & _ & Hsink & Hblock).
  rewrite Hhash, bytes_eqb_refl in Hblock.
  match type of Hblock with
  | _ = Done _ _ (cancel_sequence ?w3) =>
      destruct (cancel_sequence_spec w3) as (k & Hcs & Hall & Hend)
  end.
  cbn [w_in w_acc w_req w_out w_src w_sink] in Hcs, Hall, Hend.
  exists k; eexists; split; [exact Hblock |].
  split; [cbn [recv_blocks]; rewrite Hblock; reflexivity |].
  rewrite Hcs; cbn [w_in w_acc w_req w_out w_src w_sink].
  rewrite <- !app_assoc.
  repeat split; auto.
Qed.

(** C10. In every receive session the first block that verifies (the hash
    block, sequence 0) is neither written to the sink nor counted: up to it
    nothing has been written or counted; if its hash region is the expected
    identifier the call returns 0 with the sink as it was, and if not
    [recv] writes ACK, expects sequence 1 next, and sink and byte count are
    still untouched. *)
Theorem hash_block_never_reaches_sink
      (retry packet_size is_stx crc_mode : Z) (md5 : bytes) (char0 : option bytes)
      (s0 : Session) (w0 : World) (st : RecvSt) (s : Session) (w : World)
      (fuel : nat) (st1 : RecvSt) (w1 : World)
      (body data : bytes) (rest : list (option bytes)) :
  recv_loop_head retry packet_size is_stx crc_mode md5 char0 s0 w0 st s w ->
  canceled s = false ->
  recv_wait fuel retry st s w = Break st1 s w1 ->
  r_md5_received st = false ->
  w_in w1 = Some [0] :: Some [0xff] :: Some body :: rest ->
  _verify_recv_checksum crc_mode body = Some (true, data) ->
  (r_sequence st = 0 /\ r_income_size st = 0 /\ w_sink w = w_sink w0)
  /\ (slice data (1 + is_stx) (33 + is_stx) = md5 ->
      exists w',
        recv_block fuel retry packet_size is_stx crc_mode md5 st s w
        = Done (Returned (PyInt 0)) s w'
        /\ w_sink w' = w_sink w0)
  /\ (slice data (1 + is_stx) (33 + is_stx) <> md5 ->
      exists st' w',
        recv_block fuel retry packet_size is_stx crc_mode md5 st s w
        = Next st' s w'
        /\ r_sequence st' = 1
        /\ r_md5_received st' = true
        /\ r_income_size st' = 0
        /\ w_out w' = w_out w1 ++ [ACK]
        /\ w_sink w' = w_sink w0).
Proof.
  intros Hhead Hc Hw Hm Hin Hv.
  destruct (recv_block_hash_block _ _ _ _ _ _ _ _ _ _ _ _ _ _ _ _ _
              Hhead Hc Hw Hm Hin Hv) as (Hbefore & _ & Hsink & Hblock).
  split; [exact Hbefore |].
  split; intros Hhash.
  - rewrite Hhash, bytes_eqb_refl in Hblock.
    eexists; split; [exact Hblock |].
    match goal with
    | |- w_sink (cancel_sequence ?w3) = _ =>
        destruct (cancel_sequence_spec w3) as (k & -> & _)
    end.
    exact Hsink.
  - destruct (bytes_eqb md5 (slice data (1 + is_stx) (33 + is_stx))) eqn:He.
    { apply bytes_eqb_eq in He; congruence. }
    unfold recv_ack in Hblock; rewrite getc_eq, putc__eq in Hblock;
      cbn [w_in w_acc w_req w_out w_src w_sink r_sequence r_char r_error_count
           r_cancel r_retrans r_md5_received r_income_size r_success_count]
        in Hblock.
    do 2 eexists; split; [exact Hblock |].
    cbn [r_sequence r_md5_received r_income_size w_out w_sink].
    repeat split; auto.
Qed.

Lemma hash_match_short_circuit_witness :
  exists (k : nat) (w' : World),
    recv_block 1 16 128 0 1 md5_new (recv_init 16 (Some SOH))
               (__init__ xmodem 0x1a) block0_world
    = Done (Returned (PyInt 0)) (__init__ xmodem 0x1a) w'
    /\ recv_blocks 2 16 128 0 1 md5_new (recv_init 16 (Some SOH))
                   (__init__ xmodem 0x1a) block0_world
       = (Returned (PyInt 0), __init__ xmodem 0x1a, w')
    /\ w_out w' = w_out block0_world ++ [CAN; CAN; CAN]
    /\ w_req w' = w_req block0_world ++ [1; 1; 1 + 0 + 128 + 1 + 1] ++ repeat 1 (S k)
    /\ w_in w' = skipn (S k) [Some [0x31]; None; Some [0x32]]
    /\ Forall (fun r => truthy r = true) (firstn k [Some [0x31]; None; Some [0x32]])
    /\ truthy (nth k [Some [0x31]; None; Some [0x32]] None) = false
    /\ w_sink w' = w_sink block0_world.
Proof.
  apply (hash_match_short_circuit 16 128 0 1 md5_new (Some SOH)
           (__init__ xmodem 0x1a) block0_world
           (recv_init 16 (Some SOH)) (__init__ xmodem 0x1a) block0_world
           1 (recv_init 16 (Some SOH)) block0_world
           block0_body (drop_last_n 2 block0_body)).
  - apply head_first.
  - reflexivity.
  - reflexivity.
  - reflexivity.
  - reflexivity.
  - vm_compute; reflexivity.
  - vm_compute; reflexivity.
Defined.

Lemma hash_block_never_reaches_sink_witness :
  (r_sequence (recv_init 16 (Some SOH)) = 0
   /\ r_income_size (recv_init 16 (Some SOH)) = 0
   /\ w_sink block0_world = w_sink block0_world)
  /\ (slice (drop_last_n 2 block0_body) (1 + 0) (33 + 0) = md5_old ->
      exists w',
        recv_block 1 16 128 0 1 md5_old (recv_init 16 (Some SOH))
                   (__init__ xmodem 0x1a) block0_world
        = Done (Returned (PyInt 0)) (__init__ xmodem 0x1a) w'
        /\ w_sink w' = w_sink block0_world)
  /\ (slice (drop_last_n 2 block0_body) (1 + 0) (33 + 0) <> md5_old ->
      exists st' w',
        recv_block 1 16 128 0 1 md5_old (recv_init 16 (Some SOH))
                   (__init__ xmodem 0x1a) block0_world
        = Next st' (__init__ xmodem 0x1a) w'
        /\ r_sequence st' = 1
        /\ r_md5_received st' = true
        /\ r_income_size st' = 0
        /\ w_out w' = w_out block0_world ++ [ACK]
        /\ w_sink w' = w_sink block0_world).
Proof.
  apply (hash_block_never_reaches_sink 16 128 0 1 md5_old (Some SOH)
           (__init__ xmodem 0x1a) block0_world
           (recv_init 16 (Some SOH)) (__init__ xmodem 0x1a) block0_world
           1 (recv_init 16 (Some SOH)) block0_world
           block0_body (drop_last_n 2 block0_body)
           [Some [0x31]; None; Some [0x32]]).
  - apply head_first.
  - reflexivity.
  - reflexivity.
  - reflexivity.
  - reflexivity.
  - vm_compute; reflexivity.
Defined.

(** ** The byte count [recv] returns *)

Lemma recv_wait_eot (fuel : nat) (retry : Z) (st : RecvSt) (s : Session) (w : World) :
  r_char st = Some EOT ->
  recv_wait (S fuel) retry st s w
  = Done (Returned (PyInt (r_income_size st))) s (putc_ ACK w).
Proof. intros H; cbn [recv_wait]; cbv zeta; rewrite H; reflexivity. Qed.

(** C3 (as the code has it). On an EOT at the top of the block loop [recv]
    writes ACK and returns its running count [income_size].  For every
    data block it accepts that count grows by [len(data) - 1 - is_stx],
    where [data] is what was read for the block without its trailer: the
    bytes read less the length prefix and the trailer, pad bytes included.
    That is the whole [packet_size] for a block that was read whole and
    less for a short read that verifies; the sink gets only the declared
    content.  So for the 300-byte source sent in 128-byte blocks without
    errors the sink holds exactly the 300 source bytes, the sender returns
    [True], and [recv] returns 384, three blocks of 128; and a receiver
    in checksum mode whose only data block comes as a short read of five
    bytes that verifies writes its three payload bytes and returns 3. *)
Theorem recv_returns_block_total :
  (forall (fuel : nat) (retry packet_size is_stx crc_mode : Z) (md5 : bytes)
          (st : RecvSt) (s : Session) (w : World),
      canceled s = false ->
      r_char st = Some EOT ->
      recv_block (S fuel) retry packet_size is_stx crc_mode md5 st s w
      = Done (Returned (PyInt (r_income_size st))) s (putc_ ACK w)
      /\ recv_blocks (S (S fuel)) retry packet_size is_stx crc_mode md5 st s w
         = (Returned (PyInt (r_income_size st)), s, putc_ ACK w)
      /\ w_out (putc_ ACK w) = w_out w ++ [ACK]
      /\ w_sink (putc_ ACK w) = w_sink w)
  /\ (forall (fuel : nat) (retry packet_size is_stx crc_mode : Z) (md5 : bytes)
             (st st1 : RecvSt) (s : Session) (w w1 : World)
             (body data content : bytes) (rest : list (option bytes)),
         canceled s = false ->
         recv_wait fuel retry st s w = Break st1 s w1 ->
         r_md5_received st = true ->
         w_in w1 = Some [r_sequence st] :: Some [0xff - r_sequence st]
                     :: Some body :: rest ->
         _verify_recv_checksum crc_mode body = Some (true, data) ->
         block_content is_stx data = Some content ->
         exists st' w',
           recv_block fuel retry packet_size is_stx crc_mode md5 st s w
           = Next st' s w'
           /\ r_income_size st' = r_income_size st + (len data - 1 - is_stx)
           /\ len data - 1 - is_stx
              = len body - (1 + is_stx) - trailer_size crc_mode
           /\ (len body = 1 + is_stx + packet_size + trailer_size crc_mode ->
               r_income_size st' = r_income_size st + packet_size)
           /\ (len body < 1 + is_stx + packet_size + trailer_size crc_mode ->
               r_income_size st' < r_income_size st + packet_size)
           /\ w_sink w' = w_sink w ++ content
           /\ w_out w' = w_out w1 ++ [ACK])
  /\ (outcome_of send300 = Returned PyTrue
      /\ w_out (world_of recv300) = [CRC; ACK; ACK; ACK; ACK; ACK]
      /\ len source300 = 300
      /\ w_sink (world_of recv300) = source300
      /\ outcome_of recv300 = Returned (PyInt 384))
  /\ (w_sink (world_of recv_short_read) = [7; 8; 9]
      /\ outcome_of recv_short_read = Returned (PyInt 3)).
Proof.
  split; [| split; [| split]].
  - intros fuel retry packet_size is_stx crc_mode md5 st s w Hc Hchar.
    assert (Hb : recv_block (S fuel) retry packet_size is_stx crc_mode md5 st s w
                 = Done (Returned (PyInt (r_income_size st))) s (putc_ ACK w)).
    { unfold recv_block; rewrite Hc, recv_wait_eot by assumption; reflexivity. }
    split; [exact Hb |].
    split; [cbn [recv_blocks]; rewrite Hb; reflexivity |].
    rewrite putc__eq; split; reflexivity.
  - intros fuel retry packet_size is_stx crc_mode md5 st st1 s w w1
           body data content rest Hc Hw Hm Hin Hv Hcontent.
    destruct (recv_wait_break _ _ _ _ _ _ _ _ Hw)
      as (Hseq1 & _ & Hmd51 & Hinc1 & _ & Hsink1 & _).
    pose proof (verify_len _ _ _ _ Hv) as Hlen.
    rewrite (recv_block_packet _ _ _ _ _ _ _ _ _ _ _ Hc Hw).
    rewrite (recv_packet_valid _ _ _ _ _ _ _ _ body data rest);
      [| rewrite Hseq1; exact Hin | exact Hv].
    unfold recv_accept; cbv zeta;
      cbn [clear_errors r_sequence r_md5_received r_char r_error_count r_cancel
           r_income_size r_success_count].
    rewrite Hmd51, Hm, andb_false_r, Hcontent.
    unfold recv_ack, stream_write; rewrite getc_eq, putc__eq;
      cbn [w_in w_acc w_req w_out w_src w_sink r_sequence r_char r_error_count
           r_cancel r_retrans r_md5_received r_income_size r_success_count].
    do 2 eexists; split; [reflexivity |].
    cbn [r_income_size w_sink w_out].
    repeat split; [lia | lia | lia | lia | congruence].
  - vm_compute; repeat split; reflexivity.
  - vm_compute; split; reflexivity.
Qed.

Lemma recv_returns_block_total_witness :
  (recv_block 1 16 128 0 1 md5_old (after_hash 16 (Some EOT))
              (__init__ xmodem 0x1a) (world [] [])
   = Done (Returned (PyInt (r_income_size (after_hash 16 (Some EOT)))))
          (__init__ xmodem 0x1a) (putc_ ACK (world [] []))
   /\ recv_blocks 2 16 128 0 1 md5_old (after_hash 16 (Some EOT))
                  (__init__ xmodem 0x1a) (world [] [])
      = (Returned (PyInt (r_income_size (after_hash 16 (Some EOT)))),
         __init__ xmodem 0x1a, putc_ ACK (world [] []))
   /\ w_out (putc_ ACK (world [] [])) = w_out (world [] []) ++ [ACK]
   /\ w_sink (putc_ ACK (world [] [])) = w_sink (world [] []))
  /\ (exists st' w',
        recv_block 1 16 128 0 1 md5_old (after_hash 16 (Some SOH))
                   (__init__ xmodem 0x1a) block1_world
        = Next st' (__init__ xmodem 0x1a) w'
        /\ r_income_size st'
           = r_income_size (after_hash 16 (Some SOH))
             + (len (drop_last_n 2 block1_body) - 1 - 0)
        /\ len (drop_last_n 2 block1_body) - 1 - 0
           = len block1_body - (1 + 0) - trailer_size 1
        /\ (len block1_body = 1 + 0 + 128 + trailer_size 1 ->
            r_income_size st' = r_income_size (after_hash 16 (Some SOH)) + 128)
        /\ (len block1_body < 1 + 0 + 128 + trailer_size 1 ->
            r_income_size st' < r_income_size (after_hash 16 (Some SOH)) + 128)
        /\ w_sink w' = w_sink block1_world ++ firstn 128 source300
        /\ w_out w' = w_out block1_world ++ [ACK])
  /\ (exists st' w',
        recv_block 1 16 128 0 0 md5_old (after_hash 16 (Some SOH))
                   (__init__ xmodem 0x1a) short_block_world
        = Next st' (__init__ xmodem 0x1a) w'
        /\ r_income_size st'
           = r_income_size (after_hash 16 (Some SOH)) + (len [0xc8; 7; 8; 9] - 1 - 0)
        /\ len [0xc8; 7; 8; 9] - 1 - 0
           = len [0xc8; 7; 8; 9; 0xe0] - (1 + 0) - trailer_size 0
        /\ (len [0xc8; 7; 8; 9; 0xe0] = 1 + 0 + 128 + trailer_size 0 ->
            r_income_size st' = r_income_size (after_hash 16 (Some SOH)) + 128)
        /\ (len [0xc8; 7; 8; 9; 0xe0] < 1 + 0 + 128 + trailer_size 0 ->
            r_income_size st' < r_income_size (after_hash 16 (Some SOH)) + 128)
        /\ w_sink w' = w_sink short_block_world ++ [7; 8; 9]
        /\ w_out w' = w_out short_block_world ++ [ACK]).
Proof.
  split; [| split].
  - apply (proj1 recv_returns_block_total); reflexivity.
  - apply (proj1 (proj2 recv_returns_block_total)
             1%nat 16 128 0 1 md5_old (after_hash 16 (Some SOH))
             (after_hash 16 (Some SOH)) (__init__ xmodem 0x1a)
             block1_world block1_world
             block1_body (drop_last_n 2 block1_body)
             (firstn 128 source300) [Some EOT]);
      vm_compute; reflexivity.
  - apply (proj1 (proj2 recv_returns_block_total)
             1%nat 16 128 0 0 md5_old (after_hash 16 (Some SOH))
             (after_hash 16 (Some SOH)) (__init__ xmodem 0x1a)
             short_block_world short_block_world
             [0xc8; 7; 8; 9; 0xe0] [0xc8; 7; 8; 9]
             [7; 8; 9] [Some EOT]);
      vm_compute; reflexivity.
Defined.

(** C3 as the specification words it does not hold: in the 300-byte transfer the sink gets
    300 bytes and [recv] returns 384. *)
Lemma recv_byte_count_counterexample :
  len (w_sink (world_of recv300)) = 300
  /\ outcome_of recv300 <> Returned (PyInt 300)
  /\ outcome_of recv300 <> Returned (PyInt (len (w_sink (world_of recv300)))).
Proof. vm_compute; repeat split; discriminate. Qed.

(** ** A block out of sequence *)

Lemma sequence_ok_false (seq1 seq2 : option Z) (sequence : Z) :
  seq1 <> Some sequence \/ seq2 <> Some sequence ->
  sequence_ok seq1 seq2 sequence = false.
Proof.
  unfold sequence_ok, py_eqb.
  destruct seq1 as [a |], seq2 as [b |]; try reflexivity.
  destruct (Z.eqb_spec a b), (Z.eqb_spec b sequence); try reflexivity.
  subst; intros [H | H]; exfalso; apply H; reflexivity.
Qed.

(** In both modes the read that throws the block away asks for
    [2 + packet_size + 1 + crc_mode] bytes. *)
Lemma recv_mismatch_request (retry packet_size is_stx crc_mode : Z) (md5 : bytes)
                            (st : RecvSt) (s : Session) (w w1 : World)
                            (seq1 seq2 : option Z) :
  read_sequence w = (Some (seq1, seq2), w1) ->
  seq1 <> Some (r_sequence st) \/ seq2 <> Some (r_sequence st) ->
  recv_packet retry packet_size is_stx crc_mode md5 st s w
  = recv_retrans (clear_errors st) s
      (mkWorld (tl (w_in w1)) (w_acc w1)
               (w_req w1 ++ [2 + packet_size + 1 + crc_mode])
               (w_out w1) (w_src w1) (w_sink w1)).
Proof.
  intros Hread Hne; unfold recv_packet; cbv zeta; rewrite Hread.
  cbn [clear_errors r_sequence].
  rewrite (sequence_ok_false _ _ _ Hne).
  unfold recv_mismatch; rewrite getc_eq; reflexivity.
Qed.

(** C7 (as the code has it). In the large-block mode, whenever the two
    sequence bytes are not both the expected sequence (a missing one
    included), [recv] makes one more read, for
    [packet_size + trailer_size + 2] bytes (the two length bytes, the
    payload and the trailer), drops whatever it gets, and goes on to the
    retransmission request. *)
Theorem sequence_mismatch_discard
        (retry crc_mode : Z) (md5 : bytes)
        (st : RecvSt) (s : Session) (w w1 : World) (seq1 seq2 : option Z) :
  crc_mode = 0 \/ crc_mode = 1 ->
  read_sequence w = (Some (seq1, seq2), w1) ->
  seq1 <> Some (r_sequence st) \/ seq2 <> Some (r_sequence st) ->
  recv_packet retry 8192 (is_stx_of 8192) crc_mode md5 st s w
  = recv_retrans (clear_errors st) s
      (mkWorld (tl (w_in w1)) (w_acc w1)
               (w_req w1 ++ [8192 + trailer_size crc_mode + 2])
               (w_out w1) (w_src w1) (w_sink w1)).
Proof.
  intros Hmode Hread Hne.
  rewrite (recv_mismatch_request _ _ _ _ _ _ _ _ _ _ _ Hread Hne).
  replace (2 + 8192 + 1 + crc_mode) with (8192 + trailer_size crc_mode + 2);
    [reflexivity |].
  destruct Hmode as [-> | ->]; reflexivity.
Qed.

Lemma sequence_mismatch_discard_witness :
  recv_packet 16 8192 (is_stx_of 8192) 1 md5_old (recv_init 16 (Some STX))
              (__init__ xmodem8k 0x1a)
              (world [Some [5]; Some [250]; Some [1; 2; 3]] [])
  = recv_retrans (clear_errors (recv_init 16 (Some STX))) (__init__ xmodem8k 0x1a)
      (mkWorld [] [] ([1; 1] ++ [8192 + trailer_size 1 + 2]) [] [] []).
Proof.
  apply (sequence_mismatch_discard 16 1 md5_old (recv_init 16 (Some STX))
           (__init__ xmodem8k 0x1a)
           (world [Some [5]; Some [250]; Some [1; 2; 3]] [])
           (mkWorld [Some [1; 2; 3]] [] [1; 1] [] [] [])
           (Some 5) (Some 5)).
  - right; reflexivity.
  - reflexivity.
  - left; discriminate.
Defined.

(** C7 as the specification words it does not hold: after the start byte and the two
    sequence bytes of a block out of sequence, the fourth read of the call
    asks for 8196 bytes, not for [packet_size + trailer_size + 1] = 8195. *)
Lemma sequence_mismatch_discard_counterexample :
  firstn 4 (w_req (world_of recv_wrong_sequence)) = [1; 1; 1; 8196]
  /\ nth 3 (w_req (world_of recv_wrong_sequence)) 0 <> 8192 + trailer_size 1 + 1.
Proof. vm_compute; split; [reflexivity | discriminate]. Qed.

(** ** Two CAN bytes *)

(** A CAN that finds the cancel flag of [send] up ends the call with
    [False], whatever the block and the state. *)
Lemma send_emit_second_can (fuel : nat) (retry : Z) (packet : bytes)
                           (st : SendSt) (s : Session) (w : World) :
  s_cancel st = true ->
  hd None (w_in w) = Some CAN ->
  send_emit (S fuel) retry packet st s w
  = Done (Returned PyFalse) s (snd (getc 1 (putc_ packet w))).
Proof.
  intros Hc Hin; cbn [send_emit]; cbv zeta.
  rewrite getc_eq, putc__eq; cbn [w_in snd].
  rewrite Hin, Hc; reflexivity.
Qed.

(** A CAN where [recv] waits for a start byte ends the call with [None]
    without another read: the loop looks at the same byte twice. *)
Lemma recv_wait_can (fuel : nat) (retry : Z) (st : RecvSt) (s : Session) (w : World) :
  r_char st = Some CAN ->
  recv_wait (S (S fuel)) retry st s w = Done (Returned PyNone) s w.
Proof.
  intros Hchar; cbn [recv_wait]; cbv zeta; rewrite Hchar.
  cbn [char_is r_char r_cancel].
  change (bytes_eqb CAN SOH) with false; change (bytes_eqb CAN STX) with false.
  change (bytes_eqb CAN EOT) with false; change (bytes_eqb CAN CAN) with true.
  cbn [orb]; destruct (r_cancel st); reflexivity.
Qed.

(** C2 (the code at the failing inputs). Two CAN bytes in answer to a
    block make [send] return [False], its value for a failure, although the
    same two bytes at the start sequence, and the [canceled] flag, make it
    return [None], its value for a canceled transfer.  Two CAN bytes where
    [recv] waits for a start byte make it return [None], its value for a
    failure (which it returns after the first of them already, the second
    is left unread, and a single CAN followed by an ACK does the same),
    although the [canceled] flag makes it return -1.  In none of these
    calls is anything written after the CAN bytes came. *)
Theorem two_can_returns_failure :
  (outcome_of send_two_can = Returned PyFalse
   /\ length (w_out (world_of send_two_can)) = 2%nat
   /\ w_in (world_of send_two_can) = [])
  /\ (outcome_of recv_two_can = Returned PyNone
      /\ w_out (world_of recv_two_can) = [CRC; ACK]
      /\ w_in (world_of recv_two_can) = [Some CAN])
  /\ (outcome_of recv_one_can = Returned PyNone
      /\ w_in (world_of recv_one_can) = [Some ACK])
  /\ outcome_of send_two_can_at_start = Returned PyNone
  /\ outcome_of send_flag_up = Returned PyNone
  /\ outcome_of recv_flag_up = Returned (PyInt (-1)).
Proof. vm_compute; repeat split; reflexivity. Qed.

(** * Further properties *)

(** ** The checksum and the CRC, chained and as error detectors *)

Lemma fold_add_acc (data : bytes) (acc : Z) :
  fold_left Z.add data acc = acc + fold_left Z.add data 0.
Proof.
  revert acc; induction data as [| b data IH]; intros acc; cbn [fold_left]; [lia |].
  rewrite (IH (acc + b)), (IH (0 + b)); lia.
Qed.

Lemma sum_app (a b : bytes) : sum (a ++ b) = sum a + sum b.
Proof. unfold sum; rewrite fold_left_app, fold_add_acc; reflexivity. Qed.

Lemma sum_cons (x : Z) (b : bytes) : sum (x :: b) = x + sum b.
Proof. unfold sum; cbn [fold_left]; rewrite fold_add_acc; lia. Qed.

(** X1. [calc_checksum] can be fed a buffer in pieces: the checksum of a
    first piece, passed as the [checksum] argument for the next, gives the
    checksum of the whole. *)
Theorem calc_checksum_chain (a b : bytes) (checksum : Z) :
  calc_checksum (a ++ b) checksum = calc_checksum b (calc_checksum a checksum).
Proof.
  unfold calc_checksum; rewrite sum_app.
  rewrite Z.add_mod_idemp_r by lia.
  f_equal; lia.
Qed.

(** The table step looks at the low 16 bits of the register only. *)
Lemma crc_update_mask (crc char : Z) :
  crc_update (Z.land crc 0xffff) char = crc_update crc char.
Proof.
  unfold crc_update.
  assert (Hidx : Z.land (Z.lxor (Z.shiftr (Z.land crc 0xffff) 8) char) 0xff
                 = Z.land (Z.lxor (Z.shiftr crc 8) char) 0xff).
  { apply Z.bits_inj'; intros n Hn.
    rewrite !Z.land_spec, !Z.lxor_spec, !Z.shiftr_spec, Z.land_spec by lia.
    rewrite testbit_0xff, testbit_0xffff by lia.
    destruct (Z.ltb_spec n 8) as [Hlt | Hge].
    - replace (n + 8 <? 16) with true by (symmetry; apply Z.ltb_lt; lia).
      rewrite !andb_true_r; reflexivity.
    - rewrite !andb_false_r; reflexivity. }
  rewrite Hidx.
  apply Z.bits_inj'; intros n Hn.
  rewrite !Z.land_spec, !Z.lxor_spec, !Z.shiftl_spec, Z.land_spec by lia.
  rewrite (testbit_0xffff n) by lia.
  destruct (Z.ltb_spec n 16) as [Hlt | Hge]; [| rewrite !andb_false_r; reflexivity].
  destruct (Z.ltb_spec n 8) as [Hlt8 | Hge8].
  - rewrite !(Z.testbit_neg_r _ (n - 8)) by lia; reflexivity.
  - rewrite (testbit_0xffff (n - 8)) by lia.
    replace (n - 8 <? 16) with true by (symmetry; apply Z.ltb_lt; lia).
    rewrite !andb_true_r; reflexivity.
Qed.

Lemma fold_crc_update_mask (data : bytes) (crc : Z) :
  Z.land (fold_left crc_update data (Z.land crc 0xffff)) 0xffff
  = Z.land (fold_left crc_update data crc) 0xffff.
Proof.
  destruct data as [| b data]; cbn [fold_left].
  - apply land_0xffff_small, land_0xffff_range.
  - rewrite crc_update_mask; reflexivity.
Qed.

(** X2. [calc_crc] can be fed a buffer in pieces: the CRC of a first piece,
    passed as the [crc] argument for the next, gives the CRC of the whole,
    for every starting value. *)
Theorem calc_crc_chain (a b : bytes) (crc : Z) :
  calc_crc (a ++ b) crc = calc_crc b (calc_crc a crc).
Proof.
  unfold calc_crc; rewrite fold_left_app.
  symmetry; apply fold_crc_update_mask.
Qed.

(** The checksum tells two bytes apart. *)
Lemma checksum_byte_differs (s x y : Z) :
  is_byte x -> is_byte y -> x <> y -> (s + x) mod 256 <> (s + y) mod 256.
Proof.
  unfold is_byte; intros Hx Hy Hne Heq.
  pose proof (Z.div_mod (s + x) 256 ltac:(lia)) as H1.
  pose proof (Z.div_mod (s + y) 256 ltac:(lia)) as H2.
  rewrite Heq in H1.
  lia.
Qed.

Lemma table_low_bytes_checked :
  forallb (fun i => forallb (table_low_bytes_differ i) byte_range) byte_range = true.
Proof. vm_compute; reflexivity. Qed.

Lemma table_low_byte_inj (i j : Z) :
  0 <= i < 256 -> 0 <= j < 256 ->
  Z.land (nth (Z.to_nat i) crctable 0) 0xff
  = Z.land (nth (Z.to_nat j) crctable 0) 0xff ->
  i = j.
Proof.
  intros Hi Hj Heq.
  pose proof table_low_bytes_checked as H.
  rewrite forallb_forall in H; specialize (H i (byte_range_In i Hi)).
  rewrite forallb_forall in H; specialize (H j (byte_range_In j Hj)).
  unfold table_low_bytes_differ in H.
  destruct (Z.eqb_spec i j) as [| Hne]; [assumption |].
  rewrite Heq, Z.eqb_refl in H; discriminate H.
Qed.

(** What one table step makes of a register, by its two bytes. *)
Lemma crc_update_bytes (crc char : Z) :
  crc_update crc char
  = Z.lxor (Z.shiftl (Z.land crc 0xff) 8)
           (nth (Z.to_nat (Z.land (Z.lxor (Z.shiftr crc 8) char) 0xff)) crctable 0).
Proof.
  unfold crc_update; apply shift_mask.
  apply (table_step _ 0); [apply land_0xff_range | lia].
Qed.

Lemma low_byte_of_step (lo t : Z) :
  Z.land (Z.lxor (Z.shiftl lo 8) t) 0xff = Z.land t 0xff.
Proof.
  apply Z.bits_inj'; intros n Hn.
  rewrite !Z.land_spec, Z.lxor_spec, Z.shiftl_spec, testbit_0xff by lia.
  destruct (Z.ltb_spec n 8); [| rewrite !andb_false_r; reflexivity].
  rewrite Z.testbit_neg_r by lia; reflexivity.
Qed.

Lemma lxor_cancel_r (a b t : Z) : Z.lxor a t = Z.lxor b t -> a = b.
Proof.
  intros H.
  assert (Ha : a = Z.lxor (Z.lxor a t) t)
    by (rewrite Z.lxor_assoc, Z.lxor_nilpotent, Z.lxor_0_r; reflexivity).
  rewrite Ha, H, Z.lxor_assoc, Z.lxor_nilpotent, Z.lxor_0_r; reflexivity.
Qed.

Lemma land_lxor_cancel (a b c m : Z) :
  Z.land (Z.lxor a c) m = Z.land (Z.lxor b c) m -> Z.land a m = Z.land b m.
Proof.
  intros H; apply Z.bits_inj'; intros n _.
  apply (f_equal (fun z => Z.testbit z n)) in H.
  rewrite !Z.land_spec, !Z.lxor_spec in H; rewrite !Z.land_spec.
  destruct (Z.testbit a n), (Z.testbit b n), (Z.testbit c n), (Z.testbit m n);
    cbn in *; congruence.
Qed.

Lemma land_lxor_cancel_l (a c d m : Z) :
  Z.land (Z.lxor a c) m = Z.land (Z.lxor a d) m -> Z.land c m = Z.land d m.
Proof.
  rewrite (Z.lxor_comm a c), (Z.lxor_comm a d); apply land_lxor_cancel.
Qed.

(** Two steps that agree in their table index agree in the table entry. *)
Lemma crc_update_index (c1 ch1 c2 ch2 : Z) :
  crc_update c1 ch1 = crc_update c2 ch2 ->
  Z.land (Z.lxor (Z.shiftr c1 8) ch1) 0xff = Z.land (Z.lxor (Z.shiftr c2 8) ch2) 0xff
  /\ Z.shiftl (Z.land c1 0xff) 8 = Z.shiftl (Z.land c2 0xff) 8.
Proof.
  rewrite !crc_update_bytes; intros H.
  assert (Hidx : Z.land (Z.lxor (Z.shiftr c1 8) ch1) 0xff
                 = Z.land (Z.lxor (Z.shiftr c2 8) ch2) 0xff).
  { apply table_low_byte_inj; try apply land_0xff_range.
    apply (f_equal (fun z => Z.land z 0xff)) in H.
    rewrite !low_byte_of_step in H; exact H. }
  split; [exact Hidx |].
  rewrite Hidx in H; eapply lxor_cancel_r; exact H.
Qed.

(** For one register, different bytes give different registers. *)
Lemma crc_update_inj_char (crc x y : Z) :
  is_byte x -> is_byte y -> crc_update crc x = crc_update crc y -> x = y.
Proof.
  intros Hx Hy H; apply crc_update_index in H; destruct H as [H _].
  apply land_lxor_cancel_l in H.
  rewrite !land_0xff_small in H by assumption; exact H.
Qed.

(** For one byte, different 16-bit registers give different registers. *)
Lemma crc_update_inj_crc (c1 c2 char : Z) :
  0 <= c1 < 65536 -> 0 <= c2 < 65536 ->
  crc_update c1 char = crc_update c2 char -> c1 = c2.
Proof.
  intros H1 H2 H; apply crc_update_index in H; destruct H as [Hhi Hlo].
  apply land_lxor_cancel in Hhi.
  assert (Hb : forall c, 0 <= c < 65536 -> 0 <= Z.shiftr c 8 < 256).
  { intros c Hc; rewrite Z.shiftr_div_pow2 by lia; change (2 ^ 8) with 256.
    split; [apply Z.div_pos; lia | apply Z.div_lt_upper_bound; lia]. }
  rewrite !land_0xff_small in Hhi by (apply Hb; assumption).
  rewrite !Z.shiftl_mul_pow2 in Hlo by lia.
  assert (Hlo' : Z.land c1 0xff = Z.land c2 0xff) by lia.
  rewrite <- (len_bytes_join c1), <- (len_bytes_join c2) by lia.
  rewrite Hhi, Hlo'; reflexivity.
Qed.

Lemma fold_crc_update_range (data : bytes) (crc : Z) :
  0 <= crc < 65536 -> 0 <= fold_left crc_update data crc < 65536.
Proof.
  revert crc; induction data as [| b data IH]; intros crc Hc; cbn [fold_left];
    [assumption | apply IH, crc_update_range].
Qed.

Lemma fold_crc_update_inj (data : bytes) (c1 c2 : Z) :
  0 <= c1 < 65536 -> 0 <= c2 < 65536 ->
  fold_left crc_update data c1 = fold_left crc_update data c2 -> c1 = c2.
Proof.
  revert c1 c2; induction data as [| b data IH]; intros c1 c2 H1 H2;
    cbn [fold_left]; [auto |].
  intros H; apply IH in H; try apply crc_update_range.
  eapply crc_update_inj_crc; eassumption.
Qed.

Lemma checksum_single_byte (a b : bytes) (x y seed : Z) :
  is_byte x -> is_byte y -> x <> y ->
  calc_checksum (a ++ x :: b) seed <> calc_checksum (a ++ y :: b) seed.
Proof.
  intros Hx Hy Hne.
  unfold calc_checksum; rewrite !sum_app, !sum_cons.
  replace (sum a + (x + sum b) + seed) with (sum a + sum b + seed + x) by lia.
  replace (sum a + (y + sum b) + seed) with (sum a + sum b + seed + y) by lia.
  apply checksum_byte_differs; assumption.
Qed.

Lemma crc_single_byte (a b : bytes) (x y seed : Z) :
  is_byte x -> is_byte y -> x <> y ->
  0 <= seed < 65536 ->
  calc_crc (a ++ x :: b) seed <> calc_crc (a ++ y :: b) seed.
Proof.
  intros Hx Hy Hne Hseed.
  unfold calc_crc; rewrite !fold_left_app; cbn [fold_left].
  pose proof (fold_crc_update_range a seed Hseed) as Ha.
  rewrite !land_0xffff_small by apply fold_crc_update_range, crc_update_range.
  intros H; apply fold_crc_update_inj in H; try apply crc_update_range.
  apply Hne; eapply crc_update_inj_char; eassumption.
Qed.

(** X3. Both integrity functions detect every change of a single byte:
    two buffers that differ in exactly one position have different
    checksums and different CRCs (for a 16-bit starting value). *)
Theorem single_byte_change_detected (a b : bytes) (x y seed : Z) :
  is_byte x -> is_byte y -> x <> y ->
  0 <= seed < 65536 ->
  calc_checksum (a ++ x :: b) seed <> calc_checksum (a ++ y :: b) seed
  /\ calc_crc (a ++ x :: b) seed <> calc_crc (a ++ y :: b) seed.
Proof.
  intros Hx Hy Hne Hseed; split.
  - apply checksum_single_byte; assumption.
  - apply crc_single_byte; assumption.
Qed.

Lemma single_byte_change_detected_witness :
  calc_checksum ([104; 101] ++ 108 :: [108; 111]) 0
  <> calc_checksum ([104; 101] ++ 109 :: [108; 111]) 0
  /\ calc_crc ([104; 101] ++ 108 :: [108; 111]) 0
     <> calc_crc ([104; 101] ++ 109 :: [108; 111]) 0.
Proof.
  apply single_byte_change_detected; unfold is_byte; lia.
Defined.

(** X4. A block in which one byte before the trailer was changed on the way
    does not verify, in either integrity mode: [_verify_recv_checksum]
    answers not valid and hands back the changed block. *)
Theorem corrupted_block_not_valid (crc_mode : Z) (a b : bytes) (x y : Z) :
  is_byte x -> is_byte y -> x <> y ->
  _verify_recv_checksum crc_mode
    ((a ++ y :: b) ++ _make_send_checksum crc_mode (a ++ x :: b))
  = Some (false, a ++ y :: b).
Proof.
  intros Hx Hy Hne.
  pose proof (checksum_single_byte a b x y 0 Hx Hy Hne) as Hsum.
  pose proof (crc_single_byte a b x y 0 Hx Hy Hne ltac:(lia)) as Hcrc.
  unfold _verify_recv_checksum, _make_send_checksum.
  destruct (crc_mode =? 0).
  - change 1%nat with (length [calc_checksum (a ++ x :: b) 0]).
    rewrite last_n_app, drop_last_n_app.
    destruct (Z.eqb_spec (calc_checksum (a ++ x :: b) 0) (calc_checksum (a ++ y :: b) 0));
      [contradiction | reflexivity].
  - set (crc := calc_crc (a ++ x :: b) 0).
    change 2%nat with (length [Z.shiftr crc 8; Z.land crc 0xff]).
    rewrite last_n_app, drop_last_n_app.
    rewrite crc_bytes_join by apply calc_crc_range.
    destruct (Z.eqb_spec crc (calc_crc (a ++ y :: b) 0)); [contradiction | reflexivity].
Qed.

Lemma corrupted_block_not_valid_witness :
  _verify_recv_checksum 1
    (([104; 101] ++ 109 :: [108; 111])
       ++ _make_send_checksum 1 ([104; 101] ++ 108 :: [108; 111]))
  = Some (false, [104; 101] ++ 109 :: [108; 111]).
Proof.
  apply corrupted_block_not_valid; unfold is_byte; lia.
Defined.

(** ** The packet on the wire, and blocks that are too short or lie about
       their length *)

Lemma len_app (a b : bytes) : len (a ++ b) = len a + len b.
Proof. unfold len; rewrite length_app; lia. Qed.

Lemma len_repeat (x : Z) (n : nat) : len (repeat x n) = Z.of_nat n.
Proof. unfold len; rewrite repeat_length; reflexivity. Qed.

Lemma len_ljust (data : bytes) (packet_size pad : Z) :
  len data <= packet_size -> len (ljust data packet_size pad) = packet_size.
Proof. intros H; unfold ljust; rewrite len_app, len_repeat; lia. Qed.

Lemma ljust_bytes (data : bytes) (packet_size pad : Z) :
  Forall is_byte data -> is_byte pad -> Forall is_byte (ljust data packet_size pad).
Proof.
  intros Hd Hp; unfold ljust; apply Forall_app; split; [assumption |].
  apply Forall_forall; intros x Hx; apply repeat_spec in Hx; subst; assumption.
Qed.

Lemma make_send_checksum_bytes (crc_mode : Z) (data : bytes) :
  Forall is_byte (_make_send_checksum crc_mode data)
  /\ len (_make_send_checksum crc_mode data) = trailer_size crc_mode.
Proof.
  unfold _make_send_checksum, trailer_size, is_byte.
  destruct (crc_mode =? 0); split; try reflexivity.
  - repeat constructor; apply calc_checksum_range.
  - pose proof (calc_crc_range data 0) as Hr.
    repeat constructor; try apply land_0xff_range.
    + rewrite Z.shiftr_div_pow2 by lia; apply Z.div_pos; lia.
    + rewrite Z.shiftr_div_pow2 by lia; change (2 ^ 8) with 256.
      apply Z.div_lt_upper_bound; lia.
Qed.

Lemma to_bytes_Some (l l' : list Z) :
  to_bytes l = Some l' -> l' = l /\ Forall is_byte l.
Proof.
  unfold to_bytes; destruct (forallb _ l) eqn:H; [| discriminate].
  intros E; inversion E; subst; split; [reflexivity |].
  rewrite forallb_forall in H; apply Forall_forall; intros x Hx.
  specialize (H x Hx); apply andb_prop in H; destruct H as [H1 H2].
  apply Z.leb_le in H1; apply Z.ltb_lt in H2; split; assumption.
Qed.

(** X5. Every packet [send] builds for a block that fits is made of bytes
    and has the one length the receiver reads: three header bytes, the
    length prefix (one byte, two in 8k mode), [packet_size] bytes of
    payload and the trailer. *)
Theorem send_packet_wire_format
        (packet_size sequence pad crc_mode : Z) (data : bytes) :
  packet_size = 128 \/ packet_size = 8192 ->
  0 <= sequence <= 255 ->
  is_byte pad ->
  Forall is_byte data ->
  len data <= packet_size ->
  exists packet,
    send_packet packet_size sequence pad crc_mode data = Some packet
    /\ Forall is_byte packet
    /\ len packet
       = 3 + (1 + is_stx_of packet_size) + packet_size + trailer_size crc_mode.
Proof.
  intros Hps Hseq Hpad Hdata Hlen.
  destruct (send_body_content packet_size pad data Hps Hlen) as (body & Hbody & _ & Hblen).
  assert (Hbb : Forall is_byte body).
  { unfold send_body in Hbody.
    destruct (is_stx_of packet_size =? 0);
      match type of Hbody with
      | match to_bytes ?l with _ => _ end = _ =>
          destruct (to_bytes l) as [p |] eqn:Hp; [| discriminate Hbody];
          apply to_bytes_Some in Hp; destruct Hp as [-> Hp];
          injection Hbody as Hb; rewrite <- Hb;
          apply (proj2 (Forall_app is_byte l (ljust data packet_size pad)));
          split; [exact Hp | apply ljust_bytes; assumption]
      end. }
  destruct (make_send_checksum_bytes crc_mode body) as [Htb Htl].
  unfold send_packet; rewrite Hbody.
  assert (Hhb : forall start, is_byte start ->
                  Forall is_byte [start; sequence; 0xff - sequence]).
  { unfold is_byte; intros start Hs; repeat constructor; lia. }
  rewrite make_send_header_byte by exact Hseq.
  destruct Hps as [-> | ->]; simpl Z.eqb; cbv iota;
    (eexists; split; [reflexivity |]; split;
     [ apply Forall_app; split;
       [ apply Hhb; unfold is_byte; lia | apply Forall_app; split; assumption ]
     | rewrite !len_app, Hblen, Htl; unfold len; cbn [length]; lia ]).
Qed.

Lemma send_packet_wire_format_witness :
  exists packet,
    send_packet 8192 255 0x1a 1 [1; 2; 3] = Some packet
    /\ Forall is_byte packet
    /\ len packet = 3 + (1 + is_stx_of 8192) + 8192 + trailer_size 1.
Proof.
  apply send_packet_wire_format.
  - right; reflexivity.
  - lia.
  - unfold is_byte; lia.
  - repeat constructor; unfold is_byte; lia.
  - unfold len; simpl; lia.
Defined.

(** The header fails on a block size it does not know and on a sequence
    number that does not fit a byte. *)
Lemma make_send_header_None (packet_size sequence : Z) :
  _make_send_header packet_size sequence = None
  <-> (packet_size <> 128 /\ packet_size <> 8192) \/ sequence < 0 \/ 255 < sequence.
Proof.
  destruct (Z_le_dec 0 sequence) as [H0 |];
    [destruct (Z_le_dec sequence 255) as [H255 |] |].
  - rewrite make_send_header_byte by lia.
    destruct (Z.eqb_spec packet_size 128); [split; [discriminate | lia] |].
    destruct (Z.eqb_spec packet_size 8192); [split; [discriminate | lia] |].
    split; [intros _; left; split; assumption | reflexivity].
  - split; [intros _; right; lia |]; intros _.
    unfold _make_send_header, to_bytes; cbn [forallb].
    replace (sequence <? 256) with false by (symmetry; apply Z.ltb_ge; lia).
    rewrite !andb_false_r; cbn [andb].
    destruct (packet_size =? 128), (packet_size =? 8192); reflexivity.
  - split; [intros _; right; lia |]; intros _.
    unfold _make_send_header, to_bytes; cbn [forallb].
    replace (0 <=? sequence) with false by (symmetry; apply Z.leb_gt; lia).
    cbn [andb].
    destruct (packet_size =? 128), (packet_size =? 8192); reflexivity.
Qed.

(** X6. [send] can build no packet (the Python code raises) exactly when
    the block size is not one of the two the header knows, or the sequence
    number does not fit a byte (the [bytearray] of the header refuses it),
    or when in 8k mode the data is 65536 bytes or longer, so that the high
    length byte does not fit a byte. *)
Theorem send_packet_raises_iff
        (packet_size sequence pad crc_mode : Z) (data : bytes) :
  send_packet packet_size sequence pad crc_mode data = None
  <-> (packet_size <> 128 /\ packet_size <> 8192)
      \/ (sequence < 0 \/ 255 < sequence)
      \/ (packet_size = 8192 /\ 65536 <= len data).
Proof.
  assert (Hl0 : 0 <= len data) by (unfold len; lia).
  pose proof (land_0xff_range (len data)) as Hlo.
  pose proof (make_send_header_None packet_size sequence) as Hhead.
  unfold send_packet.
  destruct (_make_send_header packet_size sequence) as [header |].
  2: { split; [intros _ | reflexivity].
       destruct (proj1 Hhead eq_refl) as [H | H]; [left; exact H | right; left; exact H]. }
  assert (Hps : packet_size = 128 \/ packet_size = 8192).
  { destruct (Z.eq_dec packet_size 128); [auto |].
    destruct (Z.eq_dec packet_size 8192); [auto |].
    exfalso; assert (Some header = None); [apply Hhead; left; split; assumption | discriminate]. }
  assert (Hseq : 0 <= sequence <= 255).
  { destruct (Z_lt_dec sequence 0) as [Hlt |]; [| destruct (Z_lt_dec 255 sequence) as [Hgt |]];
      [| | lia];
      exfalso; assert (Some header = None) by (apply Hhead; right; lia); discriminate. }
  clear Hhead.
  destruct Hps as [-> | ->].
  { change (is_stx_of 128) with 0; unfold send_body, to_bytes; simpl Z.eqb;
      cbv iota; cbn [forallb].
    replace (0 <=? Z.land (len data) 255) with true by (symmetry; apply Z.leb_le; lia).
    replace (Z.land (len data) 255 <? 256) with true by (symmetry; apply Z.ltb_lt; lia).
    cbn [andb]; split; [discriminate |].
    intros [[H _] | [H | [H _]]]; [congruence | lia | discriminate]. }
  change (is_stx_of 8192) with 1; unfold send_body, to_bytes; simpl Z.eqb;
    cbv iota; cbn [forallb].
  replace (0 <=? Z.land (len data) 255) with true by (symmetry; apply Z.leb_le; lia).
  replace (Z.land (len data) 255 <? 256) with true by (symmetry; apply Z.ltb_lt; lia).
  assert (Hhi0 : 0 <= Z.shiftr (len data) 8)
    by (rewrite Z.shiftr_div_pow2 by lia; apply Z.div_pos; lia).
  replace (0 <=? Z.shiftr (len data) 8) with true by (symmetry; apply Z.leb_le; lia).
  cbn [andb]; rewrite andb_true_r.
  assert (Hhi : Z.shiftr (len data) 8 < 256 <-> len data < 65536).
  { rewrite Z.shiftr_div_pow2 by lia; change (2 ^ 8) with 256.
    split; intros H.
    - pose proof (Z.div_mod (len data) 256 ltac:(lia)).
      pose proof (Z.mod_pos_bound (len data) 256 ltac:(lia)). lia.
    - apply Z.div_lt_upper_bound; lia. }
  destruct (Z.ltb_spec (Z.shiftr (len data) 8) 256) as [Hlt | Hge].
  - split; [discriminate |].
    intros [[_ H] | [H | [_ H]]]; [congruence | lia | lia].
  - split; [intros _; right; right; split; [reflexivity | lia] | reflexivity].
Qed.

(** X7. [_verify_recv_checksum] fails (the Python code raises IndexError)
    exactly on a block shorter than the trailer; on any other block it
    hands back the block without its last [trailer_size] bytes. *)
Theorem verify_short_block (crc_mode : Z) (data : bytes) :
  (_verify_recv_checksum crc_mode data = None <-> len data < trailer_size crc_mode)
  /\ forall valid data',
       _verify_recv_checksum crc_mode data = Some (valid, data') ->
       exists trailer,
         data = data' ++ trailer
         /\ len trailer = trailer_size crc_mode
         /\ len data' = len data - trailer_size crc_mode.
Proof.
  unfold _verify_recv_checksum, trailer_size, len.
  destruct (crc_mode =? 0).
  - pose proof (length_last_n 1 data) as Hl.
    pose proof (last_n_drop_last_n 1 data) as Hj.
    pose proof (length_drop_last_n 1 data) as Hd.
    destruct (last_n 1 data) as [| t [| ? ?]]; cbn [length] in Hl.
    + split; [split; [lia | reflexivity] | discriminate].
    + split; [split; [discriminate | lia] |].
      intros valid data' H; inversion H; subst.
      exists [t]; split; [symmetry; exact Hj | cbn [length]; lia].
    + lia.
  - pose proof (length_last_n 2 data) as Hl.
    pose proof (last_n_drop_last_n 2 data) as Hj.
    pose proof (length_drop_last_n 2 data) as Hd.
    destruct (last_n 2 data) as [| c0 [| c1 [| ? ?]]]; cbn [length] in Hl.
    + split; [split; [lia | reflexivity] | discriminate].
    + split; [split; [lia | reflexivity] | discriminate].
    + split; [split; [discriminate | lia] |].
      intros valid data' H; inversion H; subst.
      exists [c0; c1]; split; [symmetry; exact Hj | cbn [length]; lia].
    + lia.
Qed.

Lemma verify_short_block_witness :
  exists trailer,
    [1; 2; 3; 4] = [1; 2] ++ trailer
    /\ len trailer = trailer_size 1
    /\ len [1; 2] = len [1; 2; 3; 4] - trailer_size 1.
Proof.
  apply (proj2 (verify_short_block 1 [1; 2; 3; 4]) false [1; 2]).
  vm_compute; reflexivity.
Defined.

(** X8. The declared length of a block cannot make [recv] write more than
    it received: what [recv] hands to the stream is the first
    [data_len] bytes of the payload, all of the payload when [data_len] is
    larger, and there is nothing to hand over (IndexError) only when the
    block is shorter than its length prefix. *)
Theorem block_content_clamped (is_stx : Z) (data : bytes) :
  is_stx = 0 \/ is_stx = 1 ->
  (block_content is_stx data = None <-> len data < 1 + is_stx)
  /\ forall content,
       block_content is_stx data = Some content ->
       exists data_len rest,
         data_len_of is_stx data = Some data_len
         /\ skipn (Z.to_nat (1 + is_stx)) data = content ++ rest
         /\ len content = Z.max 0 (Z.min data_len (len data - (1 + is_stx))).
Proof.
  intros His.
  assert (Hslice : forall n a, 0 <= a ->
            exists rest,
              skipn (Z.to_nat a) data = slice data a (n + a) ++ rest
              /\ len (slice data a (n + a)) = Z.max 0 (Z.min n (len data - a))).
  { intros n a Ha; unfold slice.
    replace (n + a - a) with n by lia.
    exists (skipn (Z.to_nat n) (skipn (Z.to_nat a) data)).
    split; [symmetry; apply firstn_skipn |].
    unfold len; rewrite length_firstn, length_skipn; lia. }
  unfold block_content, data_len_of, len.
  destruct His as [-> | ->]; simpl Z.eqb; cbv iota.
  - destruct data as [| d0 data']; cbn [length].
    + split; [split; [lia | reflexivity] | discriminate].
    + split; [split; [discriminate | lia] |].
      intros content H.
      assert (Hc : content = slice (d0 :: data') (1 + 0) (d0 + 1 + 0)) by congruence.
      clear H; subst content.
      destruct (Hslice d0 (1 + 0) ltac:(lia)) as (rest & Hr & Hl).
      exists d0, rest; split; [reflexivity |].
      replace (d0 + 1 + 0) with (d0 + (1 + 0)) by lia.
      split; [exact Hr | exact Hl].
  - destruct data as [| d0 [| d1 data']]; cbn [length].
    + split; [split; [lia | reflexivity] | discriminate].
    + split; [split; [lia | reflexivity] | discriminate].
    + split; [split; [discriminate | lia] |].
      intros content H.
      assert (Hc : content = slice (d0 :: d1 :: data') (1 + 1)
                                   (Z.lor (Z.shiftl d0 8) d1 + 1 + 1)) by congruence.
      clear H; subst content.
      destruct (Hslice (Z.lor (Z.shiftl d0 8) d1) (1 + 1) ltac:(lia)) as (rest & Hr & Hl).
      exists (Z.lor (Z.shiftl d0 8) d1), rest; split; [reflexivity |].
      replace (Z.lor (Z.shiftl d0 8) d1 + 1 + 1)
        with (Z.lor (Z.shiftl d0 8) d1 + (1 + 1)) by lia.
      split; [exact Hr | exact Hl].
Qed.

Lemma block_content_clamped_witness :
  exists data_len rest,
    data_len_of 0 [200; 7; 8; 9] = Some data_len
    /\ skipn (Z.to_nat (1 + 0)) [200; 7; 8; 9] = [7; 8; 9] ++ rest
    /\ len [7; 8; 9] = Z.max 0 (Z.min data_len (len [200; 7; 8; 9] - (1 + 0))).
Proof.
  apply (proj2 (block_content_clamped 0 [200; 7; 8; 9] (or_introl eq_refl))
               [7; 8; 9]).
  reflexivity.
Defined.

(** ** The start sequences *)

Lemma send_start_exhausts (n : nat) :
  forall (fuel : nat) (retry error_count : Z) (cancel : bool)
         (s : Session) (w : World),
    retry - error_count = Z.of_nat n ->
    (n < fuel)%nat ->
    Forall (fun r => start_junk r = true) (answers (S n) w) ->
    send_start fuel retry error_count cancel s w
    = Done (Returned PyFalse) s
           (mkWorld (skipn (S n) (w_in w)) (skipn 2 (w_acc w))
                    (w_req w ++ repeat 1 (S n)) (w_out w ++ [CAN; CAN])
                    (w_src w) (w_sink w)).
Proof.
  induction n as [| n IH]; intros fuel retry error_count cancel s w Hn Hfuel Hjunk;
    (destruct fuel as [| fuel]; [lia |]);
    cbn [send_start]; cbv zeta; rewrite getc_eq;
    unfold answers in Hjunk; cbn [next_answers] in Hjunk;
    inversion Hjunk as [| r rs Hr Hrs]; subst; unfold start_junk in Hr;
    assert (Hcase :
      (if truthy (hd None (w_in w))
       then if char_is (hd None (w_in w)) NAK then true
            else if char_is (hd None (w_in w)) CRC then true
            else if char_is (hd None (w_in w)) CAN then true
            else if char_is (hd None (w_in w)) EOT then true else false
       else false) = false)
      by (destruct (truthy (hd None (w_in w))), (char_is (hd None (w_in w)) NAK),
            (char_is (hd None (w_in w)) CRC), (char_is (hd None (w_in w)) CAN),
            (char_is (hd None (w_in w)) EOT); cbn in Hr |- *; congruence);
    destruct (truthy (hd None (w_in w)));
    try (destruct (char_is (hd None (w_in w)) NAK); [discriminate Hcase |];
         destruct (char_is (hd None (w_in w)) CRC); [discriminate Hcase |];
         destruct (char_is (hd None (w_in w)) CAN); [discriminate Hcase |];
         destruct (char_is (hd None (w_in w)) EOT); [discriminate Hcase |]).
  all: try (replace (retry <? error_count + 1) with true
              by (symmetry; apply Z.ltb_lt; lia);
            rewrite abort_eq; cbn [w_in w_acc w_req w_out w_src w_sink repeat];
            rewrite <- (skipn_tl 0 (w_in w));
            destruct (w_acc w) as [| ? [| ? ?]]; reflexivity).
  all: replace (retry <? error_count + 1) with false
         by (symmetry; apply Z.ltb_ge; lia);
       rewrite IH; cbn [w_in w_acc w_req w_out w_src w_sink]; try assumption; try lia;
       rewrite skipn_tl, <- app_assoc; reflexivity.
Qed.

(** X9. A [send] whose peer does not ask for a transfer: when each of the
    first [retry + 1] reads brings a timeout or a byte other than NAK, C,
    CAN and EOT, [send] gives up after exactly these [retry + 1] reads,
    writes the two CAN bytes of the abort and nothing else, leaves the
    source stream unread, and returns [False]. *)
Theorem send_gives_up_without_receiver
        (fuel : nat) (s : Session) (md5 : bytes) (retry : Z) (w : World) :
  mode s <> mode_other ->
  0 <= retry ->
  (Z.to_nat retry < fuel)%nat ->
  Forall (fun r => start_junk r = true) (answers (S (Z.to_nat retry)) w) ->
  send fuel s md5 retry w
  = (Returned PyFalse, s,
     mkWorld (skipn (S (Z.to_nat retry)) (w_in w)) (skipn 2 (w_acc w))
             (w_req w ++ repeat 1 (S (Z.to_nat retry))) (w_out w ++ [CAN; CAN])
             (w_src w) (w_sink w)).
Proof.
  intros Hmode Hretry Hfuel Hjunk; unfold send.
  destruct (packet_size_of (mode s)) eqn:Hps;
    [| destruct (mode s); try discriminate Hps; congruence].
  rewrite (send_start_exhausts (Z.to_nat retry)); try assumption; [reflexivity | lia].
Qed.

Lemma send_gives_up_without_receiver_witness :
  send 5 (__init__ xmodem 0x1a) md5_new 2
       (world [None; Some ACK; Some []; Some NAK] source300)
  = (Returned PyFalse, __init__ xmodem 0x1a,
     mkWorld (skipn 3 [None; Some ACK; Some []; Some NAK]) (skipn 2 [])
             ([] ++ repeat 1 3) ([] ++ [CAN; CAN]) source300 []).
Proof.
  apply (send_gives_up_without_receiver 5 (__init__ xmodem 0x1a) md5_new 2
           (world [None; Some ACK; Some []; Some NAK] source300)).
  - discriminate.
  - lia.
  - simpl; lia.
  - repeat constructor.
Defined.

(** The start loop of [recv] on a transport that takes every write and
    never answers, once it writes NAK. *)
Lemma recv_start_silent_nak (n : nat) :
  forall (fuel : nat) (retry crc_mode error_count : Z) (cancel : bool)
         (s : Session) (w : World),
    retry - error_count = Z.of_nat n ->
    (n < fuel)%nat ->
    crc_mode = 0 \/ retry / 2 <= error_count ->
    w_acc w = [] ->
    Forall (fun r => r = None) (answers n w) ->
    recv_start fuel retry crc_mode error_count cancel s w
    = Done (Returned PyNone) s
           (mkWorld (skipn n (w_in w)) [] (w_req w ++ repeat 1 n)
                    (w_out w ++ repeat NAK n ++ [CAN; CAN]) (w_src w) (w_sink w)).
Proof.
  induction n as [| n IH];
    intros fuel retry crc_mode error_count cancel s w Hn Hfuel Hphase Hacc Hnone;
    (destruct fuel as [| fuel]; [lia |]); cbn [recv_start].
  - replace (retry <=? error_count) with true by (symmetry; apply Z.leb_le; lia).
    rewrite abort_eq, Hacc; cbn [repeat skipn tl app].
    rewrite app_nil_r; reflexivity.
  - replace (retry <=? error_count) with false by (symmetry; apply Z.leb_gt; lia).
    replace (negb (crc_mode =? 0) && (error_count <? retry / 2)) with false.
    2:{ symmetry; destruct Hphase as [-> | Hge]; [reflexivity |].
        rewrite andb_false_iff; right; apply Z.ltb_ge; exact Hge. }
    unfold putc; rewrite Hacc; cbv beta iota.
    rewrite getc_eq; cbn [w_in w_acc w_req w_out w_src w_sink].
    unfold answers in Hnone; cbn [next_answers] in Hnone.
    inversion Hnone as [| r rs Hr Hrs]; subst; rewrite Hr.
    rewrite IH; cbn [w_in w_acc w_req w_out w_src w_sink];
      try assumption; try reflexivity; try lia.
    rewrite skipn_tl, <- !app_assoc; reflexivity.
Qed.

Lemma recv_start_silent_crc (m : nat) :
  forall (fuel : nat) (retry crc_mode error_count : Z) (cancel : bool)
         (s : Session) (w : World),
    retry / 2 - error_count = Z.of_nat m ->
    0 <= retry ->
    (Z.to_nat (retry - error_count) < fuel)%nat ->
    crc_mode <> 0 ->
    w_acc w = [] ->
    Forall (fun r => r = None) (answers (Z.to_nat (retry - error_count)) w) ->
    recv_start fuel retry crc_mode error_count cancel s w
    = Done (Returned PyNone) s
           (mkWorld (skipn (Z.to_nat (retry - error_count)) (w_in w)) []
                    (w_req w ++ repeat 1 (Z.to_nat (retry - error_count)))
                    (w_out w ++ repeat CRC m
                       ++ repeat NAK (Z.to_nat (retry - error_count) - m)
                       ++ [CAN; CAN])
                    (w_src w) (w_sink w)).
Proof.
  induction m as [| m IH];
    intros fuel retry crc_mode error_count cancel s w Hm Hretry Hfuel Hcrc Hacc Hnone;
    assert (Hhalf : retry / 2 <= retry) by (apply Z.div_le_upper_bound; lia).
  - rewrite (recv_start_silent_nak (Z.to_nat (retry - error_count)));
      try assumption; try lia.
    rewrite Nat.sub_0_r; reflexivity.
  - destruct fuel as [| fuel]; [lia |]; cbn [recv_start].
    replace (retry <=? error_count) with false by (symmetry; apply Z.leb_gt; lia).
    replace (negb (crc_mode =? 0) && (error_count <? retry / 2)) with true.
    2:{ symmetry; apply andb_true_intro; split;
        [apply negb_true_iff, Z.eqb_neq; exact Hcrc | apply Z.ltb_lt; lia]. }
    unfold putc; rewrite Hacc; cbv beta iota.
    rewrite getc_eq; cbn [w_in w_acc w_req w_out w_src w_sink].
    assert (Hk : Z.to_nat (retry - error_count)
                 = S (Z.to_nat (retry - (error_count + 1)))) by lia.
    rewrite Hk in Hnone |- *.
    unfold answers in Hnone; cbn [next_answers] in Hnone.
    inversion Hnone as [| r rs Hr Hrs]; subst; rewrite Hr.
    rewrite IH; cbn [w_in w_acc w_req w_out w_src w_sink];
      try assumption; try reflexivity; try lia.
    rewrite skipn_tl, <- !app_assoc; cbn [repeat app Nat.sub]; reflexivity.
Qed.

(** X10. A [recv] that hears nothing: on a transport that takes every write
    and answers none of the first [retry] reads, [recv] asked for CRC mode
    writes C for the first half of its budget ([retry // 2] times), falls
    back to NAK for the rest, then writes the two CAN bytes of the abort
    and returns [None], with the session and the sink as they were. *)
Theorem recv_crc_then_nak_fallback
        (fuel : nat) (s : Session) (md5 : bytes) (crc_mode retry : Z) (w : World) :
  crc_mode <> 0 ->
  0 <= retry ->
  (Z.to_nat retry < fuel)%nat ->
  w_acc w = [] ->
  Forall (fun r => r = None) (answers (Z.to_nat retry) w) ->
  recv fuel s md5 crc_mode retry w
  = (Returned PyNone, s,
     mkWorld (skipn (Z.to_nat retry) (w_in w)) []
             (w_req w ++ repeat 1 (Z.to_nat retry))
             (w_out w ++ repeat CRC (Z.to_nat (retry / 2))
                ++ repeat NAK (Z.to_nat (retry - retry / 2)) ++ [CAN; CAN])
             (w_src w) (w_sink w)).
Proof.
  intros Hcrc Hretry Hfuel Hacc Hnone; unfold recv.
  assert (Hhalf : 0 <= retry / 2 <= retry)
    by (split; [apply Z.div_pos; lia | apply Z.div_le_upper_bound; lia]).
  rewrite (recv_start_silent_crc (Z.to_nat (retry / 2)));
    rewrite ?Z.sub_0_r; try assumption; try lia.
  replace (Z.to_nat retry - Z.to_nat (retry / 2))%nat
    with (Z.to_nat (retry - retry / 2)) by lia.
  reflexivity.
Qed.

Lemma recv_crc_then_nak_fallback_witness :
  recv 10 (__init__ xmodem8k 0x1a) md5_old 1 5 (world [] [])
  = (Returned PyNone, __init__ xmodem8k 0x1a,
     mkWorld (skipn (Z.to_nat 5) []) [] ([] ++ repeat 1 (Z.to_nat 5))
             ([] ++ repeat CRC (Z.to_nat (5 / 2))
                ++ repeat NAK (Z.to_nat (5 - 5 / 2)) ++ [CAN; CAN])
             [] []).
Proof.
  apply (recv_crc_then_nak_fallback 10 (__init__ xmodem8k 0x1a) md5_old 1 5
           (world [] [])).
  - discriminate.
  - lia.
  - simpl; lia.
  - reflexivity.
  - repeat constructor.
Defined.

(** ** Cancelling, bad blocks and block numbers *)

(** X11. The [canceled] flag, found up at the top of the block loop of
    either role, ends the call there: three CAN bytes are written, the
    input is drained by single-byte reads, the flag is taken down again,
    [send] returns [None] and [recv] returns -1; neither the source stream
    nor the sink is touched. *)
Theorem canceled_flag_ends_call
        (fuel : nat) (retry packet_size is_stx crc_mode : Z) (md5 : bytes)
        (sst : SendSt) (rst : RecvSt) (s : Session) (w : World) :
  canceled s = true ->
  exists (k : nat) (w' : World),
    send_blocks (S fuel) retry packet_size crc_mode md5 sst s w
    = (Returned PyNone, set_canceled s false, w')
    /\ recv_blocks (S fuel) retry packet_size is_stx crc_mode md5 rst s w
       = (Returned (PyInt (-1)), set_canceled s false, w')
    /\ canceled (set_canceled s false) = false
    /\ w_out w' = w_out w ++ [CAN; CAN; CAN]
    /\ w_req w' = w_req w ++ repeat 1 (S k)
    /\ w_in w' = skipn (S k) (w_in w)
    /\ Forall (fun r => truthy r = true) (firstn k (w_in w))
    /\ truthy (nth k (w_in w) None) = false
    /\ w_src w' = w_src w
    /\ w_sink w' = w_sink w.
Proof.
  intros Hc.
  destruct (cancel_sequence_spec w) as (k & Hcs & Hall & Hend).
  exists k, (cancel_sequence w).
  cbn [send_blocks recv_blocks]; unfold send_block, recv_block; rewrite Hc.
  rewrite Hcs; cbn [w_in w_acc w_req w_out w_src w_sink].
  repeat split; assumption.
Qed.

Lemma canceled_flag_ends_call_witness :
  exists (k : nat) (w' : World),
    send_blocks 1 16 128 1 md5_new sent_block0 (mkSession xmodem true 0x1a true)
                (world [Some ACK; Some []; Some NAK] source300)
    = (Returned PyNone, set_canceled (mkSession xmodem true 0x1a true) false, w')
    /\ recv_blocks 1 16 128 0 1 md5_new after_block0 (mkSession xmodem true 0x1a true)
                   (world [Some ACK; Some []; Some NAK] source300)
       = (Returned (PyInt (-1)), set_canceled (mkSession xmodem true 0x1a true) false, w')
    /\ canceled (set_canceled (mkSession xmodem true 0x1a true) false) = false
    /\ w_out w' = w_out (world [Some ACK; Some []; Some NAK] source300) ++ [CAN; CAN; CAN]
    /\ w_req w' = w_req (world [Some ACK; Some []; Some NAK] source300) ++ repeat 1 (S k)
    /\ w_in w' = skipn (S k) (w_in (world [Some ACK; Some []; Some NAK] source300))
    /\ Forall (fun r => truthy r = true)
              (firstn k (w_in (world [Some ACK; Some []; Some NAK] source300)))
    /\ truthy (nth k (w_in (world [Some ACK; Some []; Some NAK] source300)) None) = false
    /\ w_src w' = w_src (world [Some ACK; Some []; Some NAK] source300)
    /\ w_sink w' = w_sink (world [Some ACK; Some []; Some NAK] source300).
Proof.
  apply (canceled_flag_ends_call 0 16 128 0 1 md5_new sent_block0 after_block0
           (mkSession xmodem true 0x1a true)
           (world [Some ACK; Some []; Some NAK] source300)).
  reflexivity.
Defined.

Lemma recv_retrans_spec (st : RecvSt) (s : Session) (w : World) :
  exists k : nat,
    Forall (fun r => r <> None) (firstn k (w_in w))
    /\ nth k (w_in w) None = None
    /\ recv_retrans st s w
       = if r_retrans st - 1 <=? 0
         then Done (Returned PyNone) s
                (mkWorld (skipn (S k) (w_in w)) (tl (tl (w_acc w)))
                         (w_req w ++ repeat 1 (S k)) (w_out w ++ [CAN; CAN])
                         (w_src w) (w_sink w))
         else Next (mkRecvSt (hd None (skipn (S k) (w_in w)))
                             (r_error_count st) (r_cancel st) (r_sequence st)
                             (r_retrans st - 1) (r_md5_received st)
                             (r_income_size st) (r_success_count st))
                   s
                   (mkWorld (tl (skipn (S k) (w_in w))) (tl (w_acc w))
                            (w_req w ++ repeat 1 (S k) ++ [1]) (w_out w ++ [NAK])
                            (w_src w) (w_sink w)).
Proof.
  destruct (purge_spec w) as (k & Hp & Hall & Hend).
  exists k; split; [exact Hall |]; split; [exact Hend |].
  unfold recv_retrans; cbv zeta; rewrite Hp.
  destruct (r_retrans st - 1 <=? 0).
  - rewrite abort_eq; reflexivity.
  - rewrite getc_eq, putc__eq; cbn [w_in w_acc w_req w_out w_src w_sink].
    rewrite <- app_assoc; reflexivity.
Qed.

(** X12. A block that comes with the expected sequence pair but whose
    trailer does not verify is not written and not acknowledged: [recv]
    reads on until a read times out, then, while its count of
    retransmission requests lasts, writes NAK and waits for the same
    sequence number again; when the count is used up it writes the two CAN
    bytes of the abort and returns [None].  The sink and the byte count
    stay as they were. *)
Theorem bad_trailer_is_nak
        (fuel : nat) (retry packet_size is_stx crc_mode : Z) (md5 : bytes)
        (st st1 : RecvSt) (s : Session) (w w1 : World)
        (body data : bytes) (rest : list (option bytes)) :
  canceled s = false ->
  recv_wait fuel retry st s w = Break st1 s w1 ->
  w_in w1 = Some [r_sequence st] :: Some [0xff - r_sequence st] :: Some body :: rest ->
  _verify_recv_checksum crc_mode body = Some (false, data) ->
  exists k : nat,
    Forall (fun r => r <> None) (firstn k rest)
    /\ nth k rest None = None
    /\ (1 < r_retrans st ->
        exists st' w',
          recv_block fuel retry packet_size is_stx crc_mode md5 st s w
          = Next st' s w'
          /\ r_sequence st' = r_sequence st
          /\ r_retrans st' = r_retrans st - 1
          /\ r_income_size st' = r_income_size st
          /\ r_char st' = hd None (skipn (S k) rest)
          /\ w_out w' = w_out w1 ++ [NAK]
          /\ w_in w' = tl (skipn (S k) rest)
          /\ w_sink w' = w_sink w)
    /\ (r_retrans st <= 1 ->
        exists w',
          recv_block fuel retry packet_size is_stx crc_mode md5 st s w
          = Done (Returned PyNone) s w'
          /\ w_out w' = w_out w1 ++ [CAN; CAN]
          /\ w_sink w' = w_sink w).
Proof.
  intros Hc Hw Hin Hv.
  destruct (recv_wait_break _ _ _ _ _ _ _ _ Hw)
    as (Hseq1 & Hret1 & Hmd51 & Hinc1 & _ & Hsink1 & _).
  assert (Hblock :
    recv_block fuel retry packet_size is_stx crc_mode md5 st s w
    = recv_retrans (clear_errors st1) s
        (mkWorld rest (w_acc w1)
                 (w_req w1 ++ [1; 1; 1 + is_stx + packet_size + 1 + crc_mode])
                 (w_out w1) (w_src w1) (w_sink w1))).
  { rewrite (recv_block_packet _ _ _ _ _ _ _ _ _ _ _ Hc Hw).
    unfold recv_packet; cbv zeta.
    rewrite (read_sequence_pair w1 _ _ _ Hin).
    unfold sequence_ok, py_eqb; cbn [clear_errors r_sequence].
    replace (0xff - (0xff - r_sequence st)) with (r_sequence st) by lia.
    rewrite Hseq1, !Z.eqb_refl; cbn [andb].
    unfold recv_data; rewrite getc_eq;
      cbn [hd tl w_in w_acc w_req w_out w_src w_sink].
    rewrite Hv, <- app_assoc; reflexivity. }
  match type of Hblock with
  | _ = recv_retrans ?st0 _ ?w3 =>
      destruct (recv_retrans_spec st0 s w3) as (k & Hall & Hend & Hr)
  end.
  cbn [w_in w_acc w_req w_out w_src w_sink clear_errors r_retrans r_sequence
       r_md5_received r_income_size r_success_count r_error_count r_cancel]
    in Hall, Hend, Hr.
  rewrite Hr, Hret1 in Hblock; clear Hr.
  exists k; split; [exact Hall |]; split; [exact Hend |]; split; intros Hrt.
  - replace (r_retrans st - 1 <=? 0) with false in Hblock
      by (symmetry; apply Z.leb_gt; lia).
    do 2 eexists; split; [exact Hblock |].
    cbn [r_sequence r_retrans r_income_size r_char w_out w_in w_sink].
    repeat split; congruence.
  - replace (r_retrans st - 1 <=? 0) with true in Hblock
      by (symmetry; apply Z.leb_le; lia).
    eexists; split; [exact Hblock |].
    cbn [w_out w_sink]; split; congruence.
Qed.

Lemma bad_trailer_is_nak_witness :
  exists k : nat,
    Forall (fun r => r <> None) (firstn k [Some [7]; None; Some SOH])
    /\ nth k [Some [7]; None; Some SOH] None = None
    /\ (1 < r_retrans (after_hash 16 (Some SOH)) ->
        exists st' w',
          recv_block 1 16 128 0 0 md5_old (after_hash 16 (Some SOH))
                     (__init__ xmodem 0x1a)
                     (world [Some [1]; Some [0xff - 1]; Some [1; 2; 3; 9];
                             Some [7]; None; Some SOH] [])
          = Next st' (__init__ xmodem 0x1a) w'
          /\ r_sequence st' = r_sequence (after_hash 16 (Some SOH))
          /\ r_retrans st' = r_retrans (after_hash 16 (Some SOH)) - 1
          /\ r_income_size st' = r_income_size (after_hash 16 (Some SOH))
          /\ r_char st' = hd None (skipn (S k) [Some [7]; None; Some SOH])
          /\ w_out w' = [] ++ [NAK]
          /\ w_in w' = tl (skipn (S k) [Some [7]; None; Some SOH])
          /\ w_sink w' = [])
    /\ (r_retrans (after_hash 16 (Some SOH)) <= 1 ->
        exists w',
          recv_block 1 16 128 0 0 md5_old (after_hash 16 (Some SOH))
                     (__init__ xmodem 0x1a)
                     (world [Some [1]; Some [0xff - 1]; Some [1; 2; 3; 9];
                             Some [7]; None; Some SOH] [])
          = Done (Returned PyNone) (__init__ xmodem 0x1a) w'
          /\ w_out w' = [] ++ [CAN; CAN]
          /\ w_sink w' = []).
Proof.
  apply (bad_trailer_is_nak 1 16 128 0 0 md5_old
           (after_hash 16 (Some SOH)) (after_hash 16 (Some SOH))
           (__init__ xmodem 0x1a)
           (world [Some [1]; Some [0xff - 1]; Some [1; 2; 3; 9];
                   Some [7]; None; Some SOH] [])
           (world [Some [1]; Some [0xff - 1]; Some [1; 2; 3; 9];
                   Some [7]; None; Some SOH] [])
           [1; 2; 3; 9] [1; 2; 3] [Some [7]; None; Some SOH]);
    reflexivity.
Defined.

Lemma send_emit_break_counts (fuel : nat) (retry : Z) (packet : bytes)
                             (st st' : SendSt) (s s' : Session) (w w' : World) :
  send_emit fuel retry packet st s w = Break st' s' w' ->
  s_success_count st' = s_success_count st + 1
  /\ s_sequence st' = s_sequence st
  /\ s_md5_sent st' = s_md5_sent st
  /\ s_total_packets st' = s_total_packets st.
Proof.
  revert st w; induction fuel as [| fuel IH]; intros st w;
    cbn [send_emit]; cbv zeta; [discriminate |].
  rewrite getc_eq.
  destruct (char_is _ ACK); [intros H; inversion H; subst; repeat split |].
  destruct (char_is _ CAN && s_cancel st); [discriminate |].
  destruct (retry <? s_error_count st + 1); [discriminate |].
  intros H; apply IH in H; exact H.
Qed.

(** X13. Block numbers of [send]: at the top of its block loop the
    sequence number is the number of blocks acknowledged so far modulo 256
    (the hash block counts, as block 0), so that block 256 goes out as 0
    again; and once the hash block has been chosen the data comes from the
    stream, also when the number is back at 0. *)
Theorem send_sequence_counts_acks
        (retry packet_size crc_mode : Z) (md5 : bytes) (cancel0 : bool)
        (s0 : Session) (w0 : World) (st : SendSt) (s : Session) (w : World) :
  send_loop_head retry packet_size crc_mode md5 cancel0 s0 w0 st s w ->
  s_sequence st = s_success_count st mod 0x100
  /\ 0 <= s_success_count st
  /\ (s_md5_sent st = false -> s_success_count st = 0 /\ w_src w = w_src w0)
  /\ (s_md5_sent st = true ->
      fst (fst (send_next_data packet_size md5 st w))
      = firstn (Z.to_nat packet_size) (w_src w)).
Proof.
  intros Hhead.
  assert (Hinv : s_sequence st = s_success_count st mod 0x100
                 /\ 0 <= s_success_count st
                 /\ (s_md5_sent st = false ->
                     s_success_count st = 0 /\ w_src w = w_src w0)).
  { induction Hhead as [| fuel st st' s s' w w' _ IH Hstep].
    - cbn; repeat split; lia.
    - destruct IH as (Hseq & Hpos & Hfirst).
      unfold send_block in Hstep.
      destruct (canceled s); [discriminate |].
      destruct (send_next_data packet_size md5 st w) as [[data st1] w1] eqn:Hd.
      assert (Hst1 : s_sequence st1 = s_sequence st
                     /\ s_success_count st1 = s_success_count st
                     /\ (s_md5_sent st1 = false -> s_md5_sent st = false)).
      { unfold send_next_data in Hd.
        destruct (negb (s_md5_sent st) && (s_sequence st =? 0)) eqn:Hb.
        - inversion Hd; subst; cbn; repeat split; discriminate.
        - unfold stream_read in Hd; inversion Hd; subst; cbn; auto. }
      destruct Hst1 as (Hs1 & Hc1 & Hm1).
      destruct data; [discriminate |].
      destruct (send_packet _ _ _ _ _) as [packet |]; [| discriminate].
      destruct (send_emit fuel retry packet st1 s w1) eqn:He; try discriminate.
      + exfalso; eapply send_emit_no_next; exact He.
      + apply send_emit_break_counts in He.
        destruct He as (Hc2 & Hs2 & Hm2 & _).
        inversion Hstep; subst; cbn [send_next_sequence s_sequence s_success_count
                                      s_md5_sent].
        rewrite Hs2, Hc2, Hs1, Hc1, Hseq, Hm2.
        split; [rewrite Z.add_mod_idemp_l by lia; reflexivity |].
        split; [lia |].
        intros Hm; exfalso.
        pose proof (Hm1 Hm) as Hm0.
        destruct (Hfirst Hm0) as (Hz & _).
        unfold send_next_data in Hd.
        rewrite Hm0, Hseq, Hz in Hd; cbn in Hd.
        inversion Hd; subst; discriminate Hm. }
  destruct Hinv as (H1 & H2 & H3).
  repeat split; auto; try (apply H3; assumption).
  intros Hm; unfold send_next_data, stream_read; rewrite Hm; reflexivity.
Qed.

Lemma send_sequence_counts_acks_witness :
  s_sequence sent_block0 = s_success_count sent_block0 mod 0x100
  /\ 0 <= s_success_count sent_block0
  /\ (s_md5_sent sent_block0 = false ->
      s_success_count sent_block0 = 0
      /\ w_src (mkWorld [] [] [1] [nth 0 (w_out (world_of send300)) []] source300 [])
         = w_src (world [Some ACK] source300))
  /\ (s_md5_sent sent_block0 = true ->
      fst (fst (send_next_data 128 md5_new sent_block0
                  (mkWorld [] [] [1] [nth 0 (w_out (world_of send300)) []] source300 [])))
      = firstn (Z.to_nat 128)
          (w_src (mkWorld [] [] [1] [nth 0 (w_out (world_of send300)) []] source300 []))).
Proof.
  apply (send_sequence_counts_acks 16 128 1 md5_new false (__init__ xmodem 0x1a)
           (world [Some ACK] source300) sent_block0 (__init__ xmodem 0x1a)
           (mkWorld [] [] [1] [nth 0 (w_out (world_of send300)) []] source300 [])).
  apply (shead_next 16 128 1 md5_new false (__init__ xmodem 0x1a)
           (world [Some ACK] source300) 1
           (mkSendSt 0 0 0 0 false false) sent_block0
           (__init__ xmodem 0x1a) (__init__ xmodem 0x1a)
           (world [Some ACK] source300)
           (mkWorld [] [] [1] [nth 0 (w_out (world_of send300)) []] source300 [])).
  - apply shead_first.
  - vm_compute; reflexivity.
Defined.

(** X14. Block numbers of [recv]: at the top of its block loop the expected
    sequence number is the number of blocks taken so far modulo 256, the
    hash block and the data blocks written to the sink, so that after
    block 255 it expects 0 again, and a block 0 that comes then is data. *)
Theorem recv_sequence_counts_blocks
        (retry packet_size is_stx crc_mode : Z) (md5 : bytes) (char0 : option bytes)
        (s0 : Session) (w0 : World) (st : RecvSt) (s : Session) (w : World) :
  recv_loop_head retry packet_size is_stx crc_mode md5 char0 s0 w0 st s w ->
  r_sequence st
  = (r_success_count st + (if r_md5_received st then 1 else 0)) mod 0x100
  /\ 0 <= r_success_count st
  /\ (r_md5_received st = false -> r_success_count st = 0).
Proof.
  induction 1 as [| fuel st st' s s' w w' _ IH Hstep].
  - cbn; repeat split; lia.
  - destruct IH as (Hseq & Hpos & Hfirst).
    unfold recv_block in Hstep.
    destruct (canceled s); [discriminate |].
    destruct (recv_wait fuel retry st s w) as [a s1 w1 | st1 s1 w1 | o s1 w1] eqn:Hw;
      try discriminate.
    { exfalso; eapply recv_wait_no_next; exact Hw. }
    apply recv_wait_break in Hw.
    destruct Hw as (Hseq1 & _ & Hmd51 & _ & Hsc1 & _).
    assert (Hretrans : forall w2,
               recv_retrans (clear_errors st1) s1 w2 = Next st' s' w' ->
               r_sequence st' = r_sequence st
               /\ r_md5_received st' = r_md5_received st
               /\ r_success_count st' = r_success_count st).
    { intros w2; unfold recv_retrans; cbv zeta.
      destruct (_ <=? 0); [discriminate |].
      rewrite getc_eq; intros H; inversion H; subst; cbn; auto. }
    assert (Hkeep : r_sequence st' = r_sequence st
                    /\ r_md5_received st' = r_md5_received st
                    /\ r_success_count st' = r_success_count st ->
                    r_sequence st'
                    = (r_success_count st'
                       + (if r_md5_received st' then 1 else 0)) mod 0x100
                    /\ 0 <= r_success_count st'
                    /\ (r_md5_received st' = false -> r_success_count st' = 0)).
    { intros (-> & -> & ->); auto. }
    unfold recv_packet in Hstep; cbv zeta in Hstep.
    destruct (read_sequence w1) as [[[seq1 seq2] |] w2]; [| discriminate].
    destruct (sequence_ok _ _ _).
    + unfold recv_data in Hstep; rewrite getc_eq in Hstep.
      destruct (hd None (w_in w2)) as [d |]; [| apply Hkeep, (Hretrans _ Hstep)].
      destruct (_verify_recv_checksum crc_mode d) as [[[|] d'] |];
        [| apply Hkeep, (Hretrans _ Hstep) | discriminate].
      unfold recv_accept, recv_ack in Hstep; cbv zeta in Hstep;
        cbn [clear_errors r_sequence r_md5_received r_income_size r_success_count
             r_char r_error_count r_cancel r_retrans] in Hstep.
      rewrite Hseq1, Hmd51, Hsc1 in Hstep.
      destruct ((r_sequence st =? 0) && negb (r_md5_received st)) eqn:Hb.
      * destruct (bytes_eqb md5 _); [discriminate |].
        rewrite getc_eq in Hstep; inversion Hstep; subst; cbn.
        apply andb_prop in Hb; destruct Hb as [Hz Hm].
        apply negb_true_iff in Hm; rewrite Hm in Hseq.
        rewrite Hseq, Z.add_0_r, Z.add_mod_idemp_l by lia.
        repeat split; [lia | discriminate].
      * destruct (block_content is_stx d'); [| discriminate].
        rewrite getc_eq in Hstep; inversion Hstep; subst; cbn.
        rewrite Hseq, Z.add_mod_idemp_l by lia.
        split; [f_equal; lia |].
        split; [lia |].
        intros Hm; exfalso.
        rewrite Hm in Hseq; rewrite (Hfirst Hm) in Hseq; cbn in Hseq.
        rewrite Hseq, Hm in Hb; discriminate Hb.
    + unfold recv_mismatch in Hstep; apply Hkeep, (Hretrans _ Hstep).
Qed.

Lemma recv_sequence_counts_blocks_witness :
  r_sequence after_block0
  = (r_success_count after_block0
     + (if r_md5_received after_block0 then 1 else 0)) mod 0x100
  /\ 0 <= r_success_count after_block0
  /\ (r_md5_received after_block0 = false -> r_success_count after_block0 = 0).
Proof.
  apply (recv_sequence_counts_blocks 16 128 0 1 md5_old (Some SOH)
           (__init__ xmodem 0x1a) block0_world after_block0
           (__init__ xmodem 0x1a) after_block0_world).
  apply (head_next 16 128 0 1 md5_old (Some SOH) (__init__ xmodem 0x1a) block0_world
           1 (recv_init 16 (Some SOH)) after_block0
           (__init__ xmodem 0x1a) (__init__ xmodem 0x1a)
           block0_world after_block0_world).
  - apply head_first.
  - vm_compute; reflexivity.
Defined.

(** ** A transfer without errors: the sender *)

Lemma next_answers_repeat (x : option bytes) (n : nat) (l : list (option bytes)) :
  next_answers (S n) l = repeat x (S n) ->
  hd None l = x /\ next_answers n (tl l) = repeat x n.
Proof. cbn [next_answers repeat]; intros H; inversion H; split; reflexivity. Qed.

Lemma next_answers_skipn (n : nat) (l : list (option bytes)) :
  next_answers 1 (skipn n l) = [hd None (skipn n l)].
Proof. reflexivity. Qed.

(** One block that is acknowledged at once. *)
Lemma send_block_acked (fuel : nat) (retry packet_size crc_mode : Z) (md5 : bytes)
                       (st st1 : SendSt) (s : Session) (w w1 : World)
                       (data packet : bytes) :
  canceled s = false ->
  send_next_data packet_size md5 st w = (data, st1, w1) ->
  data <> [] ->
  send_packet packet_size (s_sequence st1) (pad s) crc_mode data = Some packet ->
  hd None (w_in w1) = Some ACK ->
  send_block (S fuel) retry packet_size crc_mode md5 st s w
  = Next (mkSendSt 0 (s_success_count st1 + 1) (s_total_packets st1)
                   ((s_sequence st1 + 1) mod 0x100) (s_md5_sent st1) (s_cancel st1))
         s
         (mkWorld (tl (w_in w1)) (tl (w_acc w1)) (w_req w1 ++ [1])
                  (w_out w1 ++ [packet]) (w_src w1) (w_sink w1)).
Proof.
  intros Hc Hd Hne Hp Hack; unfold send_block; rewrite Hc, Hd.
  destruct data as [| d data']; [congruence |].
  rewrite Hp; cbn [send_emit]; cbv zeta.
  rewrite getc_eq, putc__eq; cbn [w_in w_acc w_req w_out w_src w_sink].
  rewrite Hack; reflexivity.
Qed.

Lemma send_packet_fits (packet_size sequence pad crc_mode : Z) (data : bytes) :
  packet_size = 128 \/ packet_size = 8192 ->
  0 <= sequence <= 255 ->
  len data <= packet_size ->
  exists body,
    send_packet packet_size sequence pad crc_mode data
    = Some ([if packet_size =? 128 then 0x01 else 0x02; sequence; 0xff - sequence]
              ++ body ++ _make_send_checksum crc_mode body)
    /\ block_content (is_stx_of packet_size) body = Some data
    /\ len body = 1 + is_stx_of packet_size + packet_size.
Proof.
  intros Hps Hseq Hlen.
  destruct (send_body_content packet_size pad data Hps Hlen) as (body & Hb & Hc & Hl).
  exists body; unfold send_packet; rewrite make_send_header_byte, Hb by exact Hseq.
  destruct Hps as [-> | ->]; repeat split; assumption.
Qed.

Lemma len_firstn_le (packet_size : Z) (src : bytes) :
  0 <= packet_size -> len (firstn (Z.to_nat packet_size) src) <= packet_size.
Proof. intros H; unfold len; rewrite length_firstn; lia. Qed.

(** The end of the stream: EOT, acknowledged at once. *)
Lemma send_blocks_eof (fuel : nat) (retry packet_size crc_mode : Z) (md5 : bytes)
                      (st : SendSt) (s : Session) (w : World) :
  canceled s = false ->
  s_md5_sent st = true ->
  w_src w = [] ->
  hd None (w_in w) = Some ACK ->
  send_blocks (S (S fuel)) retry packet_size crc_mode md5 st s w
  = (Returned PyTrue, s,
     mkWorld (tl (w_in w)) (tl (w_acc w)) (w_req w ++ [1]) (w_out w ++ [EOT])
             [] (w_sink w)).
Proof.
  intros Hc Hm Hsrc Hack.
  cbn [send_blocks]; unfold send_block, send_next_data, stream_read.
  rewrite Hc, Hm, Hsrc; cbn [negb andb]; rewrite firstn_nil, skipn_nil.
  cbn [send_eot]; rewrite getc_eq, putc__eq;
    cbn [w_in w_acc w_req w_out w_src w_sink].
  rewrite Hack; reflexivity.
Qed.

(** The stream, block after block, every block acknowledged at once. *)
Lemma send_blocks_stream (n : nat) :
  forall (fuel : nat) (retry packet_size crc_mode : Z) (md5 : bytes)
         (st : SendSt) (s : Session) (w : World),
    canceled s = false ->
    s_md5_sent st = true ->
    packet_size = 128 \/ packet_size = 8192 ->
    0 <= s_sequence st <= 255 ->
    (length (w_src w) <= n)%nat ->
    let pk := stream_packets n packet_size (pad s) crc_mode (s_sequence st) (w_src w) in
    (S (length pk) < fuel)%nat ->
    answers (S (length pk)) w = repeat (Some ACK) (S (length pk)) ->
    exists w',
      send_blocks fuel retry packet_size crc_mode md5 st s w
      = (Returned PyTrue, s, w')
      /\ w_out w' = w_out w ++ pk ++ [EOT]
      /\ w_req w' = w_req w ++ repeat 1 (S (length pk))
      /\ w_in w' = skipn (S (length pk)) (w_in w)
      /\ w_src w' = []
      /\ w_sink w' = w_sink w.
Proof.
  induction n as [| n IH];
    intros fuel retry packet_size crc_mode md5 st s w Hc Hm Hps Hseq Hlen pk Hfuel Hans.
  - assert (Hsrc : w_src w = []) by (destruct (w_src w); [reflexivity | cbn in Hlen; lia]).
    subst pk; cbn [stream_packets length] in *.
    destruct fuel as [| [| fuel]]; try lia.
    apply next_answers_repeat in Hans; destruct Hans as [Hack _].
    rewrite send_blocks_eof by assumption.
    eexists; split; [reflexivity |].
    cbn [w_in w_acc w_req w_out w_src w_sink app repeat].
    rewrite <- (skipn_tl 0 (w_in w)); repeat split.
  - assert (Hps0 : 0 < packet_size) by (destruct Hps; lia).
    destruct (firstn (Z.to_nat packet_size) (w_src w)) as [| d chunk] eqn:Hchunk.
    + assert (Hsrc : w_src w = []).
      { destruct (w_src w) as [| x src']; [reflexivity |].
        destruct (Z.to_nat packet_size) eqn:Hz; [lia | discriminate Hchunk]. }
      subst pk; cbn [stream_packets] in *; rewrite Hchunk in *; cbn [length] in *.
      destruct fuel as [| [| fuel]]; try lia.
      apply next_answers_repeat in Hans; destruct Hans as [Hack _].
      rewrite send_blocks_eof by assumption.
      eexists; split; [reflexivity |].
      cbn [w_in w_acc w_req w_out w_src w_sink app repeat].
      rewrite <- (skipn_tl 0 (w_in w)); repeat split.
    + assert (Hfit : len (d :: chunk) <= packet_size)
        by (rewrite <- Hchunk; apply len_firstn_le; lia).
      destruct (send_packet_fits packet_size (s_sequence st) (pad s) crc_mode
                  (d :: chunk) Hps Hseq Hfit) as (body & Hp & _).
      pose proof (Z.mod_pos_bound (s_sequence st + 1) 256 ltac:(lia)) as Hnext.
      subst pk; cbn [stream_packets] in *; rewrite Hchunk, Hp in *.
      cbn [length] in *.
      destruct fuel as [| fuel]; [lia |].
      apply next_answers_repeat in Hans; destruct Hans as [Hack Hans].
      cbn [send_blocks].
      destruct fuel as [| fuel]; [lia |].
      match type of Hp with
      | _ = Some ?packet =>
          rewrite (send_block_acked fuel retry packet_size crc_mode md5 st
                     (mkSendSt (s_error_count st) (s_success_count st)
                               (s_total_packets st + 1) (s_sequence st)
                               (s_md5_sent st) (s_cancel st))
                     s w
                     (mkWorld (w_in w) (w_acc w) (w_req w) (w_out w)
                              (skipn (Z.to_nat packet_size) (w_src w)) (w_sink w))
                     (d :: chunk) packet Hc);
          [| unfold send_next_data, stream_read; rewrite Hm, Hchunk; reflexivity
           | discriminate | exact Hp | exact Hack]
      end.
      cbn [w_in w_acc w_req w_out w_src w_sink s_sequence s_md5_sent
           s_success_count s_total_packets s_cancel].
      match goal with
      | |- context [send_blocks _ _ _ _ _ ?st2 _ ?w2] =>
          destruct (IH (S fuel) retry packet_size crc_mode md5 st2 s w2)
            as (w' & Hrun & Hout & Hreq & Hin & Hsrc' & Hsink);
          cbn [w_in w_acc w_req w_out w_src w_sink s_sequence s_md5_sent];
          try assumption; try lia
      end.
      * rewrite length_skipn.
        assert (Hl : (0 < length (w_src w))%nat).
        { destruct (w_src w); [| cbn; lia].
          rewrite firstn_nil in Hchunk; discriminate Hchunk. }
        lia.
      * exists w'; split; [exact Hrun |].
        cbn [w_in w_acc w_req w_out w_src w_sink s_sequence] in Hout, Hreq, Hin.
        rewrite Hout, Hreq, Hin, skipn_tl, <- !app_assoc.
        repeat split; assumption.
Qed.

Lemma blocks_of_nil (packet_size : Z) : 0 < packet_size -> blocks_of packet_size [] = 0.
Proof. intros H; unfold blocks_of, len; cbn [length]; apply Z.div_small; lia. Qed.

Lemma blocks_of_step (packet_size : Z) (src : bytes) :
  0 < packet_size -> src <> [] ->
  blocks_of packet_size src
  = 1 + blocks_of packet_size (skipn (Z.to_nat packet_size) src).
Proof.
  intros Hps Hne; unfold blocks_of, len; rewrite length_skipn.
  assert (Hl : (0 < length src)%nat) by (destruct src; [congruence | cbn; lia]).
  destruct (Z_le_gt_dec (Z.of_nat (length src)) packet_size) as [Hle | Hgt].
  - replace (Z.of_nat (length src - Z.to_nat packet_size)) with 0 by lia.
    rewrite (Z.div_small (0 + packet_size - 1)) by lia.
    symmetry; apply (Z.div_unique _ _ 1 (Z.of_nat (length src) - 1)); lia.
  - replace (Z.of_nat (length src - Z.to_nat packet_size))
      with (Z.of_nat (length src) - packet_size) by lia.
    replace (Z.of_nat (length src) + packet_size - 1)
      with (Z.of_nat (length src) - packet_size + packet_size - 1 + 1 * packet_size)
      by lia.
    rewrite Z.div_add by lia; lia.
Qed.

Lemma stream_packets_count (n : nat) :
  forall (packet_size pad crc_mode sequence : Z) (src : bytes),
    packet_size = 128 \/ packet_size = 8192 ->
    0 <= sequence <= 255 ->
    (length src <= n)%nat ->
    Z.of_nat (length (stream_packets n packet_size pad crc_mode sequence src))
    = blocks_of packet_size src.
Proof.
  induction n as [| n IH]; intros packet_size pad crc_mode sequence src Hps Hseq Hlen;
    assert (Hps0 : 0 < packet_size) by (destruct Hps; lia).
  - destruct src; [| cbn in Hlen; lia].
    rewrite blocks_of_nil by assumption; reflexivity.
  - cbn [stream_packets].
    destruct (firstn (Z.to_nat packet_size) src) as [| d chunk] eqn:Hchunk.
    + assert (src = []) as ->.
      { destruct src; [reflexivity |].
        destruct (Z.to_nat packet_size) eqn:Hz; [lia | discriminate Hchunk]. }
      rewrite blocks_of_nil by assumption; reflexivity.
    + assert (Hfit : len (d :: chunk) <= packet_size)
        by (rewrite <- Hchunk; apply len_firstn_le; lia).
      destruct (send_packet_fits packet_size sequence pad crc_mode
                  (d :: chunk) Hps Hseq Hfit) as (body & Hp & _).
      pose proof (Z.mod_pos_bound (sequence + 1) 256 ltac:(lia)) as Hnext.
      rewrite Hp; cbn [length].
      assert (Hne : src <> []) by (intros ->; rewrite firstn_nil in Hchunk; discriminate).
      rewrite (blocks_of_step packet_size src Hps0 Hne).
      rewrite Nat2Z.inj_succ, IH; [lia | assumption | lia |].
      rewrite length_skipn; destruct src; [congruence | cbn [length] in *; lia].
Qed.

(** The run of such a [send]. *)
Lemma send_run
        (fuel : nat) (s : Session) (md5 : bytes) (retry packet_size crc_mode : Z)
        (w : World) (packet0 : bytes) :
  packet_size_of (mode s) = Some packet_size ->
  canceled s = false ->
  crc_mode = 0 \/ crc_mode = 1 ->
  md5 <> [] ->
  send_packet packet_size 0 (pad s) crc_mode md5 = Some packet0 ->
  let pk := stream_packets (length (w_src w)) packet_size (pad s) crc_mode 1 (w_src w) in
  (length pk + 3 < fuel)%nat ->
  answers (length pk + 3) w
  = Some (request_byte crc_mode) :: repeat (Some ACK) (length pk + 2) ->
  exists w',
    send fuel s md5 retry w = (Returned PyTrue, s, w')
    /\ w_out w' = w_out w ++ packet0 :: pk ++ [EOT]
    /\ w_req w' = w_req w ++ repeat 1 (length pk + 3)
    /\ w_in w' = skipn (length pk + 3) (w_in w)
    /\ w_src w' = []
    /\ w_sink w' = w_sink w.
Proof.
  intros Hmode Hc Hcrc Hmd5 Hp0 pk Hfuel Hans.
  pose proof (packet_size_of_cases _ _ Hmode) as Hps.
  replace (length pk + 3)%nat with (S (S (S (length pk)))) in * by lia.
  replace (length pk + 2)%nat with (S (S (length pk))) in * by lia.
  unfold answers in Hans; cbn [next_answers repeat] in Hans.
  injection Hans as Hstart Hack0 Hack1 Hrest.
  unfold send; rewrite Hmode.
  destruct fuel as [| fuel]; [lia |].
  set (w1 := mkWorld (tl (w_in w)) (w_acc w) (w_req w ++ [1]) (w_out w)
                     (w_src w) (w_sink w)).
  assert (Hs : send_start (S fuel) retry 0 false s w = Break (crc_mode, false) s w1).
  { cbn [send_start]; cbv zeta; rewrite getc_eq, Hstart.
    destruct Hcrc as [-> | ->]; reflexivity. }
  rewrite Hs.
  cbn [send_blocks].
  destruct fuel as [| fuel]; [lia |].
  rewrite (send_block_acked fuel retry packet_size crc_mode md5
             (mkSendSt 0 0 0 0 false false) (mkSendSt 0 0 0 0 true false) s w1 w1
             md5 packet0 Hc eq_refl Hmd5 Hp0 Hack0).
  subst w1;
    cbn [w_in w_acc w_req w_out w_src w_sink s_sequence s_md5_sent
         s_success_count s_total_packets s_cancel].
  change ((0 + 1) mod 256) with 1.
  match goal with
  | |- context [send_blocks _ _ _ _ _ ?st2 _ ?w2] =>
      destruct (send_blocks_stream (length (w_src w)) (S fuel) retry packet_size
                  crc_mode md5 st2 s w2)
        as (w' & Hrun & Hout & Hreq & Hin & Hsrc' & Hsink);
      cbn [w_in w_acc w_req w_out w_src w_sink s_sequence s_md5_sent];
      try assumption; try reflexivity; fold pk; try lia
  end.
  - unfold answers; cbn [w_in next_answers repeat].
    rewrite Hack1, Hrest; reflexivity.
  - exists w'; split; [exact Hrun |].
    cbn [w_in w_acc w_req w_out w_src w_sink s_sequence] in Hout, Hreq, Hin.
    fold pk in Hout, Hreq, Hin.
    rewrite Hout, Hreq, Hin, !skipn_tl, <- !app_assoc.
    repeat split; assumption.
Qed.


(** X15. A [send] that meets no error: asked for an integrity mode by NAK
    or C and then acknowledged every time, [send] writes the hash block
    (sequence 0), then the source stream cut into blocks of [packet_size]
    bytes, numbered from 1 on modulo 256, then EOT, and returns [True];
    it has read the whole stream, and the number of data blocks is the
    length of the stream divided by [packet_size], rounded up. *)
Theorem send_error_free
        (fuel : nat) (s : Session) (md5 : bytes) (retry packet_size crc_mode : Z)
        (w : World) (packet0 : bytes) :
  packet_size_of (mode s) = Some packet_size ->
  canceled s = false ->
  crc_mode = 0 \/ crc_mode = 1 ->
  md5 <> [] ->
  send_packet packet_size 0 (pad s) crc_mode md5 = Some packet0 ->
  let pk := stream_packets (length (w_src w)) packet_size (pad s) crc_mode 1 (w_src w) in
  (length pk + 3 < fuel)%nat ->
  answers (length pk + 3) w
  = Some (request_byte crc_mode) :: repeat (Some ACK) (length pk + 2) ->
  Z.of_nat (length pk) = blocks_of packet_size (w_src w)
  /\ exists w',
       send fuel s md5 retry w = (Returned PyTrue, s, w')
       /\ w_out w' = w_out w ++ packet0 :: pk ++ [EOT]
       /\ w_req w' = w_req w ++ repeat 1 (length pk + 3)
       /\ w_in w' = skipn (length pk + 3) (w_in w)
       /\ w_src w' = []
       /\ w_sink w' = w_sink w.
Proof.
  intros Hmode Hc Hcrc Hmd5 Hp0 pk Hfuel Hans.
  split.
  - apply stream_packets_count; [exact (packet_size_of_cases _ _ Hmode) | lia | lia].
  - apply send_run; assumption.
Qed.

Lemma send_error_free_witness :
  Z.of_nat (length packets300) = blocks_of 128 source300
  /\ exists w',
       send 100 (__init__ xmodem 0x1a) md5_new 16
            (world [Some CRC; Some ACK; Some ACK; Some ACK; Some ACK; Some ACK] source300)
       = (Returned PyTrue, __init__ xmodem 0x1a, w')
       /\ w_out w' = [] ++ nth 0 (w_out (world_of send300)) [] :: packets300 ++ [EOT]
       /\ w_req w' = [] ++ repeat 1 (length packets300 + 3)
       /\ w_in w' = skipn (length packets300 + 3)
                      [Some CRC; Some ACK; Some ACK; Some ACK; Some ACK; Some ACK]
       /\ w_src w' = []
       /\ w_sink w' = [].
Proof.
  apply (send_error_free 100 (__init__ xmodem 0x1a) md5_new 16 128 1
           (world [Some CRC; Some ACK; Some ACK; Some ACK; Some ACK; Some ACK] source300)
           (nth 0 (w_out (world_of send300)) [])).
  - reflexivity.
  - reflexivity.
  - right; reflexivity.
  - discriminate.
  - vm_compute; reflexivity.
  - vm_compute; lia.
  - vm_compute; reflexivity.
Defined.

(** ** A transfer without errors: the receiver *)













(** ** A whole transfer, sender and receiver back to back *)





(** ** The ends of [send] *)

(** X18. An empty identifier makes the transfer empty: called with
    [md5 = ''], [send] takes the empty hash block for the end of the
    stream; once asked for a mode (NAK or C) it writes nothing but EOT,
    does not read the source stream at all, and returns [True] when the
    EOT is acknowledged. *)
Theorem send_empty_md5_sends_nothing
        (fuel : nat) (s : Session) (retry : Z) (w : World)
        (start : bytes) (rest : list (option bytes)) :
  mode s <> mode_other ->
  canceled s = false ->
  start = NAK \/ start = CRC ->
  w_in w = Some start :: Some ACK :: rest ->
  send (S (S (S fuel))) s [] retry w
  = (Returned PyTrue, s,
     mkWorld rest (tl (w_acc w)) (w_req w ++ [1; 1]) (w_out w ++ [EOT])
             (w_src w) (w_sink w)).
Proof.
  intros Hmode Hc Hstart Hin; unfold send.
  destruct (packet_size_of (mode s)) as [packet_size |] eqn:Hps;
    [| destruct (mode s); try discriminate Hps; congruence].
  assert (Hs : exists crc_mode,
             send_start (S (S (S fuel))) retry 0 false s w
             = Break (crc_mode, false) s
                 (mkWorld (Some ACK :: rest) (w_acc w) (w_req w ++ [1]) (w_out w)
                          (w_src w) (w_sink w))).
  { cbn [send_start]; cbv zeta; rewrite getc_eq, Hin; cbn [hd tl].
    destruct Hstart as [-> | ->]; eexists; reflexivity. }
  destruct Hs as (crc_mode & ->).
  cbn [send_blocks]; unfold send_block, send_next_data; rewrite Hc.
  cbn [s_md5_sent s_sequence negb andb Z.eqb s_error_count send_eot].
  rewrite getc_eq, putc__eq; cbn [w_in w_acc w_req w_out w_src w_sink hd tl].
  rewrite <- app_assoc; reflexivity.
Qed.

Lemma send_empty_md5_sends_nothing_witness :
  send 3 (__init__ xmodem 0x1a) [] 16 (world [Some CRC; Some ACK] source300)
  = (Returned PyTrue, __init__ xmodem 0x1a,
     mkWorld [] (tl []) ([] ++ [1; 1]) ([] ++ [EOT]) source300 []).
Proof.
  apply (send_empty_md5_sends_nothing 0 (__init__ xmodem 0x1a) 16
           (world [Some CRC; Some ACK] source300) CRC []).
  - discriminate.
  - reflexivity.
  - right; reflexivity.
  - reflexivity.
Defined.

Lemma send_eot_exhausts (n : nat) :
  forall (fuel : nat) (retry error_count : Z) (s : Session) (w : World),
    retry - error_count = Z.of_nat n ->
    (n < fuel)%nat ->
    Forall (fun r => char_is r ACK = false) (answers (S n) w) ->
    send_eot fuel retry error_count s w
    = (Returned PyFalse, s,
       mkWorld (skipn (S n) (w_in w)) (skipn (S n + 2) (w_acc w))
               (w_req w ++ repeat 1 (S n))
               (w_out w ++ repeat EOT (S n) ++ [CAN; CAN])
               (w_src w) (w_sink w)).
Proof.
  induction n as [| n IH]; intros fuel retry error_count s w Hn Hfuel Hack;
    (destruct fuel as [| fuel]; [lia |]);
    cbn [send_eot];
    rewrite getc_eq, putc__eq; cbn [w_in w_acc w_req w_out w_src w_sink];
    unfold answers in Hack; cbn [next_answers] in Hack;
    inversion Hack as [| r rs Hr Hrs]; subst; rewrite Hr.
  - replace (retry <? error_count + 1) with true by (symmetry; apply Z.ltb_lt; lia).
    rewrite abort_eq; cbn [w_in w_acc w_req w_out w_src w_sink repeat app].
    rewrite <- app_assoc, <- (skipn_tl 0 (w_in w)).
    destruct (w_acc w) as [| ? [| ? [| ? ?]]]; reflexivity.
  - replace (retry <? error_count + 1) with false by (symmetry; apply Z.ltb_ge; lia).
    rewrite IH; cbn [w_in w_acc w_req w_out w_src w_sink]; try assumption; try lia.
    rewrite !skipn_tl, <- !app_assoc; reflexivity.
Qed.

(** X19. An EOT that is never acknowledged: when [send] has come to the
    end of the source stream and each of the next [retry + 1] answers is
    something other than ACK (a timeout or any other byte, CAN included),
    it writes EOT exactly [retry + 1] times, then the two CAN bytes of the
    abort, and returns [False]. *)
Theorem send_eot_never_acked
        (retry packet_size crc_mode : Z) (md5 : bytes) (cancel0 : bool)
        (s0 : Session) (w0 : World)
        (st : SendSt) (s : Session) (w : World) (fuel : nat) :
  send_loop_head retry packet_size crc_mode md5 cancel0 s0 w0 st s w ->
  canceled s = false ->
  s_md5_sent st = true ->
  w_src w = [] ->
  0 <= retry ->
  (Z.to_nat retry < fuel)%nat ->
  Forall (fun r => char_is r ACK = false) (answers (S (Z.to_nat retry)) w) ->
  exists w',
    send_blocks (S fuel) retry packet_size crc_mode md5 st s w
    = (Returned PyFalse, s, w')
    /\ w_out w' = w_out w ++ repeat EOT (S (Z.to_nat retry)) ++ [CAN; CAN]
    /\ w_in w' = skipn (S (Z.to_nat retry)) (w_in w).
Proof.
  intros Hhead Hc Hm Hsrc Hretry Hfuel Hack.
  pose proof (send_loop_head_error_count _ _ _ _ _ _ _ _ _ _ Hhead) as Hec.
  cbn [send_blocks]; unfold send_block, send_next_data, stream_read.
  rewrite Hc, Hm, Hsrc; cbn [negb andb]; rewrite firstn_nil, skipn_nil.
  cbn [s_error_count].
  rewrite (send_eot_exhausts (Z.to_nat retry));
    cbn [w_in w_acc w_req w_out w_src w_sink]; try assumption; try lia.
  eexists; split; [reflexivity |].
  cbn [w_out w_in]; split; reflexivity.
Qed.

Lemma send_eot_never_acked_witness :
  exists w',
    send_blocks 4 2 128 1 md5_new sent_block0 (__init__ xmodem 0x1a)
                (mkWorld [Some NAK; None; Some CAN] [] [1]
                         [nth 0 (w_out (world_of send300)) []] [] [])
    = (Returned PyFalse, __init__ xmodem 0x1a, w')
    /\ w_out w' = [nth 0 (w_out (world_of send300)) []]
                    ++ repeat EOT (S (Z.to_nat 2)) ++ [CAN; CAN]
    /\ w_in w' = skipn (S (Z.to_nat 2)) [Some NAK; None; Some CAN].
Proof.
  apply (send_eot_never_acked 2 128 1 md5_new false (__init__ xmodem 0x1a)
           (world [Some ACK; Some NAK; None; Some CAN] [])
           sent_block0 (__init__ xmodem 0x1a)
           (mkWorld [Some NAK; None; Some CAN] [] [1]
                    [nth 0 (w_out (world_of send300)) []] [] []) 3).
  - apply (shead_next 2 128 1 md5_new false (__init__ xmodem 0x1a)
             (world [Some ACK; Some NAK; None; Some CAN] []) 1
             (mkSendSt 0 0 0 0 false false) sent_block0
             (__init__ xmodem 0x1a) (__init__ xmodem 0x1a)
             (world [Some ACK; Some NAK; None; Some CAN] [])
             (mkWorld [Some NAK; None; Some CAN] [] [1]
                      [nth 0 (w_out (world_of send300)) []] [] [])).
    + apply shead_first.
    + vm_compute; reflexivity.
  - reflexivity.
  - reflexivity.
  - reflexivity.
  - lia.
  - simpl; lia.
  - repeat constructor.
Defined.

(** ** The calls return *)

Lemma send_start_left (fuel : nat) :
  forall (retry error_count : Z) (cancel : bool) (s : Session) (w : World),
    (Z.to_nat (retry - error_count) < fuel)%nat ->
    left_loop (send_start fuel retry error_count cancel s w).
Proof.
  induction fuel as [| fuel IH]; intros retry error_count cancel s w Hfuel; [lia |].
  cbn [send_start]; cbv zeta.
  destruct (getc 1 w) as [char w1].
  assert (Hcont : forall cancel',
             left_loop (if retry <? error_count + 1
                        then Done (Returned PyFalse) s (abort 2 w1)
                        else send_start fuel retry (error_count + 1) cancel' s w1)).
  { intros cancel'; destruct (Z.ltb_spec retry (error_count + 1));
      [cbn; discriminate | apply IH; lia]. }
  destruct (truthy char); [| apply Hcont].
  destruct (char_is char NAK); [exact I |].
  destruct (char_is char CRC); [exact I |].
  destruct (char_is char CAN);
    [destruct cancel; [cbn; discriminate | apply Hcont] |].
  destruct (char_is char EOT); [cbn; discriminate | apply Hcont].
Qed.

Lemma send_emit_left (fuel : nat) :
  forall (retry : Z) (packet : bytes) (st : SendSt) (s : Session) (w : World),
    (Z.to_nat (retry - s_error_count st) < fuel)%nat ->
    left_loop (send_emit fuel retry packet st s w).
Proof.
  induction fuel as [| fuel IH]; intros retry packet st s w Hfuel; [lia |].
  cbn [send_emit]; cbv zeta.
  destruct (getc 1 (putc_ packet w)) as [char w2].
  destruct (char_is char ACK); [exact I |].
  destruct (char_is char CAN && s_cancel st); [cbn; discriminate |].
  destruct (Z.ltb_spec retry (s_error_count st + 1)); [cbn; discriminate |].
  apply IH; cbn [s_error_count]; lia.
Qed.

Lemma send_eot_returns (fuel : nat) :
  forall (retry error_count : Z) (s : Session) (w : World),
    (Z.to_nat (retry - error_count) < fuel)%nat ->
    outcome_of (send_eot fuel retry error_count s w) <> OutOfFuel.
Proof.
  induction fuel as [| fuel IH]; intros retry error_count s w Hfuel; [lia |].
  cbn [send_eot].
  destruct (getc 1 (putc_ EOT w)) as [char w2].
  destruct (char_is char ACK); [cbn; discriminate |].
  destruct (Z.ltb_spec retry (error_count + 1)); [cbn; discriminate |].
  apply IH; lia.
Qed.

Lemma send_emit_break_frame (fuel : nat) (retry : Z) (packet : bytes)
                            (st st' : SendSt) (s s' : Session) (w w' : World) :
  send_emit fuel retry packet st s w = Break st' s' w' ->
  w_src w' = w_src w.
Proof.
  revert st w; induction fuel as [| fuel IH]; intros st w;
    cbn [send_emit]; cbv zeta; [discriminate |].
  rewrite getc_eq, putc__eq; cbn [w_in w_acc w_req w_out w_src w_sink].
  destruct (char_is _ ACK); [intros H; inversion H; subst; reflexivity |].
  destruct (char_is _ CAN && s_cancel st); [discriminate |].
  destruct (retry <? s_error_count st + 1); [discriminate |].
  intros H; apply IH in H; exact H.
Qed.

Lemma send_blocks_returns (fuel : nat) :
  forall (retry packet_size crc_mode : Z) (md5 : bytes)
         (st : SendSt) (s : Session) (w : World),
    0 <= s_error_count st ->
    (send_measure st w + Z.to_nat retry + 2 <= fuel)%nat ->
    outcome_of (send_blocks fuel retry packet_size crc_mode md5 st s w) <> OutOfFuel.
Proof.
  induction fuel as [| fuel IH];
    intros retry packet_size crc_mode md5 st s w Hec Hfuel; [lia |].
  cbn [send_blocks]; unfold send_block.
  destruct (canceled s); [cbn; discriminate |].
  destruct (send_next_data packet_size md5 st w) as [[data st1] w1] eqn:Hd.
  assert (Hst1 : s_error_count st1 = s_error_count st
                 /\ (data <> [] ->
                     (send_measure st1 w1 < send_measure st w)%nat)).
  { unfold send_next_data, send_measure in *.
    destruct (negb (s_md5_sent st) && (s_sequence st =? 0)) eqn:Hb.
    - inversion Hd; subst; cbn [s_error_count s_md5_sent].
      apply andb_prop in Hb; destruct Hb as [Hb _]; apply negb_true_iff in Hb.
      rewrite Hb; split; [reflexivity | lia].
    - unfold stream_read in Hd; inversion Hd; subst;
        cbn [s_error_count s_md5_sent w_src].
      split; [reflexivity |].
      intros Hne; rewrite length_skipn.
      destruct (w_src w) as [| x src]; [rewrite firstn_nil in Hne; congruence |].
      destruct (Z.to_nat packet_size); [cbn in Hne; congruence | cbn [length]; lia]. }
  destruct Hst1 as (Hec1 & Hdec).
  assert (Hinner : (Z.to_nat (retry - s_error_count st1) < fuel)%nat) by lia.
  destruct data as [| d data'].
  { apply send_eot_returns; exact Hinner. }
  specialize (Hdec ltac:(discriminate)).
  destruct (send_packet _ _ _ _ _) as [packet |]; [| cbn; discriminate].
  pose proof (send_emit_left fuel retry packet st1 s w1 Hinner) as Hleft.
  destruct (send_emit fuel retry packet st1 s w1) as [a s2 w2 | st2 s2 w2 | o s2 w2] eqn:He;
    cbn [left_loop] in Hleft; [contradiction | | exact Hleft].
  pose proof (send_emit_break _ _ _ _ _ _ _ _ _ He) as Hec2.
  pose proof (send_emit_break_counts _ _ _ _ _ _ _ _ _ He) as (_ & _ & Hm2 & _).
  pose proof (send_emit_break_frame _ _ _ _ _ _ _ _ _ He) as Hsrc2.
  apply IH; cbn [send_next_sequence s_error_count]; [lia |].
  unfold send_measure in *; cbn [send_next_sequence s_md5_sent].
  rewrite Hm2, Hsrc2; lia.
Qed.

(** X20. [send] always returns: on every transport script (after which the
    line is silent), for every source stream, identifier, session and
    retry budget, the call comes to an end with a Python outcome, after at
    most one turn of the block loop per byte of the stream (and one for
    the identifier block), no retry loop running more than [retry + 2]
    times. *)
Theorem send_returns (fuel : nat) (s : Session) (md5 : bytes) (retry : Z) (w : World) :
  (length (w_src w) + Z.to_nat retry + 3 <= fuel)%nat ->
  outcome_of (send fuel s md5 retry w) <> OutOfFuel.
Proof.
  intros Hfuel; unfold send.
  destruct (packet_size_of (mode s)) as [packet_size |]; [| cbn; discriminate].
  pose proof (send_start_left fuel retry 0 false s w ltac:(lia)) as Hleft.
  destruct (send_start fuel retry 0 false s w) as [a s1 w1 | [c k] s1 w1 | o s1 w1] eqn:Hs;
    cbn [left_loop] in Hleft; [contradiction | | exact Hleft].
  assert (Hsrc : w_src w1 = w_src w).
  { clear Hleft Hfuel; revert Hs; generalize 0 at 1; generalize false at 1.
    revert w; induction fuel as [| fuel IH]; intros w cancel ec;
      cbn [send_start]; cbv zeta; [discriminate |].
    rewrite getc_eq.
    repeat break_match; try discriminate;
      try (intros H; inversion H; subst; reflexivity);
      intros H; apply IH in H; exact H. }
  apply send_blocks_returns; cbn [s_error_count]; [lia |].
  unfold send_measure; cbn [s_md5_sent]; rewrite Hsrc; lia.
Qed.

Lemma send_returns_witness :
  outcome_of (send 400 (__init__ xmodem 0x1a) md5_new 16
                   (world [Some NAK; Some CAN; Some CAN] source300))
  <> OutOfFuel.
Proof.
  apply send_returns; vm_compute; lia.
Defined.

Lemma recv_start_left (fuel : nat) :
  forall (retry crc_mode error_count : Z) (cancel : bool) (s : Session) (w : World),
    (Z.to_nat (retry - error_count) + (if cancel then 0 else 1) < fuel)%nat ->
    match recv_start fuel retry crc_mode error_count cancel s w with
    | Break _ _ w1 => (length (w_in w1) <= length (w_in w))%nat
    | Done o _ _ => o <> OutOfFuel
    | Next _ _ _ => False
    end.
Proof.
  induction fuel as [| fuel IH];
    intros retry crc_mode error_count cancel s w Hfuel; [lia |].
  cbn [recv_start].
  destruct (Z.leb_spec retry error_count) as [Hle | Hlt]; [discriminate |].
  assert (Hstep : forall crc1 ec1 w1,
             error_count <= ec1 ->
             (length (w_in w1) <= length (w_in w))%nat ->
             match
               (let (char, w2) := getc 1 w1 in
                match char with
                | None => recv_start fuel retry crc1 (ec1 + 1) cancel s w2
                | Some c =>
                    if bytes_eqb c SOH then Break (char, crc1) (lock_mode s xmodem) w2
                    else if bytes_eqb c STX
                         then Break (char, crc1) (lock_mode s xmodem8k) w2
                         else if bytes_eqb c CAN
                              then if cancel then Done (Returned PyNone) s w2
                                   else recv_start fuel retry crc1 ec1 true s w2
                              else recv_start fuel retry crc1 (ec1 + 1) cancel s w2
                end)
             with
             | Break _ _ w3 => (length (w_in w3) <= length (w_in w))%nat
             | Done o _ _ => o <> OutOfFuel
             | Next _ _ _ => False
             end).
  { intros crc1 ec1 w1 Hec Hlen; rewrite getc_eq.
    assert (Htl : (length (tl (w_in w1)) <= length (w_in w))%nat)
      by (destruct (w_in w1); cbn [tl length] in *; lia).
    assert (Hrec : forall crc ec (c : bool) w2,
               w_in w2 = tl (w_in w1) ->
               (Z.to_nat (retry - ec) + (if c then 0 else 1) < fuel)%nat ->
               match recv_start fuel retry crc ec c s w2 with
               | Break _ _ w3 => (length (w_in w3) <= length (w_in w))%nat
               | Done o _ _ => o <> OutOfFuel
               | Next _ _ _ => False
               end).
    { intros crc ec c w2 Hw2 Hf; specialize (IH retry crc ec c s w2 Hf).
      destruct (recv_start fuel retry crc ec c s w2); try exact IH.
      rewrite Hw2 in IH; lia. }
    destruct (hd None (w_in w1)) as [c |]; [| apply Hrec; [reflexivity | lia]].
    destruct (bytes_eqb c SOH); [exact Htl |].
    destruct (bytes_eqb c STX); [exact Htl |].
    destruct (bytes_eqb c CAN).
    - destruct cancel; [discriminate | apply Hrec; [reflexivity | lia]].
    - apply Hrec; [reflexivity | lia]. }
  destruct (negb (crc_mode =? 0) && (error_count <? retry / 2)).
  - destruct (putc CRC w) as [ok w1] eqn:Hp.
    assert (Hw1 : w_in w1 = w_in w)
      by (change w1 with (snd (ok, w1)); rewrite <- Hp, putc_snd, putc__eq; reflexivity).
    apply Hstep; [destruct ok; lia | rewrite Hw1; lia].
  - destruct (putc NAK w) as [ok w1] eqn:Hp.
    assert (Hw1 : w_in w1 = w_in w)
      by (change w1 with (snd (ok, w1)); rewrite <- Hp, putc_snd, putc__eq; reflexivity).
    apply Hstep; [destruct ok; lia | rewrite Hw1; lia].
Qed.

Lemma purge_in_length (w : World) :
  (length (w_in (purge w)) <= length (w_in w))%nat
  /\ (w_in w = [] -> w_in (purge w) = []).
Proof.
  destruct (purge_spec w) as (k & -> & _); cbn [w_in].
  split; [rewrite length_skipn; lia | intros ->; apply skipn_nil].
Qed.

Lemma recv_wait_left (fuel : nat) :
  forall (retry : Z) (st : RecvSt) (s : Session) (w : World),
    (Z.to_nat (retry - r_error_count st) + (if r_cancel st then 0 else 1) < fuel)%nat ->
    match recv_wait fuel retry st s w with
    | Break _ _ w1 =>
        (w1 = w /\ r_char st <> None) \/ (length (w_in w1) < length (w_in w))%nat
    | Done o _ _ => o <> OutOfFuel
    | Next _ _ _ => False
    end.
Proof.
  induction fuel as [| fuel IH]; intros retry st s w Hfuel; [lia |].
  cbn [recv_wait]; cbv zeta.
  destruct (char_is (r_char st) SOH || char_is (r_char st) STX) eqn:Hstart.
  { left; split; [reflexivity |].
    destruct (r_char st); [discriminate | discriminate Hstart]. }
  destruct (char_is (r_char st) EOT); [discriminate |].
  destruct (char_is (r_char st) CAN) eqn:Hcan.
  { destruct (r_cancel st) eqn:Hc; [discriminate |].
    match goal with
    | |- match recv_wait fuel retry ?st' s w with _ => _ end =>
        specialize (IH retry st' s w); cbn [r_error_count r_cancel r_char] in IH;
        specialize (IH ltac:(lia));
        destruct (recv_wait fuel retry st' s w); exact IH
    end. }
  destruct (Z.ltb_spec retry (r_error_count st + 1)); [discriminate |].
  set (w1 := match r_char st with
             | Some _ => putc_ NAK (purge w)
             | None => w
             end).
  assert (Hw1 : (length (w_in w1) <= length (w_in w))%nat).
  { subst w1; destruct (r_char st); [| lia].
    rewrite putc__eq; cbn [w_in]; apply purge_in_length. }
  rewrite getc_eq.
  match goal with
  | |- match recv_wait fuel retry ?st' s ?w2 with _ => _ end =>
      specialize (IH retry st' s w2); cbn [r_error_count r_cancel r_char] in IH;
      specialize (IH ltac:(lia));
      destruct (recv_wait fuel retry st' s w2) as [a s3 w3 | a s3 w3 | o s3 w3];
      try exact IH
  end.
  right; cbn [w_in] in IH.
  destruct IH as [[-> Hchar] | Hlt].
  - cbn [w_in]; destruct (w_in w1); [cbn in Hchar; congruence | cbn [tl length] in *; lia].
  - destruct (w_in w1); cbn [tl length] in *; lia.
Qed.


Lemma reads_on_from (st : RecvSt) (w w1 : World) (stp : Step RecvSt) :
  (length (w_in w1) <= length (w_in w))%nat ->
  reads_on st w1 stp -> reads_on st w stp.
Proof.
  intros Hlen; destruct stp as [st' s' w' | a s' w' | o s' w']; cbn [reads_on]; auto.
  intros (H1 & H2 & H3); split; [lia |]; split; [| exact H3].
  intros Hnil; apply H2; rewrite Hnil in Hlen; cbn in Hlen.
  destruct (w_in w1); [reflexivity | cbn in Hlen; lia].
Qed.

Lemma recv_retrans_reads_on (st : RecvSt) (s : Session) (w : World) :
  reads_on st w (recv_retrans st s w).
Proof.
  destruct (recv_retrans_spec st s w) as (k & _ & _ & ->).
  destruct (r_retrans st - 1 <=? 0); cbn [reads_on]; [discriminate |].
  cbn [w_in r_char r_error_count].
  split; [| split; [| reflexivity]].
  - pose proof (length_skipn (S k) (w_in w)).
    destruct (skipn (S k) (w_in w)); cbn [tl length] in *; lia.
  - intros ->; rewrite skipn_nil; reflexivity.
Qed.

Lemma recv_ack_reads_on (st : RecvSt) (s : Session) (w : World) :
  reads_on st w (recv_ack st s w).
Proof.
  unfold recv_ack; rewrite getc_eq, putc__eq; cbn [reads_on w_in r_char r_error_count].
  split; [destruct (w_in w); cbn [tl length]; lia |].
  split; [intros ->; reflexivity | reflexivity].
Qed.

Lemma recv_accept_reads_on (retry is_stx : Z) (md5 data : bytes)
                           (st : RecvSt) (s : Session) (w : World) :
  reads_on st w (recv_accept retry is_stx md5 data st s w).
Proof.
  unfold recv_accept; cbv zeta.
  destruct ((r_sequence st =? 0) && negb (r_md5_received st)).
  - destruct (bytes_eqb md5 _); [cbn; discriminate |].
    match goal with
    | |- reads_on _ _ (recv_ack ?st1 s w) => exact (recv_ack_reads_on st1 s w)
    end.
  - destruct (block_content is_stx data) as [content |]; [| cbn; discriminate].
    match goal with
    | |- reads_on _ _ (recv_ack ?st1 s ?w1) =>
        apply (reads_on_from st w w1); [cbn [stream_write w_in]; lia |];
        exact (recv_ack_reads_on st1 s w1)
    end.
Qed.

Lemma getc_in_length (size : Z) (w : World) :
  (length (w_in (snd (getc size w))) <= length (w_in w))%nat.
Proof. rewrite getc_eq; cbn [snd w_in]; destruct (w_in w); cbn [tl length]; lia. Qed.

Lemma recv_data_reads_on (retry packet_size is_stx crc_mode : Z) (md5 : bytes)
                         (st : RecvSt) (s : Session) (w : World) :
  reads_on st w (recv_data retry packet_size is_stx crc_mode md5 st s w).
Proof.
  unfold recv_data.
  pose proof (getc_in_length (1 + is_stx + packet_size + 1 + crc_mode) w) as Hlen.
  destruct (getc _ w) as [data w1]; cbn [snd] in Hlen.
  apply (reads_on_from st w w1 _ Hlen).
  destruct data as [d |]; [| apply recv_retrans_reads_on].
  destruct (_verify_recv_checksum crc_mode d) as [[[|] d'] |];
    [apply recv_accept_reads_on | apply recv_retrans_reads_on | cbn; discriminate].
Qed.

Lemma recv_mismatch_reads_on (packet_size crc_mode : Z)
                             (st : RecvSt) (s : Session) (w : World) :
  reads_on st w (recv_mismatch packet_size crc_mode st s w).
Proof.
  unfold recv_mismatch.
  apply (reads_on_from st w _ _ (getc_in_length (2 + packet_size + 1 + crc_mode) w)),
    recv_retrans_reads_on.
Qed.

(** What follows a start byte takes at least one read away from a script
    that still has one. *)
Lemma recv_packet_reads (retry packet_size is_stx crc_mode : Z) (md5 : bytes)
                        (st : RecvSt) (s : Session) (w : World) :
  match recv_packet retry packet_size is_stx crc_mode md5 st s w with
  | Next st' _ w' =>
      (w_in w <> [] -> (length (w_in w') < length (w_in w))%nat)
      /\ (w_in w = [] -> w_in w' = [] /\ r_char st' = None)
      /\ r_error_count st' = 0
  | Break _ _ _ => False
  | Done o _ _ => o <> OutOfFuel
  end.
Proof.
  unfold recv_packet; cbv zeta.
  assert (Hseq : match read_sequence w with
                 | (_, w1) =>
                     (length (w_in w1) <= length (w_in w) - 1)%nat
                 end).
  { unfold read_sequence; rewrite getc_eq.
    destruct (hd None (w_in w)) as [b1 |] eqn:Hh;
      [| cbn [w_in]; destruct (w_in w); cbn [tl length]; lia].
    destruct (ord b1); [| cbn [w_in]; destruct (w_in w); cbn [tl length]; lia].
    rewrite getc_eq; cbn [w_in].
    assert (Hl : (length (tl (tl (w_in w))) <= length (w_in w) - 1)%nat)
      by (destruct (w_in w) as [| ? [| ? ?]]; cbn [tl length]; lia).
    destruct (hd None (tl (w_in w))) as [b2 |]; [destruct (ord b2) |]; exact Hl. }
  destruct (read_sequence w) as [[[seq1 seq2] |] w1]; [| discriminate].
  assert (Hon : reads_on (clear_errors st) w1
                  (if sequence_ok seq1 seq2 (r_sequence (clear_errors st))
                   then recv_data retry packet_size is_stx crc_mode md5
                                  (clear_errors st) s w1
                   else recv_mismatch packet_size crc_mode (clear_errors st) s w1))
    by (destruct (sequence_ok _ _ _);
        [apply recv_data_reads_on | apply recv_mismatch_reads_on]).
  destruct (if sequence_ok seq1 seq2 (r_sequence (clear_errors st)) then _ else _)
    as [st' s' w' | a s' w' | o s' w']; cbn [reads_on] in Hon; try exact Hon.
  destruct Hon as (Hlen & Hnone & Hec); cbn [clear_errors r_error_count] in Hec.
  split; [| split; [| exact Hec]].
  - intros Hne; destruct (w_in w); [congruence | cbn [length] in *; lia].
  - intros Hnil; rewrite Hnil in Hseq; cbn [length] in Hseq.
    assert (Hw1 : w_in w1 = []) by (destruct (w_in w1); [reflexivity | cbn in Hseq; lia]).
    split; [| apply Hnone; exact Hw1].
    rewrite Hw1 in Hlen; destruct (w_in w'); [reflexivity | cbn in Hlen; lia].
Qed.

Lemma recv_blocks_returns (fuel : nat) :
  forall (retry packet_size is_stx crc_mode : Z) (md5 : bytes)
         (st : RecvSt) (s : Session) (w : World),
    r_error_count st = 0 ->
    (recv_measure st w + Z.to_nat retry + 3 <= fuel)%nat ->
    outcome_of (recv_blocks fuel retry packet_size is_stx crc_mode md5 st s w)
    <> OutOfFuel.
Proof.
  induction fuel as [| fuel IH];
    intros retry packet_size is_stx crc_mode md5 st s w Hec Hfuel; [lia |].
  cbn [recv_blocks]; unfold recv_block.
  destruct (canceled s); [cbn; discriminate |].
  pose proof (recv_wait_left fuel retry st s w) as Hwait.
  rewrite Hec, Z.sub_0_r in Hwait.
  specialize (Hwait ltac:(destruct (r_cancel st); lia)).
  destruct (recv_wait fuel retry st s w) as [a s1 w1 | st1 s1 w1 | o s1 w1];
    [contradiction | | exact Hwait].
  pose proof (recv_packet_reads retry packet_size is_stx crc_mode md5 st1 s1 w1) as Hp.
  destruct (recv_packet retry packet_size is_stx crc_mode md5 st1 s1 w1)
    as [st' s' w' | a s' w' | o s' w']; [| contradiction | exact Hp].
  destruct Hp as (Hstrict & Hempty & Hec').
  apply IH; [exact Hec' |].
  assert (Hdec : (recv_measure st' w' < recv_measure st w)%nat); [| lia].
  unfold recv_measure.
  destruct (w_in w1) as [| r l] eqn:Hw1.
  - destruct (Hempty eq_refl) as (Hw' & Hchar'); rewrite Hw', Hchar'; cbn [length].
    destruct Hwait as [[-> Hchar] | Hlt].
    + destruct (r_char st); [lia | congruence].
    + cbn [length] in Hlt; lia.
  - specialize (Hstrict ltac:(discriminate)).
    cbn [length] in Hstrict.
    destruct Hwait as [[-> Hchar] | Hlt].
    + rewrite Hw1; cbn [length].
      destruct (r_char st'), (r_char st); try lia; congruence.
    + cbn [length] in Hlt.
      destruct (r_char st'), (r_char st); lia.
Qed.

(** X21. [recv] always returns: on every transport script (after which the
    line is silent), whatever the bytes and short reads in it, for every
    session, expected identifier, integrity mode and retry budget, the
    call comes to an end with a Python outcome; every turn of the block
    loop but the last takes at least one read away from the script, and
    no retry loop runs more than [retry + 2] times. *)
Theorem recv_returns (fuel : nat) (s : Session) (md5 : bytes) (crc_mode retry : Z)
                     (w : World) :
  (2 * length (w_in w) + Z.to_nat retry + 4 <= fuel)%nat ->
  outcome_of (recv fuel s md5 crc_mode retry w) <> OutOfFuel.
Proof.
  intros Hfuel; unfold recv.
  pose proof (recv_start_left fuel retry crc_mode 0 false s w) as Hstart.
  rewrite Z.sub_0_r in Hstart; specialize (Hstart ltac:(lia)).
  destruct (recv_start fuel retry crc_mode 0 false s w)
    as [a s1 w1 | [char crc1] s1 w1 | o s1 w1]; [contradiction | | exact Hstart].
  destruct (packet_size_of (mode s1)) as [packet_size |]; [| cbn; discriminate].
  apply recv_blocks_returns; [reflexivity |].
  unfold recv_measure, recv_init; cbn [r_char].
  destruct char; lia.
Qed.

Lemma recv_returns_witness :
  outcome_of (recv 40 (__init__ xmodem8k 0x1a) md5_old 1 16
                   (world [Some STX; Some [5]; Some [250]; Some [1; 2; 3]] []))
  <> OutOfFuel.
Proof.
  apply recv_returns; vm_compute; lia.
Defined.
